(** * SyncPad backend: survey schema, submission gatekeeper, account lookup

    A shallow embedding of

    - [backend/app/models/survey.py]       (pydantic survey schema),
    - [backend/app/controllers/survey.py]  (request handlers),
    - [backend/canary/app/models/user.py]  (Argon2 parameter schema),
    - [backend/canary/app/lib/user.py]     (account lookup),

    followed by the properties of the design document that concern them.

    Conventions.  A pydantic model class is embedded as a record (the
    validated instance) together with a function [validate_<class>] from
    the raw payload to [validated] (the constructor call of the class on
    the payload).  In a raw payload every field is an [option]: [None] is a
    key the payload does not carry.  Payload values already have the JSON type of the field
    they are given for; pydantic's coercions between JSON types are not
    modelled.  Handlers run in a state-and-exception monad over the document
    store. *)

From stdpp Require Import base option list gmap strings.
From Stdlib Require Import ZArith Lia.

Local Open Scope Z_scope.

(** ** Validation results, as pydantic reports them *)

Module Pydantic.

(** One component of an error location: a field name or a list index. *)
Inductive loc_item :=
| Key (k : string)
| Idx (i : nat).

(** The error kinds the modelled schemas can produce. *)
Inductive error_kind :=
| Missing                       (* value_error.missing *)
| MinLength (limit : nat)       (* value_error.any_str.min_length *)
| MaxLength (limit : nat)       (* value_error.any_str.max_length *)
| NotGe (limit : Z)             (* value_error.number.not_ge *)
| NotLe (limit : Z)             (* value_error.number.not_le *)
| NotLt (limit : Z)             (* value_error.number.not_lt *)
| MaxItems (limit : nat)        (* value_error.list.max_items *)
| MinItems (limit : nat)        (* value_error.list.min_items *)
| EnumMember                    (* type_error.enum *)
| ValueError (msg : string).    (* raised by a @validator method *)

Definition error : Type := list loc_item * error_kind.

(** [Model] applied to the payload either builds the instance or raises one
    [ValidationError] that carries every error found. *)
Inductive validated (A : Type) :=
| Valid (a : A)
| Invalid (errs : list error).
Arguments Valid {A} a.
Arguments Invalid {A} errs.

Definition is_valid {A} (v : validated A) : bool :=
  match v with Valid _ => true | Invalid _ => false end.

Definition errors_of {A} (v : validated A) : list error :=
  match v with Valid _ => [] | Invalid errs => errs end.

Definition vmap {A B} (f : A → B) (v : validated A) : validated B :=
  match v with Valid a => Valid (f a) | Invalid e => Invalid e end.

(** Fields of one model are validated independently and their errors are
    collected in field order. *)
Definition vap {A B} (f : validated (A → B)) (v : validated A) : validated B :=
  match f, v with
  | Valid g, Valid a => Valid (g a)
  | Valid _, Invalid e => Invalid e
  | Invalid e, Valid _ => Invalid e
  | Invalid e1, Invalid e2 => Invalid (e1 ++ e2)
  end.

(** Within one field the stages run in sequence and stop at the first
    stage that reports errors. *)
Definition vbind {A B} (v : validated A) (k : A → validated B) : validated B :=
  match v with Valid a => k a | Invalid e => Invalid e end.

Definition under (l : loc_item) {A} (v : validated A) : validated A :=
  match v with
  | Valid a => Valid a
  | Invalid errs => Invalid (map (λ e, (l :: e.1, e.2)) errs)
  end.

Definition fail {A} (k : error_kind) : validated A := Invalid [([], k)].

(** A field declared with [Field(...)]: required. *)
Definition required {R A} (name : string) (f : R → validated A)
    (v : option R) : validated A :=
  under (Key name) (match v with Some r => f r | None => fail Missing end).

(** A field declared [Optional[T] = None]. *)
Definition optional {R A} (name : string) (f : R → validated A)
    (v : option R) : validated (option A) :=
  under (Key name)
    (match v with Some r => vmap Some (f r) | None => Valid None end).

(** A field with a default: the default is taken as it is, unvalidated,
    when the payload does not carry the key. *)
Definition defaulted {R A} (name : string) (d : A) (f : R → validated A)
    (v : option R) : validated A :=
  under (Key name) (match v with Some r => f r | None => Valid d end).

(** [str] with [min_length]/[max_length]; the length is the number of
    characters. *)
Definition str_field (min_length : nat) (max_length : option nat)
    (s : string) : validated string :=
  if (String.length s <? min_length)%nat then fail (MinLength min_length)
  else match max_length with
       | Some m =>
           if (m <? String.length s)%nat then fail (MaxLength m) else Valid s
       | None => Valid s
       end.

Definition str_max (max_length : nat) : string → validated string :=
  str_field 0 (Some max_length).

(** [int] with [ge] and [lt]. *)
Definition int_ge_lt (ge lt : Z) (n : Z) : validated Z :=
  if n <? ge then fail (NotGe ge)
  else if lt <=? n then fail (NotLt lt)
  else Valid n.

(** [int] with [ge] and [le]. *)
Definition int_ge_le (ge le : Z) (n : Z) : validated Z :=
  if n <? ge then fail (NotGe ge)
  else if le <? n then fail (NotLe le)
  else Valid n.

Definition bool_field (b : bool) : validated bool := Valid b.

Fixpoint each_item {R A} (f : R → validated A) (i : nat) (l : list R)
    : validated (list A) :=
  match l with
  | [] => Valid []
  | r :: rs => vap (vmap cons (under (Idx i) (f r))) (each_item f (S i) rs)
  end.

(** [List[T]] with [max_items]: the length bound is checked on the raw
    list, and only a list within the bound has its items validated.  A
    [@validator] method of the field runs afterwards, on the validated
    list, and only when neither stage reported an error ([vbind]). *)
Definition list_field {R A} (max_items : nat) (f : R → validated A)
    (l : list R) : validated (list A) :=
  if (max_items <? length l)%nat then fail (MaxItems max_items)
  else each_item f 0 l.

(** [len(ids) != len(set(ids))] *)
Definition has_duplicates (ids : list Z) : bool :=
  negb (length ids =? size (list_to_set (C := gset Z) ids))%nat.

Notation "f <$$> v" := (vmap f v) (at level 61, left associativity).
Notation "f <*> v" := (vap f v) (at level 61, left associativity).

End Pydantic.

Import Pydantic.

(** ** Documents: what a model is serialised to and the store holds *)

Module Document.

(** A value of a document. *)
#[warnings="-register-all"] Inductive value :=
| VNone
| VBool (b : bool)
| VInt (n : Z)
| VStr (s : string)
| VList (l : list value)
| VDict (d : list (string * value)).

(** Every key that occurs in a value, at any depth. *)
Fixpoint keys_of (v : value) : list string :=
  match v with
  | VList l => concat (map keys_of l)
  | VDict d =>
      concat (map (λ kv, match kv with (k, x) => k :: keys_of x end) d)
  | _ => []
  end.

(** [d[k]] for a dictionary value. *)
Fixpoint assoc (k : string) (d : list (string * value)) : option value :=
  match d with
  | [] => None
  | (k', x) :: rest => if bool_decide (k' = k) then Some x else assoc k rest
  end.

Definition field (k : string) (v : value) : option value :=
  match v with
  | VDict d => assoc k d
  | _ => None
  end.

End Document.

(** ** Identifiers *)

(** A [bson.ObjectId], by [str(oid)]: the bytes of the id in lower-case
    hexadecimal digits. *)
Record ObjectId := mkObjectId { oid_hex : string }.

#[global] Instance ObjectId_eq_dec : EqDecision ObjectId.
Proof. solve_decision. Defined.

(** The value of a hexadecimal digit, of either case. *)
Definition hex_value (c : Ascii.ascii) : option N :=
  let n := Ascii.N_of_ascii c in
  if ((48 <=? n) && (n <=? 57))%N then Some (n - 48)%N
  else if ((65 <=? n) && (n <=? 70))%N then Some (n - 55)%N
  else if ((97 <=? n) && (n <=? 102))%N then Some (n - 87)%N
  else None.

(** ASCII white space: tab, line feed, vertical tab, form feed, carriage
    return and space. *)
Definition is_space (c : Ascii.ascii) : bool :=
  let n := Ascii.N_of_ascii c in
  ((9 <=? n) && (n <=? 13) || (n =? 32))%N.

(** [bytes.fromhex]: white space between bytes is skipped, every byte is
    two adjacent hexadecimal digits, anything else is a [ValueError]
    ([None]). *)
Fixpoint fromhex (s : list Ascii.ascii) : option (list N) :=
  match s with
  | [] => Some []
  | c :: rest =>
      if is_space c then fromhex rest
      else match hex_value c, rest with
           | Some top, c' :: rest' =>
               match hex_value c' with
               | Some bot => cons (16 * top + bot)%N <$> fromhex rest'
               | None => None
               end
           | _, _ => None
           end
  end.

Definition hex_digit (n : N) : Ascii.ascii :=
  Ascii.ascii_of_N (if (n <? 10)%N then n + 48 else n + 87)%N.

(** [binascii.hexlify]: two lower-case digits for every byte. *)
Fixpoint hexlify (bytes : list N) : string :=
  match bytes with
  | [] => ""
  | b :: rest => String (hex_digit (b / 16)) (String (hex_digit (b mod 16)) (hexlify rest))
  end.

(** [ObjectId(s)] for a string [s]: [InvalidId] ([None]) unless [s] has 24
    characters and [bytes.fromhex] reads it; the id is the bytes read. *)
Definition ObjectId_of_str (s : string) : option ObjectId :=
  if (String.length s =? 24)%nat
  then (λ bytes, mkObjectId (hexlify bytes)) <$> fromhex (String.list_ascii_of_string s)
  else None.

(** ** [app/models/survey.py] *)

Module SurveyModels.

(** Modelled from the spec: [IvField] of [app/models/customs.py], which is
    not among the sources.  Section 3 of the design: the [iv] is required
    and validated by length only, within a fixed window.  The window is a
    parameter of the development. *)
Class IvWindow := { iv_min_length : nat; iv_max_length : nat }.

Definition IvField_iv `{IvWindow} : string → validated string :=
  str_field iv_min_length (Some iv_max_length).

(** Payload and instance of a subclass of [IvField] that adds the one field
    [cipher_text]. *)
Record RawIvCipher := mkRawIvCipher {
  raw_iv : option string;
  raw_cipher_text : option string
}.

Record IvCipherModel := mkIvCipher {
  iv : string;
  cipher_text : string
}.

Definition validate_IvCipher `{IvWindow} (max_length : nat) (p : RawIvCipher)
    : validated IvCipherModel :=
  mkIvCipher <$$> required "iv" IvField_iv (raw_iv p)
             <*> required "cipher_text" (str_max max_length) (raw_cipher_text p).

Definition validate_SurveySecretKeyModel `{IvWindow} := validate_IvCipher 240.
Definition validate_SurveyKeypairCipherModel `{IvWindow} := validate_IvCipher 240.
Definition validate_SurveyRegexModel `{IvWindow} := validate_IvCipher 128.
Definition validate_SurveyDescriptionModel `{IvWindow} := validate_IvCipher 1024.
Definition validate_SurveyQuestionsModel `{IvWindow} := validate_IvCipher 256.
Definition validate_TitleModel `{IvWindow} := validate_IvCipher 128.

(** [SurveySignPublicKeyModel] *)
Record RawSignPublicKey := mkRawSignPublicKey {
  raw_spk_public_key : option string
}.

Record SurveySignPublicKeyModel := mkSignPublicKey {
  spk_public_key : string
}.

Definition validate_SurveySignPublicKeyModel (p : RawSignPublicKey)
    : validated SurveySignPublicKeyModel :=
  mkSignPublicKey <$$> required "public_key" (str_max 44) (raw_spk_public_key p).

(** [SurveySignKeyPairModel(SurveySignPublicKeyModel, IvField)] *)
Record RawSignKeyPair := mkRawSignKeyPair {
  raw_skp_iv : option string;
  raw_skp_public_key : option string;
  raw_skp_cipher_text : option string
}.

Record SurveySignKeyPairModel := mkSignKeyPair {
  skp_iv : string;
  skp_public_key : string;
  skp_cipher_text : string
}.

Definition validate_SurveySignKeyPairModel `{IvWindow} (p : RawSignKeyPair)
    : validated SurveySignKeyPairModel :=
  mkSignKeyPair <$$> required "iv" IvField_iv (raw_skp_iv p)
                <*> required "public_key" (str_max 44) (raw_skp_public_key p)
                <*> required "cipher_text" (str_max 240) (raw_skp_cipher_text p).

(** [SurveyPublicKeyModel] and [SurveyKeypairModel(SurveyPublicKeyModel)] *)
Record RawPublicKey := mkRawPublicKey {
  raw_pk_public_key : option RawIvCipher
}.

Record SurveyPublicKeyModel := mkPublicKey {
  pk_public_key : IvCipherModel
}.

Definition validate_SurveyPublicKeyModel `{IvWindow} (p : RawPublicKey)
    : validated SurveyPublicKeyModel :=
  mkPublicKey
    <$$> required "public_key" validate_SurveyKeypairCipherModel (raw_pk_public_key p).

Record RawKeypair := mkRawKeypair {
  raw_kp_public_key : option RawIvCipher;
  raw_kp_private_key : option RawIvCipher
}.

Record SurveyKeypairModel := mkKeypair {
  kp_public_key : IvCipherModel;
  kp_private_key : IvCipherModel
}.

Definition validate_SurveyKeypairModel `{IvWindow} (p : RawKeypair)
    : validated SurveyKeypairModel :=
  mkKeypair
    <$$> required "public_key" validate_SurveyKeypairCipherModel (raw_kp_public_key p)
    <*> required "private_key" validate_SurveyKeypairCipherModel (raw_kp_private_key p).

(** [SurveyChoicesModel(IvField)] *)
Record RawChoice := mkRawChoice {
  raw_ch_iv : option string;
  raw_ch_id : option Z;
  raw_ch_cipher_text : option string
}.

Record SurveyChoicesModel := mkChoice {
  ch_iv : string;
  ch_id : Z;
  ch_cipher_text : string
}.

Definition validate_SurveyChoicesModel `{IvWindow} (p : RawChoice)
    : validated SurveyChoicesModel :=
  mkChoice <$$> required "iv" IvField_iv (raw_ch_iv p)
           <*> required "id" (int_ge_lt 0 1024) (raw_ch_id p)
           <*> required "cipher_text" (str_max 512) (raw_ch_cipher_text p).

(** [SurveyQuestionType(int, Enum)] *)
Inductive SurveyQuestionType :=
| ShortAnswer
| Paragraph
| MultipleChoice
| SingleChoice.

Definition SurveyQuestionType_value (t : SurveyQuestionType) : Z :=
  match t with
  | ShortAnswer => 0
  | Paragraph => 1
  | MultipleChoice => 2
  | SingleChoice => 3
  end.

Definition validate_SurveyQuestionType (n : Z) : validated SurveyQuestionType :=
  if n =? 0 then Valid ShortAnswer
  else if n =? 1 then Valid Paragraph
  else if n =? 2 then Valid MultipleChoice
  else if n =? 3 then Valid SingleChoice
  else fail EnumMember.

(** [SurveyQuestionModel] *)
Record RawQuestion := mkRawQuestion {
  raw_q_id : option Z;
  raw_q_regex : option RawIvCipher;
  raw_q_description : option RawIvCipher;
  raw_q_question : option RawIvCipher;
  raw_q_choices : option (list RawChoice);
  raw_q_required : option bool;
  raw_q_type : option Z
}.

Record SurveyQuestionModel := mkQuestion {
  q_id : Z;
  q_regex : option IvCipherModel;
  q_description : option IvCipherModel;
  q_question : IvCipherModel;
  q_choices : option (list SurveyChoicesModel);
  q_required : bool;
  q_type : SurveyQuestionType
}.

(** The [@validator("choices")] method. *)
Definition choices_validator (v : option (list SurveyChoicesModel))
    : validated (option (list SurveyChoicesModel)) :=
  match v with
  | None | Some [] => Valid v                       (* if not v: return v *)
  | Some l =>
      let ids := map ch_id l in
      if has_duplicates ids then fail (ValueError "Duplicate choices ids")
      else Valid v
  end.

(** The field [choices: Optional[List[SurveyChoicesModel]]] with
    [max_items=56]. *)
Definition validate_choices `{IvWindow} (v : option (list RawChoice))
    : validated (option (list SurveyChoicesModel)) :=
  under (Key "choices")
    (match v with
     | None => Valid None
     | Some l =>
         vbind (Some <$$> list_field 56 validate_SurveyChoicesModel l)
               choices_validator
     end).

Definition validate_SurveyQuestionModel `{IvWindow} (p : RawQuestion)
    : validated SurveyQuestionModel :=
  mkQuestion
    <$$> required "id" (int_ge_lt 0 1024) (raw_q_id p)
    <*> optional "regex" validate_SurveyRegexModel (raw_q_regex p)
    <*> optional "description" validate_SurveyDescriptionModel (raw_q_description p)
    <*> required "question" validate_SurveyQuestionsModel (raw_q_question p)
    <*> validate_choices (raw_q_choices p)
    <*> defaulted "required" false bool_field (raw_q_required p)
    <*> required "type" validate_SurveyQuestionType (raw_q_type p).

(** [__SurveySharedModel] *)
Record RawSurveyShared := mkRawSurveyShared {
  raw_title : option RawIvCipher;
  raw_description : option RawIvCipher;
  raw_questions : option (list RawQuestion);
  raw_signature : option string;
  raw_requires_login : option bool;
  raw_proxy_block : option bool;
  raw_allow_multiple_submissions : option bool;
  raw_algorithms : option string
}.

Record SurveySharedModel := mkSurveyShared {
  title : IvCipherModel;
  description : option IvCipherModel;
  questions : list SurveyQuestionModel;
  signature : string;
  requires_login : bool;
  proxy_block : bool;
  allow_multiple_submissions : bool;
  algorithms : string
}.

(** The [@validator("questions")] method. *)
Definition questions_validator (v : list SurveyQuestionModel)
    : validated (list SurveyQuestionModel) :=
  let ids := map q_id v in
  if has_duplicates ids then fail (ValueError "Duplicate question ids")
  else Valid v.

Definition default_algorithms : string :=
  "XChaCha20Poly1305+ED25519+X25519_XSalsa20Poly1305+BLAKE2b".

Definition validate_SurveySharedModel `{IvWindow} (p : RawSurveyShared)
    : validated SurveySharedModel :=
  mkSurveyShared
    <$$> required "title" validate_TitleModel (raw_title p)
    <*> optional "description" validate_SurveyDescriptionModel (raw_description p)
    <*> required "questions"
          (λ l, vbind (list_field 128 validate_SurveyQuestionModel l)
                      questions_validator)
          (raw_questions p)
    <*> required "signature" (str_max 128) (raw_signature p)
    <*> defaulted "requires_login" false bool_field (raw_requires_login p)
    <*> defaulted "proxy_block" false bool_field (raw_proxy_block p)
    <*> defaulted "allow_multiple_submissions" false bool_field
          (raw_allow_multiple_submissions p)
    <*> defaulted "algorithms" default_algorithms Valid (raw_algorithms p).

(** [SurveyCreateModel(__SurveySharedModel)]: the fields of the base class
    are kept together as [create_shared]. *)
Record RawSurveyCreate := mkRawSurveyCreate {
  raw_create_shared : RawSurveyShared;
  raw_create_sign_keypair : option RawSignKeyPair;
  raw_create_secret_key : option RawIvCipher;
  raw_create_keypair : option RawKeypair
}.

Record SurveyCreateModel := mkSurveyCreate {
  create_shared : SurveySharedModel;
  create_sign_keypair : SurveySignKeyPairModel;
  create_secret_key : IvCipherModel;
  create_keypair : SurveyKeypairModel
}.

Definition validate_SurveyCreateModel `{IvWindow} (p : RawSurveyCreate)
    : validated SurveyCreateModel :=
  mkSurveyCreate
    <$$> validate_SurveySharedModel (raw_create_shared p)
    <*> required "sign_keypair" validate_SurveySignKeyPairModel
          (raw_create_sign_keypair p)
    <*> required "secret_key" validate_SurveySecretKeyModel (raw_create_secret_key p)
    <*> required "keypair" validate_SurveyKeypairModel (raw_create_keypair p).

(** [SurveyPublicModel(__SurveySharedModel, CustomJsonEncoder)].
    [created] is a [datetime], kept as its timestamp in microseconds. *)
Record SurveyPublicModel := mkSurveyPublic {
  public_shared : SurveySharedModel;
  public_created : Z;
  public_id : ObjectId;
  public_user_id : ObjectId;
  public_sign_keypair : SurveySignPublicKeyModel;
  public_keypair : SurveyPublicKeyModel
}.

(** [SurveyModel(SurveyPublicModel, SurveyCreateModel)]: the stored
    document and the owner's view.  A document carries the keys of a
    create payload and [created], [_id] and [user_id]. *)
Record RawSurvey := mkRawSurvey {
  raw_create : RawSurveyCreate;
  raw_created : option Z;
  raw_id : option ObjectId;
  raw_user_id : option ObjectId
}.

Record SurveyModel := mkSurvey {
  survey_create : SurveyCreateModel;
  created : Z;
  id : ObjectId;
  user_id : ObjectId
}.

Definition validate_SurveyModel `{IvWindow} (p : RawSurvey) : validated SurveyModel :=
  mkSurvey
    <$$> validate_SurveyCreateModel (raw_create p)
    <*> required "created" Valid (raw_created p)
    <*> required "_id" Valid (raw_id p)
    <*> required "user_id" Valid (raw_user_id p).

(** [SurveyAnswerModel] *)
Record RawAnswer := mkRawAnswer {
  raw_a_id : option Z;
  raw_a_answer : option (list string);
  raw_a_type : option Z
}.

Record SurveyAnswerModel := mkAnswer {
  a_id : Z;
  a_answer : list string;
  a_type : SurveyQuestionType
}.

(** [List[str]] with [min_items=1] and [max_items=56]. *)
Definition validate_answer (l : list string) : validated (list string) :=
  if (length l <? 1)%nat then fail (MinItems 1)
  else if (56 <? length l)%nat then fail (MaxItems 56)
  else Valid l.

Definition validate_SurveyAnswerModel (p : RawAnswer) : validated SurveyAnswerModel :=
  mkAnswer <$$> required "id" (int_ge_lt 0 1024) (raw_a_id p)
           <*> required "answer" validate_answer (raw_a_answer p)
           <*> required "type" validate_SurveyQuestionType (raw_a_type p).

(** Modelled from the spec: [SubmitSurveyModel], which the controller
    imports from this module and which is not among the sources.  Section
    3 of the design: an answer set is an ordered list of answers. *)
Record SubmitSurveyModel := mkSubmitSurvey {
  answers : list SurveyAnswerModel
}.

(** *** [.dict()]: an instance written back as a payload *)

Definition dict_IvCipher (m : IvCipherModel) : RawIvCipher :=
  {| raw_iv := Some (iv m); raw_cipher_text := Some (cipher_text m) |}.

Definition dict_SurveySignKeyPairModel (m : SurveySignKeyPairModel) : RawSignKeyPair :=
  {| raw_skp_iv := Some (skp_iv m);
     raw_skp_public_key := Some (skp_public_key m);
     raw_skp_cipher_text := Some (skp_cipher_text m) |}.

Definition dict_SurveyKeypairModel (m : SurveyKeypairModel) : RawKeypair :=
  {| raw_kp_public_key := Some (dict_IvCipher (kp_public_key m));
     raw_kp_private_key := Some (dict_IvCipher (kp_private_key m)) |}.

Definition dict_SurveyChoicesModel (m : SurveyChoicesModel) : RawChoice :=
  {| raw_ch_iv := Some (ch_iv m);
     raw_ch_id := Some (ch_id m);
     raw_ch_cipher_text := Some (ch_cipher_text m) |}.

Definition dict_SurveyQuestionModel (m : SurveyQuestionModel) : RawQuestion :=
  {| raw_q_id := Some (q_id m);
     raw_q_regex := dict_IvCipher <$> q_regex m;
     raw_q_description := dict_IvCipher <$> q_description m;
     raw_q_question := Some (dict_IvCipher (q_question m));
     raw_q_choices := map dict_SurveyChoicesModel <$> q_choices m;
     raw_q_required := Some (q_required m);
     raw_q_type := Some (SurveyQuestionType_value (q_type m)) |}.

Definition dict_SurveySharedModel (m : SurveySharedModel) : RawSurveyShared :=
  {| raw_title := Some (dict_IvCipher (title m));
     raw_description := dict_IvCipher <$> description m;
     raw_questions := Some (map dict_SurveyQuestionModel (questions m));
     raw_signature := Some (signature m);
     raw_requires_login := Some (requires_login m);
     raw_proxy_block := Some (proxy_block m);
     raw_allow_multiple_submissions := Some (allow_multiple_submissions m);
     raw_algorithms := Some (algorithms m) |}.

Definition dict_SurveyCreateModel (m : SurveyCreateModel) : RawSurveyCreate :=
  {| raw_create_shared := dict_SurveySharedModel (create_shared m);
     raw_create_sign_keypair :=
       Some (dict_SurveySignKeyPairModel (create_sign_keypair m));
     raw_create_secret_key := Some (dict_IvCipher (create_secret_key m));
     raw_create_keypair := Some (dict_SurveyKeypairModel (create_keypair m)) |}.

(** The document of a survey as the collection holds it: every field under
    its key, the id under its alias [_id] ([.dict(by_alias=True)]).  The
    plain [.dict()] differs in that one key: it writes the id under [id],
    which [SurveyModel] does not read; its create part is the same. *)
Definition dict_SurveyModel (m : SurveyModel) : RawSurvey :=
  {| raw_create := dict_SurveyCreateModel (survey_create m);
     raw_created := Some (created m);
     raw_id := Some (id m);
     raw_user_id := Some (user_id m) |}.

(** *** [.dict()] of the public model, as the document sent in a response *)

Definition doc_option {A} (f : A → Document.value) (o : option A) : Document.value :=
  match o with Some a => f a | None => Document.VNone end.

Definition doc_IvCipher (m : IvCipherModel) : Document.value :=
  Document.VDict [("iv", Document.VStr (iv m));
                  ("cipher_text", Document.VStr (cipher_text m))].

Definition doc_SurveyChoicesModel (m : SurveyChoicesModel) : Document.value :=
  Document.VDict [("iv", Document.VStr (ch_iv m));
                  ("id", Document.VInt (ch_id m));
                  ("cipher_text", Document.VStr (ch_cipher_text m))].

Definition doc_SurveyQuestionModel (m : SurveyQuestionModel) : Document.value :=
  Document.VDict
    [("id", Document.VInt (q_id m));
     ("regex", doc_option doc_IvCipher (q_regex m));
     ("description", doc_option doc_IvCipher (q_description m));
     ("question", doc_IvCipher (q_question m));
     ("choices",
      doc_option (λ l, Document.VList (map doc_SurveyChoicesModel l)) (q_choices m));
     ("required", Document.VBool (q_required m));
     ("type", Document.VInt (SurveyQuestionType_value (q_type m)))].

Definition doc_shared_fields (m : SurveySharedModel) : list (string * Document.value) :=
  [("title", doc_IvCipher (title m));
   ("description", doc_option doc_IvCipher (description m));
   ("questions", Document.VList (map doc_SurveyQuestionModel (questions m)));
   ("signature", Document.VStr (signature m));
   ("requires_login", Document.VBool (requires_login m));
   ("proxy_block", Document.VBool (proxy_block m));
   ("allow_multiple_submissions", Document.VBool (allow_multiple_submissions m));
   ("algorithms", Document.VStr (algorithms m))].

Definition doc_SurveySignPublicKeyModel (m : SurveySignPublicKeyModel) : Document.value :=
  Document.VDict [("public_key", Document.VStr (spk_public_key m))].

Definition doc_SurveyPublicKeyModel (m : SurveyPublicKeyModel) : Document.value :=
  Document.VDict [("public_key", doc_IvCipher (pk_public_key m))].

Definition doc_SurveyPublicModel (m : SurveyPublicModel) : Document.value :=
  Document.VDict
    (doc_shared_fields (public_shared m) ++
     [("created", Document.VInt (public_created m));
      ("id", Document.VStr (oid_hex (public_id m)));
      ("user_id", Document.VStr (oid_hex (public_user_id m)));
      ("sign_keypair", doc_SurveySignPublicKeyModel (public_sign_keypair m));
      ("keypair", doc_SurveyPublicKeyModel (public_keypair m))]).

End SurveyModels.

(** ** [canary/app/models/user.py]: key-derivation parameters *)

Module UserModels.

(** The two fields of an [argon2.profiles] parameter set that the schema
    reads. *)
Record Argon2Profile := mkArgon2Profile {
  profile_time_cost : Z;
  profile_memory_cost : Z
}.

(** [argon2.profiles.RFC_9106_LOW_MEMORY]: the second recommended option of
    RFC 9106 (3 passes, 64 MiB). *)
Definition RFC_9106_LOW_MEMORY : Argon2Profile :=
  {| profile_time_cost := 3; profile_memory_cost := 65536 |}.

Record RawArgon2 := mkRawArgon2 {
  raw_salt : option string;
  raw_time_cost : option Z;
  raw_memory_cost : option Z
}.

Record Argon2Model := mkArgon2 {
  salt : string;
  time_cost : Z;
  memory_cost : Z
}.

(** [Argon2Modal], over the profile its bounds are computed from. *)
Definition validate_Argon2Modal_with (profile : Argon2Profile) (p : RawArgon2)
    : validated Argon2Model :=
  mkArgon2
    <$$> required "salt" (str_max 64) (raw_salt p)
    <*> defaulted "time_cost" (profile_time_cost profile)
          (int_ge_le (profile_time_cost profile - 1) 12) (raw_time_cost p)
    <*> defaulted "memory_cost" (profile_memory_cost profile)
          (int_ge_le (profile_memory_cost profile - 1) 3355443200)
          (raw_memory_cost p).

Definition validate_Argon2Modal : RawArgon2 → validated Argon2Model :=
  validate_Argon2Modal_with RFC_9106_LOW_MEMORY.

(** [PublicUserModel] *)
Record RawPublicUser := mkRawPublicUser {
  raw_kdf : option RawArgon2;
  raw_otp_completed : option bool
}.

Record PublicUserModel := mkPublicUser {
  kdf : Argon2Model;
  otp_completed : bool
}.

Definition validate_PublicUserModel (p : RawPublicUser) : validated PublicUserModel :=
  mkPublicUser <$$> required "kdf" validate_Argon2Modal (raw_kdf p)
               <*> defaulted "otp_completed" false bool_field (raw_otp_completed p).

(** [AccountAuthModal] *)
Record RawAccountAuth := mkRawAccountAuth {
  raw_auth_public_key : option string
}.

Record AccountAuthModel := mkAccountAuth {
  auth_public_key : string
}.

Definition validate_AccountAuthModal (p : RawAccountAuth) : validated AccountAuthModel :=
  mkAccountAuth <$$> required "public_key" (str_max 44) (raw_auth_public_key p).

(** [AccountEd25199Modal(IvField)] and [AccountX25519Model(IvField)] declare
    the same two fields with the same bounds. *)
Record RawAccountKeyPair := mkRawAccountKeyPair {
  raw_akp_iv : option string;
  raw_akp_public_key : option string;
  raw_akp_cipher_text : option string
}.

Record AccountKeyPairModel := mkAccountKeyPair {
  akp_iv : string;
  akp_public_key : string;
  akp_cipher_text : string
}.

Definition validate_AccountKeyPair `{SurveyModels.IvWindow} (p : RawAccountKeyPair)
    : validated AccountKeyPairModel :=
  mkAccountKeyPair
    <$$> required "iv" SurveyModels.IvField_iv (raw_akp_iv p)
    <*> required "public_key" (str_max 44) (raw_akp_public_key p)
    <*> required "cipher_text" (str_max 240) (raw_akp_cipher_text p).

Definition validate_AccountEd25199Modal `{SurveyModels.IvWindow} :=
  validate_AccountKeyPair.
Definition validate_AccountX25519Model `{SurveyModels.IvWindow} :=
  validate_AccountKeyPair.

(** [AccountKeychainModal(IvField)] *)
Definition validate_AccountKeychainModal `{SurveyModels.IvWindow} :=
  SurveyModels.validate_IvCipher 82.

(** [OtpModel] *)
Record RawOtp := mkRawOtp {
  raw_secret : option string;
  raw_completed : option bool;
  raw_provisioning_uri : option string
}.

Record OtpModel := mkOtp {
  secret : string;
  completed : bool;
  provisioning_uri : string
}.

Section otp.

(** [pyotp.totp.TOTP(secret).provisioning_uri(issuer_name=..., name=...)],
    with both names [SETTINGS.site_name]: a function of the secret. *)
Variable totp_provisioning_uri : string → string.

(** [OtpModel.__init__]: the fields are validated, then [provisioning_uri]
    is assigned. *)
Definition validate_OtpModel (p : RawOtp) : validated OtpModel :=
  (λ m, {| secret := secret m;
           completed := completed m;
           provisioning_uri := totp_provisioning_uri (secret m) |})
  <$$> (mkOtp <$$> required "secret" Valid (raw_secret p)
              <*> defaulted "completed" false bool_field (raw_completed p)
              <*> defaulted "provisioning_uri" "" Valid (raw_provisioning_uri p)).

End otp.

Definition dict_OtpModel (m : OtpModel) : RawOtp :=
  {| raw_secret := Some (secret m);
     raw_completed := Some (completed m);
     raw_provisioning_uri := Some (provisioning_uri m) |}.

End UserModels.

(** ** Handlers: state, exceptions, requests *)

Module Handler.

(** The exceptions a handler can end with.  [InvalidAccountAuth],
    [SurveyNotFoundException] and [UserNotFoundException] are the names of
    [app.errors]; the design calls the first
    [AuthenticationRequiredError].  The captcha, proxy and duplicate
    errors are named as in section 7 of the design. *)
Inductive exn :=
| SurveyNotFoundException
| InvalidAccountAuth
| UserNotFoundException
| CaptchaRequiredError
| CaptchaInvalidError
| ProxyBlockedError
| DuplicateSubmissionError
| KeyError (key : string)
| ValidationError (errs : list Pydantic.error).

Abbreviation AuthenticationRequiredError := InvalidAccountAuth (only parsing).

Inductive outcome (A : Type) :=
| Returned (a : A)
| Raised (e : exn).
Arguments Returned {A} a.
Arguments Raised {A} e.

(** A handler over a store of type [S]. *)
Definition M (S A : Type) : Type := S → outcome A * S.

Definition ret {S A} (a : A) : M S A := λ st, (Returned a, st).

Definition raise {S A} (e : exn) : M S A := λ st, (Raised e, st).

Definition bind {S A B} (m : M S A) (k : A → M S B) : M S B :=
  λ st, match m st with
        | (Returned a, st') => k a st'
        | (Raised e, st') => (Raised e, st')
        end.

Definition gets {S A} (f : S → A) : M S A := λ st, (Returned (f st), st).

Definition modify {S} (f : S → S) : M S unit := λ st, (Returned tt, f st).

Notation "x <- m ;; k" := (bind m (λ x, k))
  (at level 100, m at next level, right associativity).
Notation "m ;;; k" := (bind m (λ _, k))
  (at level 100, right associativity).

(** [litestar]'s [Address] and the part of a [Request] the handlers read. *)
Record Address := mkAddress { host : string; port : Z }.

Record Request := mkRequest {
  user : option ObjectId;
  client : option Address
}.

End Handler.

(** ** [app/controllers/survey.py] *)

Module SurveyController.
Import SurveyModels Handler.

(** Modelled from the spec: the object [Survey(state, id_).get()] returns;
    [app/lib/survey.py] is not among the sources.  Section 4.4 of the
    design: the stored survey with its full policy view.  The handler
    reads four flags from it.  Three are fields of [SurveyModel];
    [requires_captcha] is declared by no model class of the sources and is
    carried beside the model. *)
Record StoredSurvey := mkStoredSurvey {
  stored_model : SurveyModel;
  requires_captcha : bool
}.

Definition stored_shared (s : StoredSurvey) : SurveySharedModel :=
  create_shared (survey_create (stored_model s)).

(** The [survey] collection holds the stored surveys.  One recorded answer
    set, keyed by the survey and the submitter, if any. *)
Record AnswerSet := mkAnswerSet {
  answered_survey : ObjectId;
  answered_by : option ObjectId;
  answered : SubmitSurveyModel
}.

Record State := mkState {
  mongo_survey : list StoredSurvey;
  mongo_answers : list AnswerSet
}.

(** A GeoIP lookup result: a dictionary of strings. *)
Abbreviation geoip_record := (gmap string string).

Section handlers.

(** The collaborators of [app/lib], not among the sources, as the
    handlers call them. *)
Variable Survey_get : ObjectId → M State StoredSurvey.
Variable Survey_public : ObjectId → M State SurveyPublicModel.
Variable Survey_submit_answers :
  ObjectId → SubmitSurveyModel → option ObjectId → M State unit.
Variable validate_captcha : option string → M State unit.
Variable GeoIp_get : string → M State (option geoip_record).

(** [try: id_ = ObjectId(survey_id) except InvalidId: raise ...] *)
Definition parse_survey_id (survey_id : string) : M State ObjectId :=
  match ObjectId_of_str survey_id with
  | Some id_ => ret id_
  | None => raise SurveyNotFoundException
  end.

(** [if survey.requires_captcha: await validate_captcha(state, captcha)] *)
Definition captcha_gate (survey : StoredSurvey) (captcha : option string)
    : M State unit :=
  if requires_captcha survey then validate_captcha captcha else ret tt.

(** [user_id = None; if request.user: ... elif survey.requires_login: raise] *)
Definition authentication_gate (survey : StoredSurvey) (request : Request)
    : M State (option ObjectId) :=
  match user request with
  | Some u => ret (Some u)
  | None =>
      if requires_login (stored_shared survey) then raise InvalidAccountAuth
      else ret None
  end.

(** [if not survey.allow_multiple_submissions: pass] *)
Definition duplicate_gate (survey : StoredSurvey) : M State unit :=
  if negb (allow_multiple_submissions (stored_shared survey)) then ret tt
  else ret tt.

(** [request.client and request.client.host]: the host when both are
    truthy. *)
Definition client_host (request : Request) : option string :=
  match client request with
  | Some a => if bool_decide (host a = "") then None else Some (host a)
  | None => None
  end.

(** [if geoip_lookup and geoip_lookup["proxy"] == "yes": pass].  An empty
    dictionary is falsy; indexing a dictionary without the key raises
    [KeyError]. *)
Definition proxy_verdict (geoip_lookup : option geoip_record) : M State unit :=
  match geoip_lookup with
  | None => ret tt
  | Some d =>
      if bool_decide (d = ∅) then ret tt
      else match d !! "proxy" with
           | None => raise (KeyError "proxy")
           | Some v => if bool_decide (v = "yes") then ret tt else ret tt
           end
  end.

(** [if survey.proxy_block and request.client and request.client.host: ...] *)
Definition proxy_gate (survey : StoredSurvey) (request : Request)
    : M State unit :=
  if proxy_block (stored_shared survey) then
    match client_host request with
    | Some h => geoip_lookup <- GeoIp_get h ;; proxy_verdict geoip_lookup
    | None => ret tt
    end
  else ret tt.

(** The gates from the authentication gate on, and the final write. *)
Definition after_captcha (id_ : ObjectId) (survey : StoredSurvey)
    (request : Request) (data : SubmitSurveyModel) : M State unit :=
  user_id <- authentication_gate survey request ;;
  duplicate_gate survey ;;;
  proxy_gate survey request ;;;
  Survey_submit_answers id_ data user_id.

(** [SurveyController.submit_survey] *)
Definition submit_survey (request : Request) (survey_id : string)
    (data : SubmitSurveyModel) (captcha : option string) : M State unit :=
  id_ <- parse_survey_id survey_id ;;
  survey <- Survey_get id_ ;;
  captcha_gate survey captcha ;;;
  after_captcha id_ survey request data.

(** [SurveyController.public_survey] *)
Definition public_survey (request : Request) (survey_id : string)
    : M State SurveyPublicModel :=
  id_ <- parse_survey_id survey_id ;;
  survey <- Survey_public id_ ;;
  if requires_login (public_shared survey) && negb (bool_decide (is_Some (user request)))
  then raise InvalidAccountAuth
  else ret survey.

End handlers.

End SurveyController.

(** ** [app/controllers/survey.py]: the handlers that use the collection directly *)

Module SurveyCollection.
Import SurveyModels Handler.

(** The [survey] collection: its documents in their natural order. *)
Record Mongo := mkMongo { survey : list RawSurvey }.

(** A [datetime] as BSON keeps it: to the millisecond, the microseconds
    below it dropped. *)
Definition bson_datetime (t : Z) : Z := t / 1000 * 1000.

(** A document as it is encoded for the collection. *)
Definition bson_document (document : RawSurvey) : RawSurvey :=
  {| raw_create := raw_create document;
     raw_created := bson_datetime <$> raw_created document;
     raw_id := raw_id document;
     raw_user_id := raw_user_id document |}.

(** [insert_one(document)]: a document without [_id] is given the id the
    driver generates, in place, and its encoding is appended to the
    collection.  The caller's dictionary, with the id and with its values
    as they were, is returned. *)
Definition insert_one (generated : ObjectId) (document : RawSurvey)
    : M Mongo RawSurvey :=
  λ st,
    let document' :=
      match raw_id document with
      | Some _ => document
      | None => {| raw_create := raw_create document;
                   raw_created := raw_created document;
                   raw_id := Some generated;
                   raw_user_id := raw_user_id document |}
      end in
    (Returned document', {| survey := survey st ++ [bson_document document'] |}).

(** [find({"user_id": user})]: the documents whose [user_id] is the value. *)
Definition find_by_user (user : option ObjectId) : M Mongo (list RawSurvey) :=
  gets (λ st, List.filter (λ d, bool_decide (raw_user_id d = user)) (survey st)).

Section routes.
Context `{IvWindow}.

(** [SurveyModel] on a document: the instance, or [ValidationError]. *)
Definition SurveyModel_init (d : RawSurvey) : M Mongo SurveyModel :=
  match validate_SurveyModel d with
  | Valid s => ret s
  | Invalid errs => raise (ValidationError errs)
  end.

(** [create_survey]; [utcnow] is the reading of the clock and [generated]
    the id the driver generates for the document. *)
Definition create_survey (request : Request) (data : SurveyCreateModel)
    (utcnow : Z) (generated : ObjectId) : M Mongo SurveyModel :=
  let insert :=
    {| raw_create := dict_SurveyCreateModel data;
       raw_created := Some utcnow;
       raw_id := None;
       raw_user_id := user request |} in
  insert <- insert_one generated insert ;;
  SurveyModel_init insert.

(** The loop of [list_surveys]: every document of the cursor is built and
    appended. *)
Fixpoint collect (cursor : list RawSurvey) (surveys : list SurveyModel)
    : M Mongo (list SurveyModel) :=
  match cursor with
  | [] => ret surveys
  | d :: rest =>
      s <- SurveyModel_init d ;;
      collect rest (surveys ++ [s])
  end.

(** [list_surveys] *)
Definition list_surveys (request : Request) : M Mongo (list SurveyModel) :=
  cursor <- find_by_user (user request) ;;
  collect cursor [].

End routes.

End SurveyCollection.

(** ** The collaborators of the survey handlers, from the design *)

Module Collaborators.
Import SurveyModels Handler SurveyController.

(** Modelled from the spec: the two external services of section 6, the
    captcha verifier ([verify(token)]) and the network-origin reputation
    lookup ([lookup(address)], [None] when the origin is unknown to it, else
    whether it is a proxy). *)
Record Providers := mkProviders {
  captcha_verify : string → bool;
  origin_is_proxy : string → option bool
}.

(** Modelled from the spec: [Survey.get] of [app/lib/survey.py], absent
    from the sources.  Sections 6 and 7: the document store finds a survey
    by its id, and an absent survey is a not-found error. *)
Definition Survey_get (id_ : ObjectId) : M State StoredSurvey :=
  λ st,
    match find (λ s, bool_decide (id (stored_model s) = id_)) (mongo_survey st) with
    | Some s => (Returned s, st)
    | None => (Raised SurveyNotFoundException, st)
    end.

(** Modelled from the spec: [projectPublic] of section 4.2, the copy of a
    survey in which only the public halves of the signing and encryption
    key pairs are retained; its result type is [SurveyPublicModel]. *)
Definition projectPublic (s : SurveyModel) : SurveyPublicModel :=
  {| public_shared := create_shared (survey_create s);
     public_created := created s;
     public_id := id s;
     public_user_id := user_id s;
     public_sign_keypair :=
       {| spk_public_key := skp_public_key (create_sign_keypair (survey_create s)) |};
     public_keypair :=
       {| pk_public_key := kp_public_key (create_keypair (survey_create s)) |} |}.

(** Modelled from the spec: [projectFull] of section 4.2, the identity. *)
Definition projectFull (s : SurveyModel) : SurveyModel := s.

(** Modelled from the spec: [Survey.public] of [app/lib/survey.py], absent
    from the sources: the public projection of the stored survey. *)
Definition Survey_public (id_ : ObjectId) : M State SurveyPublicModel :=
  survey <- Survey_get id_ ;;
  ret (projectPublic (stored_model survey)).

(** The store with one more answer set. *)
Definition insert_answers (a : AnswerSet) (st : State) : State :=
  {| mongo_survey := mongo_survey st;
     mongo_answers := mongo_answers st ++ [a] |}.

(** The stored survey of the id does not allow an identity more than one
    submission. *)
Definition single_submission (st : State) (id_ : ObjectId) : bool :=
  match find (λ s, bool_decide (id (stored_model s) = id_)) (mongo_survey st) with
  | Some s => negb (allow_multiple_submissions (stored_shared s))
  | None => false
  end.

(** An answer set of the identity is recorded for the survey. *)
Definition has_submitted (st : State) (id_ u : ObjectId) : bool :=
  existsb (λ a, bool_decide (answered_survey a = id_ ∧ answered_by a = Some u))
    (mongo_answers st).

(** Modelled from the spec: the uniqueness constraint of sections 5 and 6.
    For a survey with [allow_multiple_submissions = false] the store keeps
    the pair of survey id and submitter id unique when the submitter is
    present, and enforces it at write time. *)
Definition violates_uniqueness (st : State) (id_ : ObjectId)
    (user_id : option ObjectId) : bool :=
  match user_id with
  | Some u => single_submission st id_ && has_submitted st id_ u
  | None => false
  end.

(** Modelled from the spec: [Survey.submit_answers] of
    [app/lib/survey.py], absent from the sources.  Section 4.4, step 5:
    write the answer set keyed by the survey id and the submitter id, if
    any.  Section 5: the writer that violates the uniqueness constraint
    fails with [DuplicateSubmissionError], and nothing is written. *)
Definition Survey_submit_answers (id_ : ObjectId) (data : SubmitSurveyModel)
    (user_id : option ObjectId) : M State unit :=
  λ st,
    if violates_uniqueness st id_ user_id
    then (Raised DuplicateSubmissionError, st)
    else (Returned tt, insert_answers (mkAnswerSet id_ user_id data) st).

(** Modelled from the spec: [validate_captcha] of [app/lib/mCaptcha.py],
    absent from the sources.  Section 4.4, gate 1: the token must be
    present and must validate against the external verifier; absence
    fails with [CaptchaRequiredError], rejection with
    [CaptchaInvalidError]. *)
Definition validate_captcha (P : Providers) (captcha : option string)
    : M State unit :=
  match captcha with
  | None => raise CaptchaRequiredError
  | Some token =>
      if captcha_verify P token then ret tt else raise CaptchaInvalidError
  end.

(** Modelled from the spec: [GeoIp.get] of [app/lib/geoip.py], absent from
    the sources.  Section 6: the lookup reports whether the address is a
    proxy, or nothing when it is unknown; the handler reads the report
    under the key [proxy] and compares it with [yes]. *)
Definition GeoIp_get (P : Providers) (address : string)
    : M State (option geoip_record) :=
  ret (match origin_is_proxy P address with
       | Some is_proxy => Some {[ "proxy" := if is_proxy then "yes" else "no" ]}
       | None => None
       end).

(** The submission handler and the public-survey handler with these
    collaborators. *)
Definition submit (P : Providers) : Request → string → SubmitSurveyModel →
    option string → M State unit :=
  submit_survey Survey_get Survey_submit_answers (validate_captcha P) (GeoIp_get P).

Definition public (request : Request) (survey_id : string)
    : M State SurveyPublicModel :=
  public_survey Survey_public request survey_id.

(** The answer sets recorded for a survey by an identity. *)
Definition recorded (st : State) (id_ : ObjectId) (u : ObjectId) : list AnswerSet :=
  filter (λ a, answered_survey a = id_ ∧ answered_by a = Some u) (mongo_answers st).

(** The captcha gate lets the submission through: the survey does not
    require a captcha, or the token is present and the verifier accepts it. *)
Definition captcha_passes (P : Providers) (survey : StoredSurvey)
    (captcha : option string) : Prop :=
  requires_captcha survey = false
  ∨ ∃ token, captcha = Some token ∧ captcha_verify P token = true.

(** The keys under which a private half is serialised. *)
Definition private_key_names : list string := ["secret_key"; "private_key"].

(** A survey with other private halves: the [iv] and [cipher_text] of the
    signing key pair, the secret key and the private key of the encryption
    key pair are replaced, everything else is kept. *)
Definition with_private_halves (s : SurveyModel) (sign_iv sign_cipher_text : string)
    (secret_key private_key : IvCipherModel) : SurveyModel :=
  {| survey_create :=
       {| create_shared := create_shared (survey_create s);
          create_sign_keypair :=
            {| skp_iv := sign_iv;
               skp_public_key := skp_public_key (create_sign_keypair (survey_create s));
               skp_cipher_text := sign_cipher_text |};
          create_secret_key := secret_key;
          create_keypair :=
            {| kp_public_key := kp_public_key (create_keypair (survey_create s));
               kp_private_key := private_key |} |};
     created := created s;
     id := id s;
     user_id := user_id s |}.

End Collaborators.

(** ** [canary/app/lib/user.py] *)

Module UserLib.
Import Document Handler.

(** A document of the [user] collection, and the collection in its
    natural order. *)
Abbreviation document := (gmap string value).

Record State := mkState { mongo_user : list document }.

(** [{"email": self.email}]: the documents whose [email] is the string, or
    is an array with the string among its elements. *)
Definition email_query (email : string) (d : document) : bool :=
  match d !! "email" with
  | Some (VStr s) => bool_decide (s = email)
  | Some (VList l) =>
      existsb (λ v, match v with VStr s => bool_decide (s = email) | _ => false end) l
  | _ => false
  end.

(** The fields of [UserModel] that have no default, under the keys a
    document carries them: those of [__CreateUserShared] and [EmailModel],
    then [id] under its alias, [created] and [otp]. *)
Definition UserModel_required : list string :=
  ["email"; "auth"; "keypair"; "sign_keypair"; "keychain"; "kdf"; "signature";
   "_id"; "created"; "otp"].

(** The missing-field errors of a document. *)
Definition UserModel_missing (d : document) : list Pydantic.error :=
  flat_map (λ k, match d !! k with
                 | Some _ => []
                 | None => [([Key k], Missing)]
                 end) UserModel_required.

(** [count_documents(query)] and [find_one(query)]. *)
Definition count_documents (q : document → bool) : M State nat :=
  gets (λ st, length (List.filter q (mongo_user st))).

Definition find_one (q : document → bool) : M State (option document) :=
  gets (λ st, List.find q (mongo_user st)).

Section user.

(** [UserModel] and its constructor on a stored document: it returns
    the instance or raises [ValidationError]. *)
Context {UserModel : Type}.
Variable UserModel_init : document → validated UserModel.

(** [User.exists] *)
Definition exists_ (email : string) : M State unit :=
  n <- count_documents (email_query email) ;;
  if (n =? 0)%nat then raise UserNotFoundException else ret tt.

(** [User.get]; [not user] holds of [None] and of the empty document. *)
Definition get (email : string) : M State UserModel :=
  user <- find_one (email_query email) ;;
  match user with
  | None => raise UserNotFoundException
  | Some d =>
      if bool_decide (d = ∅) then raise UserNotFoundException
      else match UserModel_init d with
           | Valid m => ret m
           | Invalid errs => raise (ValidationError errs)
           end
  end.

End user.

End UserLib.

(** ** The design's wording of a property, where it is compared with the code *)

Module Spec.
Import SurveyModels.

(** Section 4.1: a field is absent or empty. *)
Definition absent_or_empty (v : option string) : Prop :=
  v = None ∨ v = Some "".

(** Section 4.1: validation of an envelope fails if [cipher_text] exceeds
    [max_len] or either field is absent or empty. *)
Definition envelope_rejected (max_len : nat) (p : RawIvCipher) : Prop :=
  (∃ s, raw_cipher_text p = Some s ∧ (max_len < String.length s)%nat)
  ∨ absent_or_empty (raw_iv p)
  ∨ absent_or_empty (raw_cipher_text p).

(** Section 4.2: the failure of a validation is a duplicate-id error. *)
Definition duplicate_id_error (e : Pydantic.error) : Prop :=
  ∃ msg, e.2 = ValueError msg.

(** Two entries of a list of ids are the same id. *)
Definition shares_an_id (ids : list (option Z)) : Prop :=
  ∃ i j n, i ≠ j ∧ ids !! i = Some (Some n) ∧ ids !! j = Some (Some n).

End Spec.

(** ** The conditions under which a field is rejected *)

Module Rejection.
Import SurveyModels.

(** A required string: absent, or longer than the bound. *)
Definition absent_or_longer (max_length : nat) (v : option string) : Prop :=
  match v with
  | None => True
  | Some s => (max_length < String.length s)%nat
  end.

(** The [iv]: absent, or of a length outside the window. *)
Definition iv_rejected `{IvWindow} (v : option string) : Prop :=
  match v with
  | None => True
  | Some s => (String.length s < iv_min_length ∨ iv_max_length < String.length s)%nat
  end.

(** A required id: absent, or outside [0, 1024). *)
Definition id_rejected (v : option Z) : Prop :=
  match v with
  | None => True
  | Some n => n < 0 ∨ 1024 ≤ n
  end.

(** The error kinds of a string field. *)
Definition shape_error (k : error_kind) : Prop :=
  match k with
  | Missing | MinLength _ | MaxLength _ => True
  | _ => False
  end.

End Rejection.

(** ** The invariants of a validated survey *)

Module Invariants.
Import SurveyModels.

Definition in_window `{IvWindow} (s : string) : Prop :=
  (iv_min_length ≤ String.length s ≤ iv_max_length)%nat.

Definition wf_IvCipher `{IvWindow} (max_length : nat) (m : IvCipherModel) : Prop :=
  in_window (iv m) ∧ (String.length (cipher_text m) ≤ max_length)%nat.

Definition wf_option {A} (P : A → Prop) (o : option A) : Prop :=
  match o with Some a => P a | None => True end.

Definition wf_choice `{IvWindow} (c : SurveyChoicesModel) : Prop :=
  in_window (ch_iv c) ∧ 0 ≤ ch_id c < 1024
  ∧ (String.length (ch_cipher_text c) ≤ 512)%nat.

Definition wf_choices `{IvWindow} (cs : list SurveyChoicesModel) : Prop :=
  (length cs ≤ 56)%nat ∧ Forall wf_choice cs ∧ NoDup (map ch_id cs).

Definition wf_question `{IvWindow} (q : SurveyQuestionModel) : Prop :=
  0 ≤ q_id q < 1024
  ∧ wf_option (wf_IvCipher 128) (q_regex q)
  ∧ wf_option (wf_IvCipher 1024) (q_description q)
  ∧ wf_IvCipher 256 (q_question q)
  ∧ wf_option wf_choices (q_choices q).

Definition wf_shared `{IvWindow} (m : SurveySharedModel) : Prop :=
  wf_IvCipher 128 (title m)
  ∧ wf_option (wf_IvCipher 1024) (description m)
  ∧ ((length (questions m) ≤ 128)%nat
     ∧ Forall wf_question (questions m)
     ∧ NoDup (map q_id (questions m)))
  ∧ (String.length (signature m) ≤ 128)%nat.

Definition wf_sign_keypair `{IvWindow} (k : SurveySignKeyPairModel) : Prop :=
  in_window (skp_iv k)
  ∧ (String.length (skp_public_key k) ≤ 44)%nat
  ∧ (String.length (skp_cipher_text k) ≤ 240)%nat.

Definition wf_keypair `{IvWindow} (k : SurveyKeypairModel) : Prop :=
  wf_IvCipher 240 (kp_public_key k) ∧ wf_IvCipher 240 (kp_private_key k).

Definition wf_create `{IvWindow} (m : SurveyCreateModel) : Prop :=
  wf_shared (create_shared m)
  ∧ wf_sign_keypair (create_sign_keypair m)
  ∧ wf_IvCipher 240 (create_secret_key m)
  ∧ wf_keypair (create_keypair m).

(** The choices of a payload and of the instance built from it. *)
Definition choices_match (rcs : option (list RawChoice))
    (cs : option (list SurveyChoicesModel)) : Prop :=
  match rcs, cs with
  | None, None => True
  | Some rl, Some l => map raw_ch_id rl = map (Some ∘ ch_id) l
  | _, _ => False
  end.

(** An id of a payload is present and within [0, 1024). *)
Definition id_in_range (v : option Z) : Prop :=
  ∃ n, v = Some n ∧ 0 ≤ n < 1024.

(** What the ids and counts of a list of question payloads satisfy when the
    list is accepted. *)
Definition question_ids_ok (qs : list RawQuestion) : Prop :=
  (length qs ≤ 128)%nat
  ∧ NoDup (map raw_q_id qs)
  ∧ Forall (λ q,
      id_in_range (raw_q_id q)
      ∧ ∀ cs, raw_q_choices q = Some cs →
          (length cs ≤ 56)%nat
          ∧ NoDup (map raw_ch_id cs)
          ∧ Forall (λ c, id_in_range (raw_ch_id c)) cs) qs.

End Invariants.

(** ** A payload with its defaults written out *)

Module Defaults.
Import SurveyModels.

Definition question_with_defaults (q : RawQuestion) : RawQuestion :=
  {| raw_q_id := raw_q_id q;
     raw_q_regex := raw_q_regex q;
     raw_q_description := raw_q_description q;
     raw_q_question := raw_q_question q;
     raw_q_choices := raw_q_choices q;
     raw_q_required := Some (default false (raw_q_required q));
     raw_q_type := raw_q_type q |}.

Definition shared_with_defaults (p : RawSurveyShared) : RawSurveyShared :=
  {| raw_title := raw_title p;
     raw_description := raw_description p;
     raw_questions := map question_with_defaults <$> raw_questions p;
     raw_signature := raw_signature p;
     raw_requires_login := Some (default false (raw_requires_login p));
     raw_proxy_block := Some (default false (raw_proxy_block p));
     raw_allow_multiple_submissions :=
       Some (default false (raw_allow_multiple_submissions p));
     raw_algorithms := Some (default default_algorithms (raw_algorithms p)) |}.

Definition create_with_defaults (p : RawSurveyCreate) : RawSurveyCreate :=
  {| raw_create_shared := shared_with_defaults (raw_create_shared p);
     raw_create_sign_keypair := raw_create_sign_keypair p;
     raw_create_secret_key := raw_create_secret_key p;
     raw_create_keypair := raw_create_keypair p |}.

(** A question payload with another type tag. *)
Definition question_with_type (q : RawQuestion) (type : Z) : RawQuestion :=
  {| raw_q_id := raw_q_id q;
     raw_q_regex := raw_q_regex q;
     raw_q_description := raw_q_description q;
     raw_q_question := raw_q_question q;
     raw_q_choices := raw_q_choices q;
     raw_q_required := raw_q_required q;
     raw_q_type := Some type |}.

End Defaults.

(** ** Concrete data for the examples *)

Module Examples.
Import SurveyModels.

(** A window for the examples: 24 to 32 characters. *)
Definition window : IvWindow := {| iv_min_length := 24; iv_max_length := 32 |}.

Definition iv0 : string := "AAAAAAAAAAAAAAAAAAAAAAAA".

(** A title envelope whose [cipher_text] is the empty string. *)
Definition empty_title : RawIvCipher :=
  {| raw_iv := Some iv0; raw_cipher_text := Some "" |}.

Definition envelope (c : string) : RawIvCipher :=
  {| raw_iv := Some iv0; raw_cipher_text := Some c |}.

Definition choice (n : Z) : RawChoice :=
  {| raw_ch_iv := Some iv0; raw_ch_id := Some n; raw_ch_cipher_text := Some "c" |}.

(** A single-choice style question with choices 0 and 1, of the given id
    and type tag. *)
Definition question (n type : Z) : RawQuestion :=
  {| raw_q_id := Some n;
     raw_q_regex := None;
     raw_q_description := None;
     raw_q_question := Some (envelope "q");
     raw_q_choices := Some [choice 0; choice 1];
     raw_q_required := None;
     raw_q_type := Some type |}.

(** A create payload with the given questions; the policy flags and the
    algorithms tag are left to their defaults. *)
Definition create_payload (qs : list RawQuestion) : RawSurveyCreate :=
  {| raw_create_shared :=
       {| raw_title := Some (envelope "t");
          raw_description := None;
          raw_questions := Some qs;
          raw_signature := Some "s";
          raw_requires_login := None;
          raw_proxy_block := None;
          raw_allow_multiple_submissions := None;
          raw_algorithms := None |};
     raw_create_sign_keypair :=
       Some {| raw_skp_iv := Some iv0;
               raw_skp_public_key := Some "P";
               raw_skp_cipher_text := Some "K" |};
     raw_create_secret_key := Some (envelope "x");
     raw_create_keypair :=
       Some {| raw_kp_public_key := Some (envelope "u");
               raw_kp_private_key := Some (envelope "v") |} |}.

(** Two questions that share the id 0; the type tag of the second is not a
    member of the enumeration. *)
Definition shared_id_questions : list RawQuestion :=
  [question 0 3; question 0 9].

Definition S_hex : string := "64b7f0c2a1b2c3d4e5f60718".
Definition S_id : ObjectId := mkObjectId S_hex.
Definition owner : ObjectId := mkObjectId "64b7f0c2a1b2c3d4e5f60700".
Definition U1 : ObjectId := mkObjectId "64b7f0c2a1b2c3d4e5f60701".

(** The stored document of the survey [S] of section 8: one question of id
    0 and type [SingleChoice] with choices 0 and 1. *)
Definition S_document : RawSurvey :=
  {| raw_create := create_payload [question 0 3];
     raw_created := Some 1700000000;
     raw_id := Some S_id;
     raw_user_id := Some owner |}.

Definition cipher (c : string) : IvCipherModel := {| iv := iv0; cipher_text := c |}.

Definition S_choice (n : Z) : SurveyChoicesModel :=
  {| ch_iv := iv0; ch_id := n; ch_cipher_text := "c" |}.

Definition S_shared (login proxy multiple : bool) : SurveySharedModel :=
  {| title := cipher "t";
     description := None;
     questions :=
       [{| q_id := 0; q_regex := None; q_description := None;
           q_question := cipher "q";
           q_choices := Some [S_choice 0; S_choice 1];
           q_required := false;
           q_type := SingleChoice |}];
     signature := "s";
     requires_login := login;
     proxy_block := proxy;
     allow_multiple_submissions := multiple;
     algorithms := default_algorithms |}.

(** The survey [S] with the given policy flags. *)
Definition S_with (login proxy multiple : bool) : SurveyModel :=
  {| survey_create :=
       {| create_shared := S_shared login proxy multiple;
          create_sign_keypair :=
            {| skp_iv := iv0; skp_public_key := "P"; skp_cipher_text := "K" |};
          create_secret_key := cipher "x";
          create_keypair :=
            {| kp_public_key := cipher "u"; kp_private_key := cipher "v" |} |};
     created := 1700000000;
     id := S_id;
     user_id := owner |}.

Definition S : SurveyModel := S_with false false false.

(** Stores that hold one survey and no answers. *)
Definition store_with (login proxy multiple captcha : bool) : SurveyController.State :=
  {| SurveyController.mongo_survey :=
       [{| SurveyController.stored_model := S_with login proxy multiple;
           SurveyController.requires_captcha := captcha |}];
     SurveyController.mongo_answers := [] |}.

Definition store0 : SurveyController.State := store_with false false false false.

(** The answer set of section 8: answer [["0"]] to question 0. *)
Definition answer0 : SubmitSurveyModel :=
  {| answers := [{| a_id := 0; a_answer := ["0"]; a_type := SingleChoice |}] |}.

Definition as_U1 : Handler.Request :=
  {| Handler.user := Some U1; Handler.client := None |}.

Definition anonymous : Handler.Request :=
  {| Handler.user := None; Handler.client := None |}.

Definition from_proxy : Handler.Request :=
  {| Handler.user := None;
     Handler.client := Some {| Handler.host := "203.0.113.7"; Handler.port := 443 |} |}.

(** Providers: the verifier accepts the token [ok] only; the reputation
    lookup reports every address as a proxy. *)
Definition providers : Collaborators.Providers :=
  {| Collaborators.captcha_verify := λ token, bool_decide (token = "ok");
     Collaborators.origin_is_proxy := λ _, Some true |}.

Definition stored (login proxy multiple captcha : bool)
    : SurveyController.StoredSurvey :=
  {| SurveyController.stored_model := S_with login proxy multiple;
     SurveyController.requires_captcha := captcha |}.

(** The store after [U1] has submitted [answer0] to [S] once. *)
Definition store1 : SurveyController.State :=
  Collaborators.insert_answers
    (SurveyController.mkAnswerSet S_id (Some U1) answer0) store0.


End Examples.

(** ** Concrete data for the further properties *)

Module Cases.
Import SurveyModels.

(** A provisioning URI for the examples: a prefix and the secret. *)
Definition otp_uri (secret : string) : string :=
  String.append "otpauth://totp/SyncPad?secret=" secret.

(** A payload that carries a provisioning URI of its own. *)
Definition otp_payload : UserModels.RawOtp :=
  {| UserModels.raw_secret := Some "JBSWY3DPEHPK3PXP";
     UserModels.raw_completed := None;
     UserModels.raw_provisioning_uri := Some "otpauth://totp/other" |}.

Definition otp0 : UserModels.OtpModel :=
  {| UserModels.secret := "JBSWY3DPEHPK3PXP";
     UserModels.completed := false;
     UserModels.provisioning_uri := otp_uri "JBSWY3DPEHPK3PXP" |}.

Definition as_owner : Handler.Request :=
  {| Handler.user := Some Examples.owner; Handler.client := None |}.

Definition other : ObjectId := mkObjectId "64b7f0c2a1b2c3d4e5f60702".

(** A document of another account that is no valid survey: it has no
    [created]. *)
Definition foreign_document : RawSurvey :=
  {| raw_create := Examples.create_payload [Examples.question 0 3];
     raw_created := None;
     raw_id := Some (mkObjectId "64b7f0c2a1b2c3d4e5f60719");
     raw_user_id := Some other |}.

(** A document of the owner that is no valid survey: two questions share
    the id 0. *)
Definition broken_document : RawSurvey :=
  {| raw_create := Examples.create_payload [Examples.question 0 3; Examples.question 0 2];
     raw_created := Some 1700000001;
     raw_id := Some (mkObjectId "64b7f0c2a1b2c3d4e5f6071a");
     raw_user_id := Some Examples.owner |}.

(** A collection with the survey [S] of the owner. *)
Definition collection0 : SurveyCollection.Mongo :=
  {| SurveyCollection.survey := [Examples.S_document] |}.

Definition generated0 : ObjectId := mkObjectId "64b7f0c2a1b2c3d4e5f6071b".

(** The survey that creating the create part of [S] at time 1700000002
    returns. *)
Definition S2 : SurveyModel :=
  {| survey_create := survey_create Examples.S;
     created := 1700000002;
     id := generated0;
     user_id := Examples.owner |}.

(** The constructor of [UserModel] as far as its required fields go: a
    document that lacks one is rejected with the missing-field errors.  What
    it does with a document that has them all is not modelled, and the
    document itself stands for the instance. *)
Definition UserModel_required_fields (d : UserLib.document)
    : validated UserLib.document :=
  match UserLib.UserModel_missing d with
  | [] => Valid d
  | errs => Invalid errs
  end.

(** A [user] collection with one document, which carries an email and
    nothing else. *)
Definition bare_user : UserLib.State :=
  {| UserLib.mongo_user := [ {[ "email" := Document.VStr "a@b.c" ]} ] |}.

(** A lookup whose result has no verdict: a dictionary without [proxy]. *)
Definition GeoIp_without_verdict (address : string)
    : Handler.M SurveyController.State (option SurveyController.geoip_record) :=
  Handler.ret (Some {[ "country" := "NL" ]}).

End Cases.

(** * Properties *)

(** ** Validation combinators *)

Lemma under_Valid {A} l (v : validated A) a : under l v = Valid a ↔ v = Valid a.
Proof. destruct v; simpl; split; congruence. Qed.

Lemma is_valid_under {A} l (v : validated A) : is_valid (under l v) = is_valid v.
Proof. by destruct v. Qed.

Lemma is_valid_vmap {A B} (f : A → B) (v : validated A) : is_valid (f <$$> v) = is_valid v.
Proof. by destruct v. Qed.

Lemma is_valid_vap {A B} (f : validated (A → B)) (v : validated A) :
  is_valid (f <*> v) = is_valid f && is_valid v.
Proof. by destruct f, v. Qed.

Lemma vmap_Valid {A B} (f : A → B) (v : validated A) b :
  f <$$> v = Valid b ↔ ∃ a, v = Valid a ∧ b = f a.
Proof.
  destruct v; simpl; split.
  - intros [= <-]; eauto.
  - intros (? & [= <-] & ->); done.
  - done.
  - intros (? & ? & _); done.
Qed.

Lemma vap_Valid {A B} (f : validated (A → B)) (v : validated A) b :
  f <*> v = Valid b ↔ ∃ g a, f = Valid g ∧ v = Valid a ∧ b = g a.
Proof.
  destruct f, v; simpl; split; try done.
  - intros [= <-]; eauto.
  - intros (? & ? & [= <-] & [= <-] & ->); done.
  - intros (? & ? & _ & ? & _); done.
  - intros (? & ? & ? & _); done.
  - intros (? & ? & ? & _); done.
Qed.

Lemma vbind_Valid {A B} (v : validated A) (k : A → validated B) b :
  vbind v k = Valid b ↔ ∃ a, v = Valid a ∧ k a = Valid b.
Proof.
  destruct v; simpl; split; eauto.
  - intros (? & [= <-] & ?); done.
  - done.
  - intros (? & ? & _); done.
Qed.

Lemma required_Valid {R A} name (f : R → validated A) (o : option R) a :
  required name f o = Valid a ↔ ∃ r, o = Some r ∧ f r = Valid a.
Proof.
  unfold required. rewrite under_Valid. destruct o; split; eauto.
  - intros (? & [= <-] & ?); done.
  - done.
  - intros (? & ? & _); done.
Qed.

Lemma optional_Valid {R A} name (f : R → validated A) (o : option R) (a : option A) :
  optional name f o = Valid a ↔
    (o = None ∧ a = None) ∨ (∃ r x, o = Some r ∧ f r = Valid x ∧ a = Some x).
Proof.
  unfold optional. rewrite under_Valid. destruct o.
  - rewrite vmap_Valid. split.
    + intros (x & ? & ->); right; eauto.
    + intros [[? _]|(r' & x & [= <-] & ? & ->)]; [done|eauto].
  - split.
    + intros [= <-]; by left.
    + intros [[_ ->]|(? & ? & ? & _)]; done.
Qed.

Lemma defaulted_Valid {R A} name (d : A) (f : R → validated A) (o : option R) a :
  defaulted name d f o = Valid a ↔
    (o = None ∧ a = d) ∨ (∃ r, o = Some r ∧ f r = Valid a).
Proof.
  unfold defaulted. rewrite under_Valid. destruct o; split.
  - right; eauto.
  - intros [[? _]|(? & [= <-] & ?)]; done.
  - intros [= <-]; by left.
  - intros [[_ ->]|(? & ? & _)]; done.
Qed.

Lemma str_field_Valid lo hi s s' :
  str_field lo (Some hi) s = Valid s' ↔
    s' = s ∧ (lo ≤ String.length s ≤ hi)%nat.
Proof.
  unfold str_field, fail.
  destruct (Nat.ltb_spec (String.length s) lo); [split; [done|lia]|].
  destruct (Nat.ltb_spec hi (String.length s)); [split; [done|lia]|].
  split; [intros [= <-]; split; [done|lia] | intros [-> _]; done].
Qed.

Lemma str_max_Valid hi s s' :
  str_max hi s = Valid s' ↔ s' = s ∧ (String.length s ≤ hi)%nat.
Proof. unfold str_max. rewrite str_field_Valid. intuition lia. Qed.

Lemma int_ge_lt_Valid lo hi n n' :
  int_ge_lt lo hi n = Valid n' ↔ n' = n ∧ lo ≤ n < hi.
Proof.
  unfold int_ge_lt, fail.
  destruct (Z.ltb_spec n lo); [split; [done|lia]|].
  destruct (Z.leb_spec hi n); [split; [done|lia]|].
  split; [intros [= <-]; split; [done|lia] | intros [-> _]; done].
Qed.

Lemma int_ge_le_Valid lo hi n n' :
  int_ge_le lo hi n = Valid n' ↔ n' = n ∧ lo ≤ n ≤ hi.
Proof.
  unfold int_ge_le, fail.
  destruct (Z.ltb_spec n lo); [split; [done|lia]|].
  destruct (Z.ltb_spec hi n); [split; [done|lia]|].
  split; [intros [= <-]; split; [done|lia] | intros [-> _]; done].
Qed.

Lemma each_item_Valid {R A} (f : R → validated A) i (l : list R) (ms : list A) :
  each_item f i l = Valid ms ↔ Forall2 (λ r m, f r = Valid m) l ms.
Proof.
  revert i ms. induction l as [|r rs IH]; intros i ms; simpl.
  - split; [intros [= <-]; constructor | by inversion 1].
  - rewrite vap_Valid. split.
    + intros (g & tl & Hg & Htl & ->).
      apply vmap_Valid in Hg as (m & Hm & ->). apply under_Valid in Hm.
      constructor; [done|]. by eapply IH.
    + inversion 1 as [|? m ? tl Hm Htl]; subst.
      exists (cons m), tl. split_and!; [|by eapply IH|done].
      apply vmap_Valid. exists m. by rewrite under_Valid.
Qed.

Lemma list_field_Valid {R A} n (f : R → validated A) (l : list R) (ms : list A) :
  list_field n f l = Valid ms ↔
    (length l ≤ n)%nat ∧ Forall2 (λ r m, f r = Valid m) l ms.
Proof.
  unfold list_field, fail.
  destruct (Nat.ltb_spec n (length l)).
  - split; [done | lia].
  - rewrite each_item_Valid. intuition.
Qed.

(** [len(ids) == len(set(ids))] holds exactly of a list without repetition. *)
Lemma size_list_to_set_le (ids : list Z) :
  (size (list_to_set (C := gset Z) ids) ≤ length ids)%nat.
Proof.
  induction ids as [|x ids IH].
  - rewrite list_to_set_nil, size_empty. simpl. lia.
  - rewrite list_to_set_cons. cbn [length].
    rewrite size_union_alt, size_singleton.
    assert (size (list_to_set (C := gset Z) ids ∖ {[x]})
            ≤ size (list_to_set (C := gset Z) ids))%nat as Hle.
    { apply subseteq_size. intros y Hy. by apply elem_of_difference in Hy as [? _]. }
    lia.
Qed.

Lemma has_duplicates_false (ids : list Z) :
  has_duplicates ids = false ↔ NoDup ids.
Proof.
  unfold has_duplicates. rewrite negb_false_iff, Nat.eqb_eq. split.
  - induction ids as [|x ids IH]; [constructor|].
    rewrite list_to_set_cons. cbn [length].
    intros Hlen. destruct (decide (x ∈ ids)) as [Hin|Hin].
    + exfalso.
      assert ({[x]} ∪ list_to_set ids = (list_to_set ids : gset Z)) as Heq.
      { apply (elem_of_list_to_set (C := gset Z)) in Hin.
        apply subseteq_union_1_L. by apply singleton_subseteq_l. }
      rewrite Heq in Hlen. pose proof (size_list_to_set_le ids). lia.
    + constructor; [done|]. apply IH.
      rewrite size_union in Hlen.
      * rewrite size_singleton in Hlen. lia.
      * rewrite disjoint_singleton_l, elem_of_list_to_set. done.
  - intros Hnd. symmetry. by apply size_list_to_set.
Qed.

Lemma has_duplicates_true (ids : list Z) :
  has_duplicates ids = true ↔ ¬ NoDup ids.
Proof.
  rewrite <-has_duplicates_false. destruct (has_duplicates ids); split; congruence.
Qed.

(** ** Envelopes *)

Section envelopes.
Import SurveyModels Rejection.
Context `{IvWindow}.

Lemma required_str_rejected name hi o :
  is_valid (required name (str_max hi) o) = false ↔ absent_or_longer hi o.
Proof.
  unfold required. rewrite is_valid_under. destruct o as [s|]; simpl; [|done].
  unfold str_max, str_field, fail. simpl.
  destruct (Nat.ltb_spec hi (String.length s)); simpl; split; (done || lia).
Qed.

Lemma required_iv_rejected o :
  is_valid (required "iv" IvField_iv o) = false ↔ iv_rejected o.
Proof.
  unfold required. rewrite is_valid_under. destruct o as [s|]; simpl; [|done].
  unfold IvField_iv, str_field, fail.
  destruct (Nat.ltb_spec (String.length s) iv_min_length); simpl; [split; auto|].
  destruct (Nat.ltb_spec iv_max_length (String.length s)); simpl;
    split; (done || auto || lia).
Qed.

Lemma required_id_rejected name o :
  is_valid (required name (int_ge_lt 0 1024) o) = false ↔ id_rejected o.
Proof.
  unfold required. rewrite is_valid_under. destruct o as [n|]; simpl; [|done].
  unfold int_ge_lt, fail.
  destruct (Z.ltb_spec n 0); simpl; [split; auto|].
  destruct (Z.leb_spec 1024 n); simpl; split; (done || auto || lia).
Qed.

Lemma validate_IvCipher_rejected max_length p :
  is_valid (validate_IvCipher max_length p) = false ↔
    iv_rejected (raw_iv p) ∨ absent_or_longer max_length (raw_cipher_text p).
Proof.
  unfold validate_IvCipher.
  rewrite is_valid_vap, is_valid_vmap, andb_false_iff.
  by rewrite required_iv_rejected, required_str_rejected.
Qed.

Lemma validate_IvCipher_Valid max_length p m :
  validate_IvCipher max_length p = Valid m ↔
    raw_iv p = Some (iv m) ∧ raw_cipher_text p = Some (cipher_text m)
    ∧ (iv_min_length ≤ String.length (iv m) ≤ iv_max_length)%nat
    ∧ (String.length (cipher_text m) ≤ max_length)%nat.
Proof.
  unfold validate_IvCipher. rewrite vap_Valid. split.
  - intros (g & c & Hg & Hc & ->).
    apply vmap_Valid in Hg as (i & Hi & ->).
    apply required_Valid in Hi as (ri & -> & Hi).
    apply required_Valid in Hc as (rc & -> & Hc).
    apply str_field_Valid in Hi as [-> ?]. apply str_max_Valid in Hc as [-> ?].
    done.
  - destruct m as [i c]; simpl. intros (-> & -> & ? & ?).
    exists (mkIvCipher i), c. split_and!; [| |done].
    2: { apply required_Valid. eexists. split; [done|]. by apply str_max_Valid. }
    apply vmap_Valid. exists i. split; [|done].
    apply required_Valid. eexists; split; [done|]. by apply str_field_Valid.
Qed.

Lemma errors_under_kind {A} l (v : validated A) e :
  e ∈ errors_of (under l v) → ∃ e', e' ∈ errors_of v ∧ e'.2 = e.2.
Proof.
  destruct v as [a|errs]; simpl; [by intros ?%elem_of_nil|].
  intros (e' & -> & ?)%list_elem_of_fmap. eauto.
Qed.

Lemma required_str_shape name lo hi o e :
  e ∈ errors_of (required name (str_field lo (Some hi)) o) → shape_error e.2.
Proof.
  unfold required. intros (e' & He' & <-)%errors_under_kind.
  destruct o as [s|]; simpl in He'.
  - unfold str_field, fail in He'.
    destruct (String.length s <? lo)%nat; simpl in He';
      [apply list_elem_of_singleton in He' as ->; done|].
    destruct (hi <? String.length s)%nat; simpl in He';
      [apply list_elem_of_singleton in He' as ->; done|by apply elem_of_nil in He'].
  - apply list_elem_of_singleton in He' as ->; done.
Qed.

Lemma errors_vap {A B} (f : validated (A → B)) (v : validated A) e :
  e ∈ errors_of (f <*> v) → e ∈ errors_of f ∨ e ∈ errors_of v.
Proof.
  destruct f, v; simpl; auto. intros ?%elem_of_app. done.
Qed.

Lemma errors_vmap {A B} (f : A → B) (v : validated A) :
  errors_of (f <$$> v) = errors_of v.
Proof. by destruct v. Qed.

Lemma validate_IvCipher_shape max_length p e :
  e ∈ errors_of (validate_IvCipher max_length p) → shape_error e.2.
Proof.
  unfold validate_IvCipher. intros [He|He]%errors_vap.
  - rewrite errors_vmap in He. by eapply required_str_shape.
  - by eapply required_str_shape.
Qed.

End envelopes.

(** C6, as the code has it.  Validation of an envelope fails exactly when the
    [iv] is absent or of a length outside the [IvField] window, or the
    [cipher_text] is absent or longer than the maximum of its class; a
    choice also fails on an id that is absent or outside [0, 1024), a
    signing key pair on a public key that is absent or longer than 44.  The
    errors of an envelope are shape errors.  An empty [cipher_text] is
    accepted.  Validation is a function of the payload alone. *)
Theorem envelope_rejected_exactly `{SurveyModels.IvWindow} :
  (∀ max_length p,
     is_valid (SurveyModels.validate_IvCipher max_length p) = false ↔
       Rejection.iv_rejected (SurveyModels.raw_iv p)
       ∨ Rejection.absent_or_longer max_length (SurveyModels.raw_cipher_text p))
  ∧ (∀ p,
       is_valid (SurveyModels.validate_SurveyChoicesModel p) = false ↔
         Rejection.iv_rejected (SurveyModels.raw_ch_iv p)
         ∨ Rejection.id_rejected (SurveyModels.raw_ch_id p)
         ∨ Rejection.absent_or_longer 512 (SurveyModels.raw_ch_cipher_text p))
  ∧ (∀ p,
       is_valid (SurveyModels.validate_SurveySignKeyPairModel p) = false ↔
         Rejection.iv_rejected (SurveyModels.raw_skp_iv p)
         ∨ Rejection.absent_or_longer 44 (SurveyModels.raw_skp_public_key p)
         ∨ Rejection.absent_or_longer 240 (SurveyModels.raw_skp_cipher_text p))
  ∧ (∀ max_length p e,
       e ∈ errors_of (SurveyModels.validate_IvCipher max_length p) →
       Rejection.shape_error e.2)
  ∧ (∀ max_length i,
       ¬ Rejection.iv_rejected (Some i) →
       SurveyModels.validate_IvCipher max_length
         {| SurveyModels.raw_iv := Some i; SurveyModels.raw_cipher_text := Some "" |}
       = Valid {| SurveyModels.iv := i; SurveyModels.cipher_text := "" |}).
Proof.
  split_and!.
  - apply validate_IvCipher_rejected.
  - intros p. unfold SurveyModels.validate_SurveyChoicesModel.
    rewrite !is_valid_vap, is_valid_vmap, !andb_false_iff.
    rewrite required_iv_rejected, required_id_rejected, required_str_rejected.
    tauto.
  - intros p. unfold SurveyModels.validate_SurveySignKeyPairModel.
    rewrite !is_valid_vap, is_valid_vmap, !andb_false_iff.
    rewrite required_iv_rejected, !required_str_rejected.
    tauto.
  - apply validate_IvCipher_shape.
  - intros max_length i Hi. apply validate_IvCipher_Valid; simpl.
    unfold Rejection.iv_rejected in Hi.
    split_and!; (done || lia).
Qed.

(** C6, as the design words it, fails on a title whose [cipher_text] is
    empty: the code accepts it. *)
Lemma empty_cipher_text_is_accepted :
  ¬ (is_valid (@SurveyModels.validate_TitleModel Examples.window Examples.empty_title)
       = false
     ↔ Spec.envelope_rejected 128 Examples.empty_title).
Proof.
  intros [_ Hrej].
  assert (is_valid (@SurveyModels.validate_TitleModel Examples.window
                      Examples.empty_title) = false) as Hv.
  { apply Hrej. right; right; right. reflexivity. }
  vm_compute in Hv. discriminate.
Qed.

(** ** Key-derivation parameters *)

Lemma required_str_accepted name hi (o : option string) :
  is_valid (required name (str_max hi) o) = true ↔
    ∃ s, o = Some s ∧ (String.length s ≤ hi)%nat.
Proof.
  unfold required. rewrite is_valid_under. destruct o as [s|]; simpl.
  - unfold str_max, str_field, fail; simpl.
    destruct (Nat.ltb_spec hi (String.length s)); simpl; split.
    + done.
    + intros (? & [= <-] & ?). lia.
    + intros _. exists s. split; [done|lia].
    + done.
  - split; [done | intros (? & ? & _); done].
Qed.

Lemma defaulted_int_accepted name d lo hi (o : option Z) :
  is_valid (defaulted name d (int_ge_le lo hi) o) = true ↔
    ∀ n, o = Some n → lo ≤ n ≤ hi.
Proof.
  unfold defaulted. rewrite is_valid_under. destruct o as [n|]; simpl.
  - unfold int_ge_le, fail.
    destruct (Z.ltb_spec n lo); simpl.
    { split; [done | intros Hn; specialize (Hn _ eq_refl); lia]. }
    destruct (Z.ltb_spec hi n); simpl.
    { split; [done | intros Hn; specialize (Hn _ eq_refl); lia]. }
    split; [intros _ ? [= <-]; lia | done].
  - split; [intros _ ? [=] | done].
Qed.

(** C8.  The parameters are accepted exactly when the salt is present and at
    most 64 characters long and each cost the payload carries lies in its
    closed interval: from one below the profile's value up to 12 for
    [time_cost], up to 3355443200 for [memory_cost].  With the profile of
    the code every accepted instance has its costs inside [2, 12] and
    [65535, 3355443200]. *)
Theorem Argon2Modal_accepts_exactly (profile : UserModels.Argon2Profile)
    (p : UserModels.RawArgon2) :
  (is_valid (UserModels.validate_Argon2Modal_with profile p) = true ↔
     (∃ s, UserModels.raw_salt p = Some s ∧ (String.length s ≤ 64)%nat)
     ∧ (∀ t, UserModels.raw_time_cost p = Some t →
             UserModels.profile_time_cost profile - 1 ≤ t ≤ 12)
     ∧ (∀ m, UserModels.raw_memory_cost p = Some m →
             UserModels.profile_memory_cost profile - 1 ≤ m ≤ 3355443200))
  ∧ (∀ m, UserModels.validate_Argon2Modal p = Valid m →
          (String.length (UserModels.salt m) ≤ 64)%nat
          ∧ 2 ≤ UserModels.time_cost m ≤ 12
          ∧ 65535 ≤ UserModels.memory_cost m ≤ 3355443200).
Proof.
  split.
  - unfold UserModels.validate_Argon2Modal_with.
    rewrite !is_valid_vap, is_valid_vmap, !andb_true_iff.
    rewrite required_str_accepted, !defaulted_int_accepted. tauto.
  - intros m. unfold UserModels.validate_Argon2Modal, UserModels.validate_Argon2Modal_with.
    intros (g & mc & Hg & Hmc & ->)%vap_Valid.
    apply vap_Valid in Hg as (g' & tc & Hg' & Htc & ->).
    apply vmap_Valid in Hg' as (s & Hs & ->).
    apply required_Valid in Hs as (rs & _ & [-> ?]%str_max_Valid).
    apply defaulted_Valid in Htc as [[_ ->]|(? & _ & [-> ?]%int_ge_le_Valid)];
      apply defaulted_Valid in Hmc as [[_ ->]|(? & _ & [-> ?]%int_ge_le_Valid)];
      simpl in *; split_and!; lia.
Qed.

(** ** The survey schema: what an accepted payload satisfies *)

Section survey_schema.
Import SurveyModels Invariants.
Context `{IvWindow}.

Lemma validate_IvCipher_wf max_length p m :
  validate_IvCipher max_length p = Valid m → wf_IvCipher max_length m.
Proof. intros (_ & _ & ? & ?)%validate_IvCipher_Valid. done. Qed.

Lemma validate_IvCipher_dict max_length m :
  wf_IvCipher max_length m → validate_IvCipher max_length (dict_IvCipher m) = Valid m.
Proof. intros [? ?]. by apply validate_IvCipher_Valid. Qed.

Lemma optional_IvCipher_wf name max_length o m :
  optional name (validate_IvCipher max_length) o = Valid m →
  wf_option (wf_IvCipher max_length) m.
Proof.
  intros [[_ ->]|(r & x & _ & Hx & ->)]%optional_Valid; simpl; [done|].
  by eapply validate_IvCipher_wf.
Qed.

Lemma optional_IvCipher_dict name max_length m :
  wf_option (wf_IvCipher max_length) m →
  optional name (validate_IvCipher max_length) (dict_IvCipher <$> m) = Valid m.
Proof.
  intros Hwf. apply optional_Valid. destruct m as [x|]; simpl; [right|by left].
  exists (dict_IvCipher x), x. split_and!; [done| |done].
  by apply validate_IvCipher_dict.
Qed.

Lemma validate_SurveyChoicesModel_Valid p c :
  validate_SurveyChoicesModel p = Valid c ↔
    raw_ch_iv p = Some (ch_iv c) ∧ raw_ch_id p = Some (ch_id c)
    ∧ raw_ch_cipher_text p = Some (ch_cipher_text c) ∧ wf_choice c.
Proof.
  unfold validate_SurveyChoicesModel, wf_choice, in_window. split.
  - intros (g & ct & (g' & n & Hg' & Hn & ->)%vap_Valid & Hct & ->)%vap_Valid.
    apply vmap_Valid in Hg' as (i & Hi & ->).
    apply required_Valid in Hi as (? & -> & [-> ?]%str_field_Valid).
    apply required_Valid in Hn as (? & -> & [-> ?]%int_ge_lt_Valid).
    apply required_Valid in Hct as (? & -> & [-> ?]%str_max_Valid).
    done.
  - destruct c as [i n ct]; simpl. intros (-> & -> & -> & ? & ? & ?).
    apply vap_Valid. exists (mkChoice i n), ct. split_and!; [| |done].
    + apply vap_Valid. exists (mkChoice i), n. split_and!; [| |done].
      * apply vmap_Valid. exists i. split; [|done].
        apply required_Valid. eexists. split; [done|]. by apply str_field_Valid.
      * apply required_Valid. eexists. split; [done|]. by apply int_ge_lt_Valid.
    + apply required_Valid. eexists. split; [done|]. by apply str_max_Valid.
Qed.

Lemma choices_validator_Valid v v' :
  choices_validator v = Valid v' ↔
    v' = v ∧ wf_option (λ l, NoDup (map ch_id l)) v.
Proof.
  destruct v as [[|c l]|]; simpl.
  - split; [intros [= <-]; split; [done|constructor] | intros [-> _]; done].
  - destruct (has_duplicates _) eqn:Hd.
    + apply has_duplicates_true in Hd. split; [done | intros [_ ?]; done].
    + apply has_duplicates_false in Hd.
      split; [intros [= <-]; done | intros [-> _]; done].
  - split; [intros [= <-]; done | intros [-> _]; done].
Qed.

Lemma Forall2_choice_ids rl (l : list SurveyChoicesModel) :
  Forall2 (λ r m, validate_SurveyChoicesModel r = Valid m) rl l →
  map raw_ch_id rl = map (Some ∘ ch_id) l ∧ Forall wf_choice l.
Proof.
  induction 1 as [|r m rl l Hrm _ [IH1 IH2]]; simpl; [by split|].
  apply validate_SurveyChoicesModel_Valid in Hrm as (_ & -> & _ & ?).
  split; [by f_equal | by constructor].
Qed.

Lemma validate_choices_inv rcs cs :
  validate_choices rcs = Valid cs →
  wf_option wf_choices cs ∧ choices_match rcs cs.
Proof.
  unfold validate_choices. rewrite under_Valid. destruct rcs as [rl|].
  - intros (v & Hv & [-> Hnd]%choices_validator_Valid)%vbind_Valid.
    apply vmap_Valid in Hv as (l & [Hlen Hl]%list_field_Valid & ->).
    apply Forall2_choice_ids in Hl as Hids. destruct Hids as [Hids Hwf].
    simpl in *. split; [|done]. split_and!; [|done|done].
    by rewrite <-(Forall2_length _ _ _ Hl).
  - intros [= <-]. done.
Qed.

Lemma validate_choices_dict cs :
  wf_option wf_choices cs →
  validate_choices (map dict_SurveyChoicesModel <$> cs) = Valid cs.
Proof.
  unfold validate_choices. rewrite under_Valid.
  destruct cs as [l|]; simpl; [|done]. intros (Hlen & Hwf & Hnd).
  apply vbind_Valid. exists (Some l). split.
  - apply vmap_Valid. exists l. split; [|done].
    apply list_field_Valid. split; [by rewrite length_map|].
    clear Hlen Hnd. induction Hwf as [|c l Hc _ IH]; simpl; constructor; [|done].
    by apply validate_SurveyChoicesModel_Valid.
  - by apply choices_validator_Valid.
Qed.

Lemma validate_SurveyQuestionType_value t :
  validate_SurveyQuestionType (SurveyQuestionType_value t) = Valid t.
Proof. by destruct t. Qed.

Lemma validate_SurveyQuestionModel_inv p q :
  validate_SurveyQuestionModel p = Valid q →
  wf_question q ∧ raw_q_id p = Some (q_id q)
  ∧ choices_match (raw_q_choices p) (q_choices q).
Proof.
  unfold validate_SurveyQuestionModel.
  intros (g6 & ty & Hg6 & Hty & ->)%vap_Valid.
  apply vap_Valid in Hg6 as (g5 & rq & Hg5 & Hrq & ->).
  apply vap_Valid in Hg5 as (g4 & cs & Hg4 & Hcs & ->).
  apply vap_Valid in Hg4 as (g3 & qu & Hg3 & Hqu & ->).
  apply vap_Valid in Hg3 as (g2 & de & Hg2 & Hde & ->).
  apply vap_Valid in Hg2 as (g1 & re & Hg1 & Hre & ->).
  apply vmap_Valid in Hg1 as (n & Hn & ->).
  apply required_Valid in Hn as (? & -> & [-> ?]%int_ge_lt_Valid).
  apply optional_IvCipher_wf in Hre, Hde.
  apply required_Valid in Hqu as (? & _ & ?%validate_IvCipher_wf).
  apply validate_choices_inv in Hcs as [? ?].
  unfold wf_question; simpl. done.
Qed.

Lemma validate_SurveyQuestionModel_dict q :
  wf_question q → validate_SurveyQuestionModel (dict_SurveyQuestionModel q) = Valid q.
Proof.
  destruct q as [n re de qu cs rq ty]. unfold wf_question; simpl.
  intros (Hn & Hre & Hde & Hqu & Hcs).
  unfold validate_SurveyQuestionModel, dict_SurveyQuestionModel; simpl.
  assert (required "id" (int_ge_lt 0 1024) (Some n) = Valid n) as ->.
  { apply required_Valid. eexists. split; [done|]. by apply int_ge_lt_Valid. }
  unfold validate_SurveyRegexModel, validate_SurveyDescriptionModel,
    validate_SurveyQuestionsModel.
  rewrite !optional_IvCipher_dict by done.
  assert (required "question" (validate_IvCipher 256) (Some (dict_IvCipher qu))
          = Valid qu) as ->.
  { apply required_Valid. eexists. split; [done|]. by apply validate_IvCipher_dict. }
  rewrite validate_choices_dict by done.
  assert (required "type" validate_SurveyQuestionType
            (Some (SurveyQuestionType_value ty)) = Valid ty) as ->.
  { apply required_Valid. eexists. split; [done|].
    apply validate_SurveyQuestionType_value. }
  done.
Qed.

End survey_schema.

Section survey_create.
Import SurveyModels Invariants.
Context `{IvWindow}.

Lemma ids_of_payload {R M} (f : R → option Z) (g : M → Z) (rl : list R) (l : list M) :
  map f rl = map (Some ∘ g) l →
  Forall (λ m, 0 ≤ g m < 1024) l →
  NoDup (map g l) →
  length rl = length l ∧ NoDup (map f rl) ∧ Forall (λ r, id_in_range (f r)) rl.
Proof.
  intros Hmap Hrange Hnd. split_and!.
  - by rewrite <-(length_map f), Hmap, length_map.
  - rewrite Hmap. change (map (Some ∘ g) l) with ((Some ∘ g) <$> l).
    rewrite list_fmap_compose. apply (NoDup_fmap_2 Some). done.
  - clear Hnd. revert rl Hmap.
    induction Hrange as [|m l Hm _ IH]; intros [|r rl]; simpl; try done.
    intros [= Hr Hrl]. constructor; [|by apply IH].
    exists (g m). done.
Qed.

Lemma choices_of_payload rcs cs :
  wf_option wf_choices cs → choices_match rcs cs →
  ∀ rl, rcs = Some rl →
    (length rl ≤ 56)%nat
    ∧ NoDup (map raw_ch_id rl)
    ∧ Forall (λ c, id_in_range (raw_ch_id c)) rl.
Proof.
  intros Hwf Hmatch rl ->. destruct cs as [l|]; simpl in *; [|done].
  destruct Hwf as (Hlen & Hwf & Hnd).
  destruct (ids_of_payload raw_ch_id ch_id rl l) as (Hl & ? & ?); try done.
  - eapply Forall_impl; [done|]. by intros c (_ & ? & _).
  - split_and!; [lia|done|done].
Qed.

Lemma questions_of_payload rqs (qs : list SurveyQuestionModel) :
  Forall2 (λ r q, validate_SurveyQuestionModel r = Valid q) rqs qs →
  Forall wf_question qs
  ∧ map raw_q_id rqs = map (Some ∘ q_id) qs
  ∧ Forall (λ r, ∀ cs, raw_q_choices r = Some cs →
      (length cs ≤ 56)%nat
      ∧ NoDup (map raw_ch_id cs)
      ∧ Forall (λ c, id_in_range (raw_ch_id c)) cs) rqs.
Proof.
  induction 1 as [|r q rqs qs Hrq _ (IH1 & IH2 & IH3)]; simpl; [done|].
  apply validate_SurveyQuestionModel_inv in Hrq as (Hwf & -> & Hmatch).
  split_and!; [by constructor | by f_equal |].
  constructor; [|done].
  eapply choices_of_payload; [|done]. by destruct Hwf as (_ & _ & _ & _ & ?).
Qed.

Lemma questions_validator_Valid v v' :
  questions_validator v = Valid v' ↔ v' = v ∧ NoDup (map q_id v).
Proof.
  unfold questions_validator. destruct (has_duplicates _) eqn:Hd.
  - apply has_duplicates_true in Hd. split; [done | intros [_ ?]; done].
  - apply has_duplicates_false in Hd.
    split; [intros [= <-]; done | intros [-> _]; done].
Qed.

Lemma validate_SurveySharedModel_inv p m :
  validate_SurveySharedModel p = Valid m →
  wf_shared m
  ∧ ∃ rqs, raw_questions p = Some rqs ∧ question_ids_ok rqs.
Proof.
  unfold validate_SurveySharedModel.
  intros (g7 & al & Hg7 & Hal & ->)%vap_Valid.
  apply vap_Valid in Hg7 as (g6 & am & Hg6 & Ham & ->).
  apply vap_Valid in Hg6 as (g5 & pb & Hg5 & Hpb & ->).
  apply vap_Valid in Hg5 as (g4 & rl & Hg4 & Hrl & ->).
  apply vap_Valid in Hg4 as (g3 & sg & Hg3 & Hsg & ->).
  apply vap_Valid in Hg3 as (g2 & qs & Hg2 & Hqs & ->).
  apply vap_Valid in Hg2 as (g1 & de & Hg1 & Hde & ->).
  apply vmap_Valid in Hg1 as (ti & Hti & ->).
  apply required_Valid in Hti as (? & _ & ?%validate_IvCipher_wf).
  apply optional_IvCipher_wf in Hde.
  apply required_Valid in Hsg as (? & _ & [-> ?]%str_max_Valid).
  apply required_Valid in Hqs as (rqs & Hrqs & Hqs).
  apply vbind_Valid in Hqs as (qs' & [Hlen Hqs]%list_field_Valid
                               & [-> Hnd]%questions_validator_Valid).
  pose proof (Forall2_length _ _ _ Hqs) as Hl.
  apply questions_of_payload in Hqs as (Hwf & Hids & Hch).
  split.
  - unfold wf_shared; simpl. split_and!; try done. lia.
  - exists rqs. split; [done|].
    destruct (ids_of_payload raw_q_id q_id rqs qs') as (_ & ? & Hrange); try done.
    { eapply Forall_impl; [done|]. by intros q (? & _). }
    unfold question_ids_ok. split_and!; [done|done|].
    apply Forall_forall. intros r Hr. split.
    + by eapply (proj1 (Forall_forall _ _) Hrange).
    + by eapply (proj1 (Forall_forall _ _) Hch).
Qed.

Lemma validate_SurveySharedModel_dict m :
  wf_shared m → validate_SurveySharedModel (dict_SurveySharedModel m) = Valid m.
Proof.
  destruct m as [ti de qs sg rl pb am al]. unfold wf_shared; simpl.
  intros (Hti & Hde & (Hlen & Hqs & Hnd) & Hsg).
  unfold validate_SurveySharedModel, dict_SurveySharedModel; simpl.
  unfold validate_TitleModel, validate_SurveyDescriptionModel.
  assert (required "title" (validate_IvCipher 128) (Some (dict_IvCipher ti))
          = Valid ti) as ->.
  { apply required_Valid. eexists. split; [done|]. by apply validate_IvCipher_dict. }
  rewrite optional_IvCipher_dict by done.
  assert (required "questions"
            (λ l, vbind (list_field 128 validate_SurveyQuestionModel l)
                    questions_validator)
            (Some (map dict_SurveyQuestionModel qs)) = Valid qs) as ->.
  { apply required_Valid. eexists. split; [done|].
    apply vbind_Valid. exists qs. split; [|by apply questions_validator_Valid].
    apply list_field_Valid. split; [by rewrite length_map|].
    clear Hlen Hnd. induction Hqs as [|q qs Hq _ IH]; simpl; constructor; [|done].
    by apply validate_SurveyQuestionModel_dict. }
  assert (required "signature" (str_max 128) (Some sg) = Valid sg) as ->.
  { apply required_Valid. eexists. split; [done|]. by apply str_max_Valid. }
  done.
Qed.

Lemma validate_SurveySignKeyPairModel_Valid p k :
  validate_SurveySignKeyPairModel p = Valid k ↔
    raw_skp_iv p = Some (skp_iv k) ∧ raw_skp_public_key p = Some (skp_public_key k)
    ∧ raw_skp_cipher_text p = Some (skp_cipher_text k) ∧ wf_sign_keypair k.
Proof.
  unfold validate_SurveySignKeyPairModel, wf_sign_keypair, in_window. split.
  - intros (g & ct & (g' & pk & Hg' & Hpk & ->)%vap_Valid & Hct & ->)%vap_Valid.
    apply vmap_Valid in Hg' as (i & Hi & ->).
    apply required_Valid in Hi as (? & -> & [-> ?]%str_field_Valid).
    apply required_Valid in Hpk as (? & -> & [-> ?]%str_max_Valid).
    apply required_Valid in Hct as (? & -> & [-> ?]%str_max_Valid).
    done.
  - destruct k as [i pk ct]; simpl. intros (-> & -> & -> & ? & ? & ?).
    apply vap_Valid. exists (mkSignKeyPair i pk), ct. split_and!; [| |done].
    + apply vap_Valid. exists (mkSignKeyPair i), pk. split_and!; [| |done].
      * apply vmap_Valid. exists i. split; [|done].
        apply required_Valid. eexists. split; [done|]. by apply str_field_Valid.
      * apply required_Valid. eexists. split; [done|]. by apply str_max_Valid.
    + apply required_Valid. eexists. split; [done|]. by apply str_max_Valid.
Qed.

Lemma validate_SurveyKeypairModel_inv p k :
  validate_SurveyKeypairModel p = Valid k → wf_keypair k.
Proof.
  unfold validate_SurveyKeypairModel, validate_SurveyKeypairCipherModel.
  intros (g & pr & (pu & Hpu & ->)%vmap_Valid & Hpr & ->)%vap_Valid.
  apply required_Valid in Hpu as (? & _ & ?%validate_IvCipher_wf).
  apply required_Valid in Hpr as (? & _ & ?%validate_IvCipher_wf).
  done.
Qed.

Lemma validate_SurveyKeypairModel_dict k :
  wf_keypair k → validate_SurveyKeypairModel (dict_SurveyKeypairModel k) = Valid k.
Proof.
  destruct k as [pu pr]. intros [Hpu Hpr]; simpl in *.
  unfold validate_SurveyKeypairModel, validate_SurveyKeypairCipherModel,
    dict_SurveyKeypairModel; simpl.
  assert (∀ name m, wf_IvCipher 240 m →
            required name (validate_IvCipher 240) (Some (dict_IvCipher m)) = Valid m)
    as Hreq.
  { intros name m Hm. apply required_Valid. eexists. split; [done|].
    by apply validate_IvCipher_dict. }
  by rewrite !Hreq.
Qed.

Lemma validate_SurveyCreateModel_inv p m :
  validate_SurveyCreateModel p = Valid m →
  wf_create m
  ∧ ∃ rqs, raw_questions (raw_create_shared p) = Some rqs ∧ question_ids_ok rqs.
Proof.
  unfold validate_SurveyCreateModel.
  intros (g3 & kp & Hg3 & Hkp & ->)%vap_Valid.
  apply vap_Valid in Hg3 as (g2 & sk & Hg2 & Hsk & ->).
  apply vap_Valid in Hg2 as (g1 & sg & Hg1 & Hsg & ->).
  apply vmap_Valid in Hg1 as (sh & Hsh & ->).
  apply validate_SurveySharedModel_inv in Hsh as [? ?].
  apply required_Valid in Hsg as (? & _ & (_ & _ & _ & ?)%validate_SurveySignKeyPairModel_Valid).
  apply required_Valid in Hsk as (? & _ & ?%validate_IvCipher_wf).
  apply required_Valid in Hkp as (? & _ & ?%validate_SurveyKeypairModel_inv).
  unfold wf_create; simpl. done.
Qed.

Lemma validate_SurveyCreateModel_dict m :
  wf_create m → validate_SurveyCreateModel (dict_SurveyCreateModel m) = Valid m.
Proof.
  destruct m as [sh sg sk kp]. unfold wf_create; simpl.
  intros (Hsh & Hsg & Hsk & Hkp).
  unfold validate_SurveyCreateModel, dict_SurveyCreateModel; simpl.
  rewrite validate_SurveySharedModel_dict by done.
  assert (required "sign_keypair" validate_SurveySignKeyPairModel
            (Some (dict_SurveySignKeyPairModel sg)) = Valid sg) as ->.
  { apply required_Valid. eexists. split; [done|].
    by apply validate_SurveySignKeyPairModel_Valid. }
  assert (required "secret_key" validate_SurveySecretKeyModel
            (Some (dict_IvCipher sk)) = Valid sk) as ->.
  { apply required_Valid. eexists. split; [done|]. by apply validate_IvCipher_dict. }
  assert (required "keypair" validate_SurveyKeypairModel
            (Some (dict_SurveyKeypairModel kp)) = Valid kp) as ->.
  { apply required_Valid. eexists. split; [done|].
    by apply validate_SurveyKeypairModel_dict. }
  done.
Qed.

Lemma validate_SurveyModel_inv p s :
  validate_SurveyModel p = Valid s →
  validate_SurveyCreateModel (raw_create p) = Valid (survey_create s).
Proof.
  unfold validate_SurveyModel.
  intros (g3 & ui & Hg3 & Hui & ->)%vap_Valid.
  apply vap_Valid in Hg3 as (g2 & i & Hg2 & Hi & ->).
  apply vap_Valid in Hg2 as (g1 & cr & Hg1 & Hcr & ->).
  apply vmap_Valid in Hg1 as (c & Hc & ->). done.
Qed.

Lemma validate_SurveyModel_dict s :
  wf_create (survey_create s) → validate_SurveyModel (dict_SurveyModel s) = Valid s.
Proof.
  destruct s as [c cr i ui]; simpl. intros Hwf.
  unfold validate_SurveyModel, dict_SurveyModel; simpl.
  by rewrite validate_SurveyCreateModel_dict.
Qed.

End survey_create.

(** ** The survey schema: ids and counts *)

Section survey_ids.
Import SurveyModels Invariants.
Context `{IvWindow}.

Lemma shares_an_id_not_NoDup (ids : list (option Z)) :
  Spec.shares_an_id ids → ¬ NoDup ids.
Proof.
  intros (i & j & n & Hij & Hi & Hj) Hnd. apply Hij.
  by eapply (proj1 (NoDup_alt ids) Hnd).
Qed.

Lemma errors_vap_l {A B} (f : validated (A → B)) (v : validated A) e :
  e ∈ errors_of f → e ∈ errors_of (f <*> v).
Proof.
  destruct f, v; simpl; try done; [by intros ?%elem_of_nil|].
  intros ?. apply elem_of_app. by left.
Qed.

Lemma errors_vap_r {A B} (f : validated (A → B)) (v : validated A) e :
  e ∈ errors_of v → e ∈ errors_of (f <*> v).
Proof.
  destruct f, v; simpl; try done; [by intros ?%elem_of_nil|].
  intros ?. apply elem_of_app. by right.
Qed.

Lemma duplicate_questions_reported rqs qs :
  list_field 128 validate_SurveyQuestionModel rqs = Valid qs →
  ¬ NoDup (map raw_q_id rqs) →
  required "questions"
    (λ l, vbind (list_field 128 validate_SurveyQuestionModel l) questions_validator)
    (Some rqs)
  = Invalid [([Key "questions"], ValueError "Duplicate question ids")].
Proof.
  intros Hqs Hdup. unfold required. rewrite Hqs; simpl.
  apply list_field_Valid in Hqs as [_ Hqs].
  apply questions_of_payload in Hqs as (_ & Hids & _).
  unfold questions_validator.
  destruct (has_duplicates (map q_id qs)) eqn:Hd; [done|].
  apply has_duplicates_false in Hd. exfalso. apply Hdup. rewrite Hids.
  change (map (Some ∘ q_id) qs) with ((Some ∘ q_id) <$> qs).
  rewrite list_fmap_compose. by apply (NoDup_fmap_2 Some).
Qed.

Lemma duplicate_choices_reported rcs cs :
  list_field 56 validate_SurveyChoicesModel rcs = Valid cs →
  ¬ NoDup (map raw_ch_id rcs) →
  validate_choices (Some rcs)
  = Invalid [([Key "choices"], ValueError "Duplicate choices ids")].
Proof.
  intros Hcs Hdup. unfold validate_choices. rewrite Hcs; simpl.
  apply list_field_Valid in Hcs as [_ Hcs].
  apply Forall2_choice_ids in Hcs as [Hids _].
  destruct cs as [|c cs].
  { destruct rcs; [|done]. exfalso. apply Hdup. constructor. }
  simpl. destruct (has_duplicates (ch_id c :: map ch_id cs)) eqn:Hd; [done|].
  apply has_duplicates_false in Hd. exfalso. apply Hdup. rewrite Hids.
  change (map (Some ∘ ch_id) (c :: cs)) with ((Some ∘ ch_id) <$> (c :: cs)).
  rewrite list_fmap_compose. by apply (NoDup_fmap_2 Some).
Qed.

End survey_ids.

(** C5, as the code has it.  A create payload is accepted only if it has at
    most 128 questions with pairwise distinct ids in [0, 1024), each with at
    most 56 choices with pairwise distinct ids in [0, 1024).  A payload in
    which two questions share an id, or two choices of one question do, is
    never accepted.  The failure is reported as the duplicate-id error of
    the [questions] field (of the [choices] field) when the list is within
    its count bound and each of its items is valid by itself. *)
Theorem survey_create_ids `{SurveyModels.IvWindow} (p : SurveyModels.RawSurveyCreate) :
  (is_valid (SurveyModels.validate_SurveyCreateModel p) = true →
     ∃ rqs, SurveyModels.raw_questions (SurveyModels.raw_create_shared p) = Some rqs
            ∧ Invariants.question_ids_ok rqs)
  ∧ (∀ rqs,
       SurveyModels.raw_questions (SurveyModels.raw_create_shared p) = Some rqs →
       Spec.shares_an_id (map SurveyModels.raw_q_id rqs)
       ∨ (∃ q cs, q ∈ rqs ∧ SurveyModels.raw_q_choices q = Some cs
                  ∧ Spec.shares_an_id (map SurveyModels.raw_ch_id cs)) →
       is_valid (SurveyModels.validate_SurveyCreateModel p) = false)
  ∧ (∀ rqs qs,
       SurveyModels.raw_questions (SurveyModels.raw_create_shared p) = Some rqs →
       list_field 128 SurveyModels.validate_SurveyQuestionModel rqs = Valid qs →
       Spec.shares_an_id (map SurveyModels.raw_q_id rqs) →
       ([Key "questions"], ValueError "Duplicate question ids")
         ∈ errors_of (SurveyModels.validate_SurveyCreateModel p))
  ∧ (∀ rcs cs,
       list_field 56 SurveyModels.validate_SurveyChoicesModel rcs = Valid cs →
       Spec.shares_an_id (map SurveyModels.raw_ch_id rcs) →
       SurveyModels.validate_choices (Some rcs)
       = Invalid [([Key "choices"], ValueError "Duplicate choices ids")]).
Proof.
  assert (is_valid (SurveyModels.validate_SurveyCreateModel p) = true →
     ∃ rqs, SurveyModels.raw_questions (SurveyModels.raw_create_shared p) = Some rqs
            ∧ Invariants.question_ids_ok rqs) as Hok.
  { destruct (SurveyModels.validate_SurveyCreateModel p) as [m|] eqn:Hv; [|done].
    intros _. by apply validate_SurveyCreateModel_inv in Hv as [_ ?]. }
  split_and!.
  - done.
  - intros rqs Hrqs Hdup.
    destruct (is_valid (SurveyModels.validate_SurveyCreateModel p)) eqn:Hv; [|done].
    exfalso. destruct (Hok eq_refl) as (rqs' & Hrqs' & _ & Hnd & Hall).
    rewrite Hrqs in Hrqs'. injection Hrqs' as <-.
    destruct Hdup as [Hdup|(q & cs & Hq & Hcs & Hdup)].
    + by apply shares_an_id_not_NoDup in Hdup.
    + apply (proj1 (Forall_forall _ _) Hall) in Hq as [_ Hq].
      destruct (Hq _ Hcs) as (_ & ? & _). by apply shares_an_id_not_NoDup in Hdup.
  - intros rqs qs Hrqs Hqs Hdup%shares_an_id_not_NoDup.
    unfold SurveyModels.validate_SurveyCreateModel.
    do 3 apply errors_vap_l. rewrite errors_vmap.
    unfold SurveyModels.validate_SurveySharedModel.
    do 5 apply errors_vap_l. apply errors_vap_r.
    rewrite Hrqs, (duplicate_questions_reported _ qs) by done.
    simpl. by apply list_elem_of_singleton.
  - intros rcs cs Hcs Hdup%shares_an_id_not_NoDup.
    by eapply duplicate_choices_reported.
Qed.

(** C5, as the design words it, fails on two questions that share an id when
    one of them is invalid by itself: validation fails, and no duplicate-id
    error is among the errors. *)
Lemma shared_id_without_duplicate_error :
  Spec.shares_an_id (map SurveyModels.raw_q_id Examples.shared_id_questions)
  ∧ @SurveyModels.validate_SurveyCreateModel Examples.window
      (Examples.create_payload Examples.shared_id_questions)
    = Invalid [([Key "questions"; Idx 1; Key "type"], EnumMember)]
  ∧ ¬ Exists Spec.duplicate_id_error
        (errors_of (@SurveyModels.validate_SurveyCreateModel Examples.window
                      (Examples.create_payload Examples.shared_id_questions))).
Proof.
  split_and!.
  - exists 0%nat, 1%nat, 0. done.
  - vm_compute. reflexivity.
  - replace (@SurveyModels.validate_SurveyCreateModel Examples.window
               (Examples.create_payload Examples.shared_id_questions))
      with (@Invalid SurveyModels.SurveyCreateModel
              [([Key "questions"; Idx 1; Key "type"], EnumMember)])
      by (vm_compute; reflexivity).
    simpl. intros [[msg Hmsg]|Hnil%Exists_nil]%Exists_cons; [|done].
    simpl in Hmsg. discriminate.
Qed.

(** ** Re-validation *)

(** C9.  A survey that was validated is accepted again by survey-create
    validation when its full projection is written back as a document, and
    the instance returned is the create part of the survey, unchanged. *)
Theorem revalidation_reproduces `{SurveyModels.IvWindow}
    (p : SurveyModels.RawSurvey) (s : SurveyModels.SurveyModel) :
  SurveyModels.validate_SurveyModel p = Valid s →
  SurveyModels.validate_SurveyCreateModel
    (SurveyModels.raw_create
       (SurveyModels.dict_SurveyModel (Collaborators.projectFull s)))
  = Valid (SurveyModels.survey_create s).
Proof.
  intros Hs. apply validate_SurveyModel_inv in Hs.
  apply validate_SurveyCreateModel_inv in Hs as [Hwf _].
  unfold Collaborators.projectFull. by apply validate_SurveyCreateModel_dict.
Qed.

Lemma revalidation_reproduces_S :
  @SurveyModels.validate_SurveyCreateModel Examples.window
    (SurveyModels.raw_create
       (SurveyModels.dict_SurveyModel (Collaborators.projectFull Examples.S)))
  = Valid (SurveyModels.survey_create Examples.S).
Proof.
  apply (@revalidation_reproduces Examples.window Examples.S_document Examples.S).
  vm_compute. reflexivity.
Defined.

(** ** The submission handler *)

Section gates.
Import SurveyModels Handler SurveyController.

Variable Survey_get : ObjectId → M State StoredSurvey.
Variable Survey_submit_answers :
  ObjectId → SubmitSurveyModel → option ObjectId → M State unit.
Variable validate_captcha : option string → M State unit.
Variable GeoIp_get : string → M State (option geoip_record).

(** The duplicate gate does nothing, whatever the survey and the store. *)
Lemma duplicate_gate_returns survey st :
  duplicate_gate survey st = (Returned tt, st).
Proof. unfold duplicate_gate. by destruct (negb _). Qed.

(** The verdict on a lookup result never rejects: it returns, or the
    dictionary lacks the key. *)
Lemma proxy_verdict_outcome geoip_lookup st :
  proxy_verdict geoip_lookup st = (Returned tt, st)
  ∨ proxy_verdict geoip_lookup st = (Raised (KeyError "proxy"), st).
Proof.
  unfold proxy_verdict. destruct geoip_lookup as [d|]; [|by left].
  case_bool_decide; [by left|].
  destruct (d !! "proxy") as [v|]; [|by right].
  left. by case_bool_decide.
Qed.

(** Once the survey is fetched, the handler is the captcha gate followed by
    the remaining gates. *)
Lemma submit_survey_fetched request survey_id data captcha st id_ survey st' :
  ObjectId_of_str survey_id = Some id_ →
  Survey_get id_ st = (Returned survey, st') →
  submit_survey Survey_get Survey_submit_answers validate_captcha GeoIp_get
    request survey_id data captcha st
  = bind (captcha_gate validate_captcha survey captcha)
      (λ _, after_captcha Survey_submit_answers GeoIp_get id_ survey request data) st'.
Proof.
  intros Hid Hget. unfold submit_survey, parse_survey_id.
  rewrite Hid. unfold bind at 1. unfold ret at 1.
  unfold bind at 1. by rewrite Hget.
Qed.

(** The handler does not read [allow_multiple_submissions]. *)
Lemma after_captcha_authenticated id_ survey request data u st :
  user request = Some u →
  after_captcha Survey_submit_answers GeoIp_get id_ survey request data st
  = bind (proxy_gate GeoIp_get survey request)
      (λ _, Survey_submit_answers id_ data (Some u)) st.
Proof.
  intros Hu. unfold after_captcha, authentication_gate. rewrite Hu.
  unfold bind at 1. unfold ret at 1.
  unfold bind at 1. by rewrite duplicate_gate_returns.
Qed.

Lemma after_captcha_anonymous id_ survey request data st :
  user request = None →
  after_captcha Survey_submit_answers GeoIp_get id_ survey request data st
  = if requires_login (stored_shared survey) then (Raised InvalidAccountAuth, st)
    else bind (proxy_gate GeoIp_get survey request)
           (λ _, Survey_submit_answers id_ data None) st.
Proof.
  intros Hu. unfold after_captcha, authentication_gate. rewrite Hu.
  destruct (requires_login _); [done|].
  unfold bind at 1. unfold ret at 1.
  unfold bind at 1. by rewrite duplicate_gate_returns.
Qed.

End gates.

Section submission.
Import SurveyModels Handler SurveyController Collaborators.
Implicit Types (P : Providers) (st : State).

Lemma Survey_get_state id_ st r st' :
  Survey_get id_ st = (r, st') → st' = st.
Proof. unfold Survey_get. destruct (find _ _); by intros [= _ <-]. Qed.

(** With the reputation lookup of the design the proxy gate always returns. *)
Lemma proxy_gate_returns P survey request st :
  proxy_gate (GeoIp_get P) survey request st = (Returned tt, st).
Proof.
  unfold proxy_gate. destruct (proxy_block _); [|done].
  destruct (client_host request) as [h|]; [|done].
  unfold bind, GeoIp_get, ret.
  destruct (origin_is_proxy P h) as [b|]; [|done].
  unfold proxy_verdict. case_bool_decide as Hempty.
  { exfalso. apply (f_equal (λ m : geoip_record, m !! "proxy")) in Hempty.
    by rewrite lookup_singleton_eq, lookup_empty in Hempty. }
  rewrite lookup_singleton_eq. by case_bool_decide.
Qed.

Lemma captcha_gate_passes P survey captcha st :
  captcha_passes P survey captcha →
  captcha_gate (validate_captcha P) survey captcha st = (Returned tt, st).
Proof.
  unfold captcha_gate, validate_captcha.
  intros [->|(token & -> & Hok)]; [done|].
  destruct (requires_captcha survey); [|done]. by rewrite Hok.
Qed.

(** Once the survey is fetched, the outcome by cases of the captcha gate. *)
Lemma submit_captcha_cases P request survey_id data captcha st id_ survey :
  ObjectId_of_str survey_id = Some id_ →
  Survey_get id_ st = (Returned survey, st) →
  submit P request survey_id data captcha st
  = if requires_captcha survey then
      match captcha with
      | None => (Raised CaptchaRequiredError, st)
      | Some token =>
          if captcha_verify P token
          then after_captcha Survey_submit_answers (GeoIp_get P) id_ survey
                 request data st
          else (Raised CaptchaInvalidError, st)
      end
    else after_captcha Survey_submit_answers (GeoIp_get P) id_ survey request data st.
Proof.
  intros Hid Hget. unfold submit.
  rewrite (submit_survey_fetched _ _ _ _ _ _ _ _ _ _ _ _ Hid Hget).
  unfold bind at 1. unfold captcha_gate, validate_captcha.
  destruct (requires_captcha survey); [|done].
  destruct captcha as [token|]; [|done].
  by destruct (captcha_verify P token).
Qed.

(** A submission that passes the captcha gate and the authentication gate
    reaches the write, on the store as it was: its outcome is the outcome
    of the write. *)
Lemma submit_reaches_write P request survey_id data captcha st id_ survey :
  ObjectId_of_str survey_id = Some id_ →
  Survey_get id_ st = (Returned survey, st) →
  captcha_passes P survey captcha →
  is_Some (user request) ∨ requires_login (stored_shared survey) = false →
  submit P request survey_id data captcha st
  = Survey_submit_answers id_ data (user request) st.
Proof.
  intros Hid Hget Hcap Hauth. unfold submit.
  rewrite (submit_survey_fetched _ _ _ _ _ _ _ _ _ _ _ _ Hid Hget).
  unfold bind at 1. rewrite captcha_gate_passes by done.
  destruct (user request) as [u|] eqn:Hu.
  - rewrite (after_captcha_authenticated _ _ _ _ _ _ u) by done.
    unfold bind. by rewrite proxy_gate_returns.
  - rewrite after_captcha_anonymous by done.
    destruct Hauth as [[? [=]]| ->].
    unfold bind. by rewrite proxy_gate_returns.
Qed.

Lemma write_accepted id_ data user_id st :
  violates_uniqueness st id_ user_id = false →
  Survey_submit_answers id_ data user_id st
  = (Returned tt, insert_answers (mkAnswerSet id_ user_id data) st).
Proof. intros Hok. unfold Survey_submit_answers. by rewrite Hok. Qed.



End submission.

(** C3.  Once the survey is fetched, a survey that requires a captcha has the
    submission fail with [CaptchaRequiredError] when the token is absent and
    with [CaptchaInvalidError] when the verifier rejects it, leaving the
    store as it was, and has it proceed to the remaining gates when the
    verifier accepts it; a survey that does not require one proceeds to the
    remaining gates whatever the token. *)
Theorem captcha_gate_decides (P : Collaborators.Providers) (request : Handler.Request)
    (survey_id : string) (data : SurveyModels.SubmitSurveyModel)
    (captcha : option string) (st : SurveyController.State) (id_ : ObjectId)
    (survey : SurveyController.StoredSurvey) :
  ObjectId_of_str survey_id = Some id_ →
  Collaborators.Survey_get id_ st = (Handler.Returned survey, st) →
  Collaborators.submit P request survey_id data captcha st
  = if SurveyController.requires_captcha survey then
      match captcha with
      | None => (Handler.Raised Handler.CaptchaRequiredError, st)
      | Some token =>
          if Collaborators.captcha_verify P token
          then SurveyController.after_captcha Collaborators.Survey_submit_answers
                 (Collaborators.GeoIp_get P) id_ survey request data st
          else (Handler.Raised Handler.CaptchaInvalidError, st)
      end
    else SurveyController.after_captcha Collaborators.Survey_submit_answers
           (Collaborators.GeoIp_get P) id_ survey request data st.
Proof. apply submit_captcha_cases. Qed.

Lemma captcha_gate_decides_absent_token :
  Collaborators.submit Examples.providers Examples.anonymous Examples.S_hex
    Examples.answer0 None (Examples.store_with false false false true)
  = (Handler.Raised Handler.CaptchaRequiredError,
     Examples.store_with false false false true).
Proof.
  apply (captcha_gate_decides Examples.providers Examples.anonymous Examples.S_hex
           Examples.answer0 None (Examples.store_with false false false true)
           Examples.S_id (Examples.stored false false false true)).
  - vm_compute. reflexivity.
  - vm_compute. reflexivity.
Defined.

(** C4, as the code has it.  Once the survey is fetched, a submission
    without an identity to a survey that requires login is always rejected
    and leaves the store as it was; the rejection is [InvalidAccountAuth]
    (the design's [AuthenticationRequiredError]) whenever the captcha gate
    lets the submission through, whatever the client's address and whatever
    the reputation lookup reports. *)
Theorem login_required_rejects (P : Collaborators.Providers) (request : Handler.Request)
    (survey_id : string) (data : SurveyModels.SubmitSurveyModel)
    (captcha : option string) (st : SurveyController.State) (id_ : ObjectId)
    (survey : SurveyController.StoredSurvey) :
  ObjectId_of_str survey_id = Some id_ →
  Collaborators.Survey_get id_ st = (Handler.Returned survey, st) →
  SurveyModels.requires_login (SurveyController.stored_shared survey) = true →
  Handler.user request = None →
  (∃ e, Collaborators.submit P request survey_id data captcha st
        = (Handler.Raised e, st))
  ∧ (Collaborators.captcha_passes P survey captcha →
     Collaborators.submit P request survey_id data captcha st
     = (Handler.Raised Handler.AuthenticationRequiredError, st)).
Proof.
  intros Hid Hget Hlogin Huser.
  rewrite (submit_captcha_cases _ _ _ _ _ _ _ _ Hid Hget).
  rewrite after_captcha_anonymous, Hlogin by done.
  split.
  - destruct (SurveyController.requires_captcha survey); [|eauto].
    destruct captcha as [token|]; [|eauto].
    destruct (Collaborators.captcha_verify P token); eauto.
  - intros [->|(token & -> & ->)]; [done|].
    by destruct (SurveyController.requires_captcha survey).
Qed.

Lemma login_required_rejects_anonymous :
  (∃ e, Collaborators.submit Examples.providers Examples.from_proxy Examples.S_hex
          Examples.answer0 (Some "ok") (Examples.store_with true true false true)
        = (Handler.Raised e, Examples.store_with true true false true))
  ∧ (Collaborators.captcha_passes Examples.providers
       (Examples.stored true true false true) (Some "ok") →
     Collaborators.submit Examples.providers Examples.from_proxy Examples.S_hex
       Examples.answer0 (Some "ok") (Examples.store_with true true false true)
     = (Handler.Raised Handler.AuthenticationRequiredError,
        Examples.store_with true true false true)).
Proof.
  apply (login_required_rejects Examples.providers Examples.from_proxy Examples.S_hex
           Examples.answer0 (Some "ok") (Examples.store_with true true false true)
           Examples.S_id (Examples.stored true true false true)).
  - vm_compute. reflexivity.
  - vm_compute. reflexivity.
  - vm_compute. reflexivity.
  - vm_compute. reflexivity.
Defined.

(** C4, as the design words it, fails when the survey also requires a
    captcha and the token is absent: the captcha gate comes first and the
    rejection is the captcha error. *)
Lemma captcha_error_before_login_error :
  SurveyModels.requires_login
    (SurveyController.stored_shared (Examples.stored true false false true)) = true
  ∧ Handler.user Examples.anonymous = None
  ∧ Collaborators.submit Examples.providers Examples.anonymous Examples.S_hex
      Examples.answer0 None (Examples.store_with true false false true)
    = (Handler.Raised Handler.CaptchaRequiredError,
       Examples.store_with true false false true)
  ∧ Collaborators.submit Examples.providers Examples.anonymous Examples.S_hex
      Examples.answer0 None (Examples.store_with true false false true)
    ≠ (Handler.Raised Handler.AuthenticationRequiredError,
       Examples.store_with true false false true).
Proof.
  split_and!; [done|done|by vm_compute|].
  replace (Collaborators.submit Examples.providers Examples.anonymous Examples.S_hex
             Examples.answer0 None (Examples.store_with true false false true))
    with (@Handler.Raised unit Handler.CaptchaRequiredError,
          Examples.store_with true false false true)
    by (vm_compute; reflexivity).
  discriminate.
Qed.



(** The example of section 8: submitting as [U1] twice is accepted, then
    fails with [DuplicateSubmissionError], and one answer set of [U1] is
    recorded. *)
Lemma submitted_twice_as_U1 :
  Collaborators.submit Examples.providers Examples.as_U1 Examples.S_hex
    Examples.answer0 None Examples.store0
  = (Handler.Returned tt, Examples.store1)
  ∧ Collaborators.submit Examples.providers Examples.as_U1 Examples.S_hex
      Examples.answer0 None Examples.store1
    = (Handler.Raised Handler.DuplicateSubmissionError, Examples.store1)
  ∧ length (Collaborators.recorded Examples.store1 Examples.S_id Examples.U1) = 1%nat.
Proof. split_and!; by vm_compute. Qed.


(** C2, on the code.  Once the survey is fetched, a submission that passes
    the captcha and authentication gates to a survey with
    [proxy_block = true], from a known address that the reputation lookup
    reports as a proxy, is not stopped by the proxy gate: the lookup is made
    and its report is [yes], the gate returns, and the outcome of the
    handler is the outcome of the write; the submission is accepted and its
    answer set recorded whenever the write does not violate the uniqueness
    constraint, as for every submission without an identity. *)
Theorem proxy_origin_accepted (P : Collaborators.Providers)
    (request : Handler.Request) (survey_id : string)
    (data : SurveyModels.SubmitSurveyModel) (captcha : option string)
    (st : SurveyController.State) (id_ : ObjectId)
    (survey : SurveyController.StoredSurvey) (h : string) :
  ObjectId_of_str survey_id = Some id_ →
  Collaborators.Survey_get id_ st = (Handler.Returned survey, st) →
  Collaborators.captcha_passes P survey captcha →
  is_Some (Handler.user request)
  ∨ SurveyModels.requires_login (SurveyController.stored_shared survey) = false →
  SurveyModels.proxy_block (SurveyController.stored_shared survey) = true →
  SurveyController.client_host request = Some h →
  Collaborators.origin_is_proxy P h = Some true →
  Collaborators.GeoIp_get P h st
  = (Handler.Returned (Some {[ "proxy" := "yes" ]}), st)
  ∧ SurveyController.proxy_gate (Collaborators.GeoIp_get P) survey request st
    = (Handler.Returned tt, st)
  ∧ Collaborators.submit P request survey_id data captcha st
    = Collaborators.Survey_submit_answers id_ data (Handler.user request) st
  ∧ (Collaborators.violates_uniqueness st id_ (Handler.user request) = false →
     Collaborators.submit P request survey_id data captcha st
     = (Handler.Returned tt,
        Collaborators.insert_answers
          (SurveyController.mkAnswerSet id_ (Handler.user request) data) st)).
Proof.
  intros Hid Hget Hcap Hauth _ _ Hproxy. split_and!.
  - unfold Collaborators.GeoIp_get, Handler.ret. by rewrite Hproxy.
  - apply proxy_gate_returns.
  - by eapply submit_reaches_write.
  - intros Hok. rewrite (submit_reaches_write _ _ _ _ _ _ id_ survey) by done.
    by apply write_accepted.
Qed.

Lemma submission_from_proxy_accepted :
  Collaborators.GeoIp_get Examples.providers "203.0.113.7"
    (Examples.store_with false true false false)
  = (Handler.Returned (Some {[ "proxy" := "yes" ]}),
     Examples.store_with false true false false)
  ∧ SurveyController.proxy_gate (Collaborators.GeoIp_get Examples.providers)
      (Examples.stored false true false false) Examples.from_proxy
      (Examples.store_with false true false false)
    = (Handler.Returned tt, Examples.store_with false true false false)
  ∧ Collaborators.submit Examples.providers Examples.from_proxy Examples.S_hex
      Examples.answer0 None (Examples.store_with false true false false)
    = Collaborators.Survey_submit_answers Examples.S_id Examples.answer0
        (Handler.user Examples.from_proxy) (Examples.store_with false true false false)
  ∧ (Collaborators.violates_uniqueness (Examples.store_with false true false false)
       Examples.S_id (Handler.user Examples.from_proxy) = false →
     Collaborators.submit Examples.providers Examples.from_proxy Examples.S_hex
       Examples.answer0 None (Examples.store_with false true false false)
     = (Handler.Returned tt,
        Collaborators.insert_answers
          (SurveyController.mkAnswerSet Examples.S_id
             (Handler.user Examples.from_proxy) Examples.answer0)
          (Examples.store_with false true false false))).
Proof.
  apply (proxy_origin_accepted Examples.providers Examples.from_proxy Examples.S_hex
           Examples.answer0 None (Examples.store_with false true false false)
           Examples.S_id (Examples.stored false true false false) "203.0.113.7").
  - vm_compute. reflexivity.
  - vm_compute. reflexivity.
  - left. vm_compute. reflexivity.
  - right. vm_compute. reflexivity.
  - vm_compute. reflexivity.
  - vm_compute. reflexivity.
  - vm_compute. reflexivity.
Defined.

(** The failing input of C2: the anonymous submission from the proxy is
    accepted and its answer set recorded. *)
Lemma anonymous_submission_from_proxy_recorded :
  Collaborators.submit Examples.providers Examples.from_proxy Examples.S_hex
    Examples.answer0 None (Examples.store_with false true false false)
  = (Handler.Returned tt,
     Collaborators.insert_answers
       (SurveyController.mkAnswerSet Examples.S_id None Examples.answer0)
       (Examples.store_with false true false false)).
Proof. by vm_compute. Qed.

(** ** The public projection *)

Section public_projection.
Import Document SurveyModels Handler SurveyController Collaborators.

Lemma public_name k :
  bool_decide (k ∈ private_key_names) = false → k ∉ private_key_names.
Proof. by intros ?%bool_decide_eq_false. Qed.

Local Ltac keys_public :=
  repeat first
    [ apply Forall_nil_2
    | apply Forall_cons_2; [apply public_name; vm_compute; reflexivity|]
    | apply Forall_app_2
    | assumption ].

Lemma keys_IvCipher_public m :
  Forall (λ k, k ∉ private_key_names) (keys_of (doc_IvCipher m)).
Proof. simpl. keys_public. Qed.

Lemma keys_option_IvCipher_public o :
  Forall (λ k, k ∉ private_key_names) (keys_of (doc_option doc_IvCipher o)).
Proof. destruct o; [apply keys_IvCipher_public | constructor]. Qed.

Lemma keys_choices_public (o : option (list SurveyChoicesModel)) :
  Forall (λ k, k ∉ private_key_names)
    (keys_of (doc_option (λ l, VList (map doc_SurveyChoicesModel l)) o)).
Proof.
  destruct o as [l|]; [|constructor]. simpl.
  induction l as [|c l IH]; simpl; keys_public.
Qed.

Lemma keys_question_public q :
  Forall (λ k, k ∉ private_key_names) (keys_of (doc_SurveyQuestionModel q)).
Proof.
  pose proof (keys_option_IvCipher_public (q_regex q)).
  pose proof (keys_option_IvCipher_public (q_description q)).
  pose proof (keys_choices_public (q_choices q)).
  unfold doc_SurveyQuestionModel.
  cbn [keys_of map concat doc_IvCipher]. keys_public.
Qed.

Lemma keys_questions_public (qs : list SurveyQuestionModel) :
  Forall (λ k, k ∉ private_key_names)
    (keys_of (VList (map doc_SurveyQuestionModel qs))).
Proof.
  cbn [keys_of]. induction qs as [|q qs IH]; [constructor|].
  cbn [map concat]. apply Forall_app_2; [apply keys_question_public | done].
Qed.

Lemma keys_public_model_public m :
  Forall (λ k, k ∉ private_key_names) (keys_of (doc_SurveyPublicModel m)).
Proof.
  pose proof (keys_option_IvCipher_public (description (public_shared m))).
  pose proof (keys_questions_public (questions (public_shared m))).
  unfold doc_SurveyPublicModel, doc_shared_fields, doc_SurveySignPublicKeyModel,
    doc_SurveyPublicKeyModel.
  cbn [keys_of map concat doc_IvCipher app] in *. keys_public.
Qed.

Lemma public_outcome request survey_id st :
  match public request survey_id st with
  | (Returned pub, st') =>
      st' = st
      ∧ ∃ survey, survey ∈ mongo_survey st ∧ pub = projectPublic (stored_model survey)
  | (Raised _, st') => st' = st
  end.
Proof.
  unfold public, public_survey, parse_survey_id, bind.
  destruct (ObjectId_of_str survey_id) as [id_|]; simpl; [|done].
  unfold Survey_public, bind, Survey_get.
  destruct (find _ (mongo_survey st)) as [survey|] eqn:Hfind; simpl; [|done].
  destruct (_ && _); simpl; [done|]. split; [done|].
  exists survey. split; [|done].
  apply find_some in Hfind as [Hin _]. by apply list_elem_of_In.
Qed.

End public_projection.

(** C7.  The public projection does not depend on the private halves of a
    survey: replacing the [iv] and [cipher_text] of the signing key pair,
    the secret key and the private key of the encryption key pair leaves it
    unchanged.  Serialised, its [sign_keypair] and [keypair] carry the one
    key [public_key], it has no [secret_key], and neither [secret_key] nor
    [private_key] occurs in it at any depth.  What the handler returns is
    the public projection of a stored survey. *)
Theorem public_projection_hides_private_halves :
  (∀ s sign_iv sign_cipher_text secret_key private_key,
     Collaborators.projectPublic
       (Collaborators.with_private_halves s sign_iv sign_cipher_text
          secret_key private_key)
     = Collaborators.projectPublic s)
  ∧ (∀ s,
       let d := SurveyModels.doc_SurveyPublicModel (Collaborators.projectPublic s) in
       Document.field "sign_keypair" d
       = Some (Document.VDict
                 [("public_key",
                   Document.VStr
                     (SurveyModels.skp_public_key
                        (SurveyModels.create_sign_keypair
                           (SurveyModels.survey_create s))))])
       ∧ Document.field "keypair" d
         = Some (Document.VDict
                   [("public_key",
                     SurveyModels.doc_IvCipher
                       (SurveyModels.kp_public_key
                          (SurveyModels.create_keypair
                             (SurveyModels.survey_create s))))])
       ∧ Document.field "secret_key" d = None
       ∧ Forall (λ k, k ∉ Collaborators.private_key_names) (Document.keys_of d))
  ∧ (∀ request survey_id st,
       match Collaborators.public request survey_id st with
       | (Handler.Returned pub, st') =>
           st' = st
           ∧ ∃ survey, survey ∈ SurveyController.mongo_survey st
                       ∧ pub = Collaborators.projectPublic
                                 (SurveyController.stored_model survey)
       | (Handler.Raised _, st') => st' = st
       end).
Proof.
  split_and!.
  - done.
  - intros s d. split_and!; [done|done|done|].
    apply keys_public_model_public.
  - apply public_outcome.
Qed.

(** ** Account lookup *)

Section account_lookup.
Import Document Handler UserLib.
Context {UserModel : Type} (UserModel_init : document → validated UserModel).

Lemma find_filter {A} (q : A → bool) (l : list A) :
  match List.find q l with
  | Some a => a ∈ l ∧ q a = true ∧ List.filter q l ≠ []
  | None => (∀ a, a ∈ l → q a = false) ∧ List.filter q l = []
  end.
Proof.
  induction l as [|x l IH]; simpl.
  - split; [by intros a ?%elem_of_nil | done].
  - destruct (q x) eqn:Hx.
    + split_and!; [apply list_elem_of_here | done | done].
    + destruct (List.find q l) as [a|].
      * destruct IH as (? & ? & ?). split_and!; [by apply list_elem_of_further|done|done].
      * destruct IH as [Hall ?]. split; [|done].
        intros a [->|?]%elem_of_cons; [done | by apply Hall].
Qed.

Lemma email_query_nonempty email (d : document) :
  email_query email d = true → d ≠ ∅.
Proof.
  unfold email_query. intros Hq ->. by rewrite lookup_empty in Hq.
Qed.

End account_lookup.

(** C10, as the code has it.  If a document of the collection matches the
    email, [User.get] returns the first such document as [UserModel] builds
    it, and raises the validation error of [UserModel] if it rejects the
    document, and [User.exists] returns; if none does, both raise
    [UserNotFoundException].  Neither changes the store. *)
Theorem user_lookup {UserModel : Type}
    (UserModel_init : UserLib.document → validated UserModel)
    (email : string) (st : UserLib.State) :
  match List.find (UserLib.email_query email) (UserLib.mongo_user st) with
  | Some d =>
      d ∈ UserLib.mongo_user st
      ∧ UserLib.email_query email d = true
      ∧ UserLib.get UserModel_init email st
        = (match UserModel_init d with
           | Valid m => Handler.Returned m
           | Invalid errs => Handler.Raised (Handler.ValidationError errs)
           end, st)
      ∧ UserLib.exists_ email st = (Handler.Returned tt, st)
  | None =>
      (∀ d, d ∈ UserLib.mongo_user st → UserLib.email_query email d = false)
      ∧ UserLib.get UserModel_init email st
        = (Handler.Raised Handler.UserNotFoundException, st)
      ∧ UserLib.exists_ email st
        = (Handler.Raised Handler.UserNotFoundException, st)
  end.
Proof.
  pose proof (find_filter (UserLib.email_query email) (UserLib.mongo_user st)) as Hfind.
  unfold UserLib.get, UserLib.exists_, UserLib.find_one, UserLib.count_documents,
    Handler.bind, Handler.gets.
  destruct (List.find _ _) as [d|].
  - destruct Hfind as (Hin & Hq & Hne).
    split_and!; [done|done| |].
    + rewrite bool_decide_eq_false_2 by by eapply email_query_nonempty.
      by destruct (UserModel_init d).
    + destruct (List.filter _ _); [done|]. done.
  - destruct Hfind as [Hall Hnil]. split_and!; [done|done|by rewrite Hnil].
Qed.

(** C10, as it is worded, fails on a stored document that [UserModel]
    rejects: a user with the email exists, and [User.get] raises the
    validation error instead of returning a [UserModel]. *)
Lemma stored_user_rejected_by_UserModel :
  UserLib.exists_ "a@b.c" Cases.bare_user = (Handler.Returned tt, Cases.bare_user)
  ∧ UserLib.get Cases.UserModel_required_fields "a@b.c" Cases.bare_user
    = (Handler.Raised
         (Handler.ValidationError
            [([Key "auth"], Missing); ([Key "keypair"], Missing);
             ([Key "sign_keypair"], Missing); ([Key "keychain"], Missing);
             ([Key "kdf"], Missing); ([Key "signature"], Missing);
             ([Key "_id"], Missing); ([Key "created"], Missing);
             ([Key "otp"], Missing)]),
       Cases.bare_user)
  ∧ ¬ ∃ m, UserLib.get Cases.UserModel_required_fields "a@b.c" Cases.bare_user
           = (Handler.Returned m, Cases.bare_user).
Proof.
  assert (UserLib.get Cases.UserModel_required_fields "a@b.c" Cases.bare_user
    = (Handler.Raised
         (Handler.ValidationError
            [([Key "auth"], Missing); ([Key "keypair"], Missing);
             ([Key "sign_keypair"], Missing); ([Key "keychain"], Missing);
             ([Key "kdf"], Missing); ([Key "signature"], Missing);
             ([Key "_id"], Missing); ([Key "created"], Missing);
             ([Key "otp"], Missing)]),
       Cases.bare_user)) as Hget by (vm_compute; reflexivity).
  split_and!; [by vm_compute|done|].
  intros [m Hm]. rewrite Hget in Hm. discriminate.
Qed.

(** * Further properties of the code *)

(** ** The validator methods and the answer model *)

Lemma validate_SurveyQuestionType_Valid n t :
  SurveyModels.validate_SurveyQuestionType n = Valid t ↔
    n = SurveyModels.SurveyQuestionType_value t.
Proof.
  split.
  - unfold SurveyModels.validate_SurveyQuestionType, fail.
    destruct (Z.eqb_spec n 0) as [->|?]; [by intros [= <-]|].
    destruct (Z.eqb_spec n 1) as [->|?]; [by intros [= <-]|].
    destruct (Z.eqb_spec n 2) as [->|?]; [by intros [= <-]|].
    destruct (Z.eqb_spec n 3) as [->|?]; [by intros [= <-]|].
    done.
  - intros ->. by destruct t.
Qed.

(** X1.  [questions_validator] returns its list unchanged exactly when the
    question ids are pairwise distinct and fails with "Duplicate question
    ids" otherwise; [choices_validator] does the same for the choice ids of
    a list and lets [None] and the empty list through. *)
Theorem id_validators_exact :
  (∀ v, SurveyModels.questions_validator v
        = if decide (NoDup (map SurveyModels.q_id v)) then Valid v
          else Invalid [([], ValueError "Duplicate question ids")])
  ∧ (∀ l, SurveyModels.choices_validator (Some l)
          = if decide (NoDup (map SurveyModels.ch_id l)) then Valid (Some l)
            else Invalid [([], ValueError "Duplicate choices ids")])
  ∧ SurveyModels.choices_validator None = Valid None.
Proof.
  split_and!.
  - intros v. unfold SurveyModels.questions_validator.
    destruct (has_duplicates _) eqn:Hd.
    + apply has_duplicates_true in Hd. by rewrite decide_False.
    + apply has_duplicates_false in Hd. by rewrite decide_True.
  - intros l. destruct (decide (NoDup (map SurveyModels.ch_id l))) as [Hnd|Hnd].
    + destruct l as [|c l]; [done|].
      apply has_duplicates_false in Hnd. simpl in *. by rewrite Hnd.
    + destruct l as [|c l]; [by destruct Hnd; constructor|].
      apply has_duplicates_true in Hnd. simpl in *. by rewrite Hnd.
  - done.
Qed.

(** X2.  An answer is accepted exactly when its id is present and within
    [0, 1024), its answer list is present with 1 to 56 entries, and its type
    is one of the four tags; the instance carries the id and the list as
    given.  The strings of the list are not constrained. *)
Theorem SurveyAnswerModel_accepts_exactly (p : SurveyModels.RawAnswer)
    (a : SurveyModels.SurveyAnswerModel) :
  SurveyModels.validate_SurveyAnswerModel p = Valid a ↔
    SurveyModels.raw_a_id p = Some (SurveyModels.a_id a)
    ∧ 0 ≤ SurveyModels.a_id a < 1024
    ∧ SurveyModels.raw_a_answer p = Some (SurveyModels.a_answer a)
    ∧ (1 ≤ length (SurveyModels.a_answer a) ≤ 56)%nat
    ∧ SurveyModels.raw_a_type p
      = Some (SurveyModels.SurveyQuestionType_value (SurveyModels.a_type a)).
Proof.
  assert (∀ l l', SurveyModels.validate_answer l = Valid l' ↔
                  l' = l ∧ (1 ≤ length l ≤ 56)%nat) as Hans.
  { intros l l'. unfold SurveyModels.validate_answer, fail.
    destruct (Nat.ltb_spec (length l) 1); [split; [done|lia]|].
    destruct (Nat.ltb_spec 56 (length l)); [split; [done|lia]|].
    split; [intros [= <-]; split; [done|lia] | intros [-> _]; done]. }
  pose proof validate_SurveyQuestionType_Valid as Hty.
  unfold SurveyModels.validate_SurveyAnswerModel. split.
  - intros (g & ty & (g' & l & Hg' & Hl & ->)%vap_Valid & Hty' & ->)%vap_Valid.
    apply vmap_Valid in Hg' as (n & Hn & ->).
    apply required_Valid in Hn as (? & -> & [-> ?]%int_ge_lt_Valid).
    apply required_Valid in Hl as (? & -> & [-> ?]%Hans).
    apply required_Valid in Hty' as (? & -> & ->%Hty).
    done.
  - destruct a as [n l t]; simpl. intros (-> & ? & -> & ? & ->).
    apply vap_Valid. exists (SurveyModels.mkAnswer n l), t. split_and!; [| |done].
    + apply vap_Valid. exists (SurveyModels.mkAnswer n), l. split_and!; [| |done].
      * apply vmap_Valid. exists n. split; [|done].
        apply required_Valid. eexists. split; [done|]. by apply int_ge_lt_Valid.
      * apply required_Valid. eexists. split; [done|]. by apply Hans.
    + apply required_Valid. eexists. split; [done|]. by apply Hty.
Qed.

(** ** The survey schema: bounds and stored values *)

(** X3.  Every instance that survey-create validation returns is within
    every bound of the schema: each [iv] within the window, title and regex
    at most 128 characters, description 1024, question 256, choice 512,
    signature 128, public signing key 44, every key cipher text 240; at most
    128 questions and 56 choices per question, ids within [0, 1024) and
    pairwise distinct in their list. *)
Theorem accepted_survey_within_bounds `{SurveyModels.IvWindow}
    (p : SurveyModels.RawSurveyCreate) (m : SurveyModels.SurveyCreateModel) :
  SurveyModels.validate_SurveyCreateModel p = Valid m →
  Invariants.wf_create m.
Proof. by intros [? _]%validate_SurveyCreateModel_inv. Qed.

Lemma accepted_survey_within_bounds_S :
  @Invariants.wf_create Examples.window (SurveyModels.survey_create Examples.S).
Proof.
  apply (@accepted_survey_within_bounds Examples.window
           (Examples.create_payload [Examples.question 0 3])).
  vm_compute. reflexivity.
Defined.

Section stored_values.
Import SurveyModels Invariants Defaults.
Context `{IvWindow}.

Lemma dict_IvCipher_payload max_length p m :
  validate_IvCipher max_length p = Valid m → dict_IvCipher m = p.
Proof.
  intros (Hiv & Hct & _)%validate_IvCipher_Valid.
  destruct p; simpl in *. unfold dict_IvCipher. by rewrite <-Hiv, <-Hct.
Qed.

Lemma dict_required_IvCipher name max_length o m :
  required name (validate_IvCipher max_length) o = Valid m →
  Some (dict_IvCipher m) = o.
Proof.
  intros (r & -> & Hr)%required_Valid. f_equal. by eapply dict_IvCipher_payload.
Qed.

Lemma dict_optional_IvCipher name max_length o m :
  optional name (validate_IvCipher max_length) o = Valid m →
  dict_IvCipher <$> m = o.
Proof.
  intros [[-> ->]|(r & x & -> & Hx & ->)]%optional_Valid; simpl; [done|].
  f_equal. by eapply dict_IvCipher_payload.
Qed.

Lemma dict_choices_payload rcs cs :
  validate_choices rcs = Valid cs → map dict_SurveyChoicesModel <$> cs = rcs.
Proof.
  unfold validate_choices. rewrite under_Valid. destruct rcs as [rl|].
  - intros (v & Hv & [-> _]%choices_validator_Valid)%vbind_Valid.
    apply vmap_Valid in Hv as (l & [_ Hl]%list_field_Valid & ->).
    simpl. f_equal. induction Hl as [|r c rl l Hrc _ IH]; simpl; [done|].
    f_equal; [|done].
    apply validate_SurveyChoicesModel_Valid in Hrc as (Hi & Hn & Hc & _).
    destruct r; simpl in *. unfold dict_SurveyChoicesModel.
    by rewrite <-Hi, <-Hn, <-Hc.
  - by intros [= <-].
Qed.

Lemma dict_question_payload q m :
  validate_SurveyQuestionModel q = Valid m →
  dict_SurveyQuestionModel m = question_with_defaults q.
Proof.
  unfold validate_SurveyQuestionModel.
  intros (g6 & ty & Hg6 & Hty & ->)%vap_Valid.
  apply vap_Valid in Hg6 as (g5 & rq & Hg5 & Hrq & ->).
  apply vap_Valid in Hg5 as (g4 & cs & Hg4 & Hcs & ->).
  apply vap_Valid in Hg4 as (g3 & qu & Hg3 & Hqu & ->).
  apply vap_Valid in Hg3 as (g2 & de & Hg2 & Hde & ->).
  apply vap_Valid in Hg2 as (g1 & re & Hg1 & Hre & ->).
  apply vmap_Valid in Hg1 as (n & Hn & ->).
  apply required_Valid in Hn as (? & Hid & [-> _]%int_ge_lt_Valid).
  apply dict_optional_IvCipher in Hre, Hde.
  apply dict_required_IvCipher in Hqu.
  apply dict_choices_payload in Hcs.
  apply required_Valid in Hty as (? & Htype & ->%validate_SurveyQuestionType_Valid).
  unfold dict_SurveyQuestionModel, question_with_defaults; simpl.
  rewrite Hre, Hde, Hqu, Hcs, Hid, Htype. f_equal. f_equal.
  apply defaulted_Valid in Hrq as [[-> ->]|(b & -> & [= <-])]; done.
Qed.

Lemma dict_bool_default name o b :
  defaulted name false bool_field o = Valid b → Some b = Some (default false o).
Proof. intros [[-> ->]|(? & -> & [= <-])]%defaulted_Valid; done. Qed.

Lemma dict_shared_payload p m :
  validate_SurveySharedModel p = Valid m →
  dict_SurveySharedModel m = shared_with_defaults p.
Proof.
  unfold validate_SurveySharedModel.
  intros (g7 & al & Hg7 & Hal & ->)%vap_Valid.
  apply vap_Valid in Hg7 as (g6 & am & Hg6 & Ham & ->).
  apply vap_Valid in Hg6 as (g5 & pb & Hg5 & Hpb & ->).
  apply vap_Valid in Hg5 as (g4 & rl & Hg4 & Hrl & ->).
  apply vap_Valid in Hg4 as (g3 & sg & Hg3 & Hsg & ->).
  apply vap_Valid in Hg3 as (g2 & qs & Hg2 & Hqs & ->).
  apply vap_Valid in Hg2 as (g1 & de & Hg1 & Hde & ->).
  apply vmap_Valid in Hg1 as (ti & Hti & ->).
  apply dict_required_IvCipher in Hti. apply dict_optional_IvCipher in Hde.
  apply required_Valid in Hsg as (? & Hsig & [-> _]%str_max_Valid).
  apply dict_bool_default in Hrl, Hpb, Ham.
  apply required_Valid in Hqs as (rqs & Hrqs & Hqs).
  apply vbind_Valid in Hqs as (qs' & [_ Hqs]%list_field_Valid
                               & [-> _]%questions_validator_Valid).
  assert (map dict_SurveyQuestionModel qs' = map question_with_defaults rqs) as Hmap.
  { clear -Hqs. induction Hqs as [|r q rqs' qs Hrq _ IH]; simpl; [done|].
    f_equal; [by apply dict_question_payload | done]. }
  unfold dict_SurveySharedModel, shared_with_defaults; simpl.
  rewrite Hti, Hde, Hsig, Hrl, Hpb, Ham, Hrqs, Hmap. simpl. f_equal.
  apply defaulted_Valid in Hal as [[-> ->]|(a & -> & [= <-])]; done.
Qed.

Lemma dict_create_payload p m :
  validate_SurveyCreateModel p = Valid m →
  dict_SurveyCreateModel m = create_with_defaults p.
Proof.
  unfold validate_SurveyCreateModel.
  intros (g3 & kp & Hg3 & Hkp & ->)%vap_Valid.
  apply vap_Valid in Hg3 as (g2 & sk & Hg2 & Hsk & ->).
  apply vap_Valid in Hg2 as (g1 & sg & Hg1 & Hsg & ->).
  apply vmap_Valid in Hg1 as (sh & Hsh & ->).
  apply dict_shared_payload in Hsh. apply dict_required_IvCipher in Hsk.
  apply required_Valid in Hsg as (rsg & Hrsg & Hsg).
  apply validate_SurveySignKeyPairModel_Valid in Hsg as (Hi & Hpk & Hct & _).
  apply required_Valid in Hkp as (rkp & Hrkp & Hkp).
  unfold validate_SurveyKeypairModel in Hkp.
  apply vap_Valid in Hkp as (g & pr & (pu & Hpu & ->)%vmap_Valid & Hpr & ->).
  apply dict_required_IvCipher in Hpu, Hpr.
  unfold dict_SurveyCreateModel, create_with_defaults; simpl.
  rewrite Hsh, Hsk, Hrsg, Hrkp. f_equal.
  - f_equal. destruct rsg; simpl in *. unfold dict_SurveySignKeyPairModel.
    by rewrite <-Hi, <-Hpk, <-Hct.
  - f_equal. destruct rkp; simpl in *. unfold dict_SurveyKeypairModel; simpl.
    by rewrite Hpu, Hpr.
Qed.

End stored_values.

(** X4.  Validation stores what it is given: the document of an accepted
    create payload is the payload itself with the defaults written out
    ([required] of a question, the three policy flags, [algorithms]).  No
    [iv], cipher text, key, id or signature is altered. *)
Theorem accepted_survey_stored_verbatim `{SurveyModels.IvWindow}
    (p : SurveyModels.RawSurveyCreate) (m : SurveyModels.SurveyCreateModel) :
  SurveyModels.validate_SurveyCreateModel p = Valid m →
  SurveyModels.dict_SurveyCreateModel m = Defaults.create_with_defaults p.
Proof. apply dict_create_payload. Qed.

Lemma accepted_survey_stored_verbatim_S :
  SurveyModels.dict_SurveyCreateModel (SurveyModels.survey_create Examples.S)
  = Defaults.create_with_defaults (Examples.create_payload [Examples.question 0 3]).
Proof.
  apply (@accepted_survey_stored_verbatim Examples.window
           (Examples.create_payload [Examples.question 0 3])).
  vm_compute. reflexivity.
Defined.

(** X5.  Whether a question is accepted does not depend on its type: an
    accepted question stays accepted, with every other field unchanged, when
    its type tag is replaced by any of the four.  Choices are neither
    required of a choice type nor refused of a text type. *)
Theorem question_accepted_for_any_type `{SurveyModels.IvWindow}
    (q : SurveyModels.RawQuestion) (m : SurveyModels.SurveyQuestionModel)
    (type : SurveyModels.SurveyQuestionType) :
  SurveyModels.validate_SurveyQuestionModel q = Valid m →
  SurveyModels.validate_SurveyQuestionModel
    (Defaults.question_with_type q (SurveyModels.SurveyQuestionType_value type))
  = Valid {| SurveyModels.q_id := SurveyModels.q_id m;
             SurveyModels.q_regex := SurveyModels.q_regex m;
             SurveyModels.q_description := SurveyModels.q_description m;
             SurveyModels.q_question := SurveyModels.q_question m;
             SurveyModels.q_choices := SurveyModels.q_choices m;
             SurveyModels.q_required := SurveyModels.q_required m;
             SurveyModels.q_type := type |}.
Proof.
  unfold SurveyModels.validate_SurveyQuestionModel.
  intros (g6 & ty & Hg6 & Hty & ->)%vap_Valid.
  unfold Defaults.question_with_type; simpl. rewrite Hg6.
  assert (required "type" SurveyModels.validate_SurveyQuestionType
            (Some (SurveyModels.SurveyQuestionType_value type)) = Valid type) as ->.
  { apply required_Valid. eexists. split; [done|].
    by apply validate_SurveyQuestionType_Valid. }
  simpl.
  apply vap_Valid in Hg6 as (g5 & rq & Hg5 & Hrq & ->).
  apply vap_Valid in Hg5 as (g4 & cs & Hg4 & Hcs & ->).
  apply vap_Valid in Hg4 as (g3 & qu & Hg3 & Hqu & ->).
  apply vap_Valid in Hg3 as (g2 & de & Hg2 & Hde & ->).
  apply vap_Valid in Hg2 as (g1 & re & Hg1 & Hre & ->).
  apply vmap_Valid in Hg1 as (n & Hn & ->). done.
Qed.

Lemma text_question_with_choices_accepted :
  @SurveyModels.validate_SurveyQuestionModel Examples.window
    (Defaults.question_with_type (Examples.question 0 3)
       (SurveyModels.SurveyQuestionType_value SurveyModels.ShortAnswer))
  = Valid {| SurveyModels.q_id := 0;
             SurveyModels.q_regex := None;
             SurveyModels.q_description := None;
             SurveyModels.q_question := Examples.cipher "q";
             SurveyModels.q_choices := Some [Examples.S_choice 0; Examples.S_choice 1];
             SurveyModels.q_required := false;
             SurveyModels.q_type := SurveyModels.ShortAnswer |}.
Proof.
  apply (@question_accepted_for_any_type Examples.window (Examples.question 0 3)
           {| SurveyModels.q_id := 0;
              SurveyModels.q_regex := None;
              SurveyModels.q_description := None;
              SurveyModels.q_question := Examples.cipher "q";
              SurveyModels.q_choices := Some [Examples.S_choice 0; Examples.S_choice 1];
              SurveyModels.q_required := false;
              SurveyModels.q_type := SurveyModels.SingleChoice |}
           SurveyModels.ShortAnswer).
  vm_compute. reflexivity.
Defined.

(** ** Account models *)

(** X6.  The [provisioning_uri] of an [OtpModel] is the one computed from
    its secret: the value the payload carries for it has no influence, and
    building the model again from its own document returns the same
    instance. *)
Theorem OtpModel_uri_is_computed (totp_provisioning_uri : string → string)
    (p : UserModels.RawOtp) (m : UserModels.OtpModel) :
  UserModels.validate_OtpModel totp_provisioning_uri p = Valid m →
  UserModels.provisioning_uri m = totp_provisioning_uri (UserModels.secret m)
  ∧ (∀ supplied,
       UserModels.validate_OtpModel totp_provisioning_uri
         {| UserModels.raw_secret := UserModels.raw_secret p;
            UserModels.raw_completed := UserModels.raw_completed p;
            UserModels.raw_provisioning_uri := supplied |}
       = Valid m)
  ∧ UserModels.validate_OtpModel totp_provisioning_uri (UserModels.dict_OtpModel m)
    = Valid m.
Proof.
  unfold UserModels.validate_OtpModel.
  intros (m0 & Hm0 & ->)%vmap_Valid.
  apply vap_Valid in Hm0 as (g2 & u & Hg2 & Hu & ->).
  apply vap_Valid in Hg2 as (g1 & c & Hg1 & Hc & ->).
  apply vmap_Valid in Hg1 as (s & Hs & ->).
  apply required_Valid in Hs as (? & Hsec & [= <-]).
  simpl. split_and!; [done| |].
  - intros supplied. simpl. rewrite Hsec.
    assert (defaulted "completed" false bool_field (UserModels.raw_completed p)
            = Valid c) as -> by done.
    by destruct supplied.
  - simpl. done.
Qed.

Lemma OtpModel_uri_is_computed_otp0 :
  UserModels.provisioning_uri Cases.otp0
  = Cases.otp_uri (UserModels.secret Cases.otp0)
  ∧ (∀ supplied,
       UserModels.validate_OtpModel Cases.otp_uri
         {| UserModels.raw_secret := UserModels.raw_secret Cases.otp_payload;
            UserModels.raw_completed := UserModels.raw_completed Cases.otp_payload;
            UserModels.raw_provisioning_uri := supplied |}
       = Valid Cases.otp0)
  ∧ UserModels.validate_OtpModel Cases.otp_uri (UserModels.dict_OtpModel Cases.otp0)
    = Valid Cases.otp0.
Proof.
  apply (OtpModel_uri_is_computed Cases.otp_uri Cases.otp_payload Cases.otp0).
  vm_compute. reflexivity.
Defined.

(** X7.  The account key material is rejected exactly on these conditions:
    the auth key when its [public_key] is absent or longer than 44; a key
    pair (signing or encryption) when its [iv] is absent or outside the
    window, its [public_key] absent or longer than 44, or its [cipher_text]
    absent or longer than 240; the keychain when its [iv] is absent or
    outside the window or its [cipher_text] absent or longer than 82.
    Present strings within the upper bound are accepted, the empty string
    included. *)
Theorem account_keys_rejected_exactly `{SurveyModels.IvWindow} :
  (∀ p, is_valid (UserModels.validate_AccountAuthModal p) = false ↔
        Rejection.absent_or_longer 44 (UserModels.raw_auth_public_key p))
  ∧ (∀ p, is_valid (UserModels.validate_AccountKeyPair p) = false ↔
          Rejection.iv_rejected (UserModels.raw_akp_iv p)
          ∨ Rejection.absent_or_longer 44 (UserModels.raw_akp_public_key p)
          ∨ Rejection.absent_or_longer 240 (UserModels.raw_akp_cipher_text p))
  ∧ (∀ p, is_valid (UserModels.validate_AccountKeychainModal p) = false ↔
          Rejection.iv_rejected (SurveyModels.raw_iv p)
          ∨ Rejection.absent_or_longer 82 (SurveyModels.raw_cipher_text p)).
Proof.
  split_and!.
  - intros p. unfold UserModels.validate_AccountAuthModal.
    by rewrite is_valid_vmap, required_str_rejected.
  - intros p. unfold UserModels.validate_AccountKeyPair.
    rewrite !is_valid_vap, is_valid_vmap, !andb_false_iff.
    rewrite required_iv_rejected, !required_str_rejected. tauto.
  - intros p. apply validate_IvCipher_rejected.
Qed.

(** ** Creating and listing surveys *)

Section collection.
Import SurveyModels Handler SurveyCollection Invariants.
Context `{IvWindow}.

(** The user of the document a survey was built from. *)
Lemma validate_SurveyModel_user d s :
  validate_SurveyModel d = Valid s → raw_user_id d = Some (user_id s).
Proof.
  unfold validate_SurveyModel.
  intros (g3 & ui & Hg3 & Hui & ->)%vap_Valid.
  apply vap_Valid in Hg3 as (g2 & i & Hg2 & Hi & ->).
  apply vap_Valid in Hg2 as (g1 & cr & Hg1 & Hcr & ->).
  apply vmap_Valid in Hg1 as (c & Hc & ->).
  by apply required_Valid in Hui as (? & -> & [= <-]).
Qed.

(** The loop returns the instances of the cursor's documents after the
    ones it was given, or raises at the first document that is rejected;
    the store is not touched. *)
Lemma collect_returns cursor l surveys st :
  Forall2 (λ d s, validate_SurveyModel d = Valid s) cursor l →
  collect cursor surveys st = (Returned (surveys ++ l), st).
Proof.
  intros Hl. revert surveys.
  induction Hl as [|d s cursor l Hd _ IH]; intros surveys; simpl.
  - by rewrite app_nil_r.
  - unfold bind, SurveyModel_init. rewrite Hd. unfold ret at 1.
    rewrite IH. by rewrite <-app_assoc.
Qed.

Lemma collect_outcome cursor surveys st :
  (∃ l, Forall2 (λ d s, validate_SurveyModel d = Valid s) cursor l
        ∧ collect cursor surveys st = (Returned (surveys ++ l), st))
  ∨ (∃ d errs, d ∈ cursor ∧ validate_SurveyModel d = Invalid errs
               ∧ collect cursor surveys st = (Raised (ValidationError errs), st)).
Proof.
  revert surveys. induction cursor as [|d cursor IH]; intros surveys; simpl.
  - left. exists []. split; [constructor|]. by rewrite app_nil_r.
  - unfold bind, SurveyModel_init.
    destruct (validate_SurveyModel d) as [s|errs] eqn:Hd.
    + change (ret s st) with (Returned s, st).
      destruct (IH (surveys ++ [s])) as [(l & Hl & ->)|(d' & errs & Hin & Hd' & ->)].
      * left. exists (s :: l). split; [by constructor|]. by rewrite <-app_assoc.
      * right. exists d', errs. split_and!; [by apply list_elem_of_further|done|done].
    + right. exists d, errs. split_and!; [apply list_elem_of_here|done|done].
Qed.

Lemma collect_raises cursor surveys st d errs :
  d ∈ cursor → validate_SurveyModel d = Invalid errs →
  ∃ errs', collect cursor surveys st = (Raised (ValidationError errs'), st).
Proof.
  intros Hin Hd.
  destruct (collect_outcome cursor surveys st)
    as [(l & Hl & _)|(d' & errs' & _ & _ & ->)]; [|eauto].
  exfalso. apply list_elem_of_lookup in Hin as [i Hi].
  destruct (Forall2_lookup_l _ _ _ _ _ Hl Hi) as (s & _ & Hs). congruence.
Qed.

Lemma collect_store_irrelevant cursor surveys st1 st2 :
  (collect cursor surveys st1).1 = (collect cursor surveys st2).1.
Proof.
  revert surveys. induction cursor as [|d cursor IH]; intros surveys; simpl; [done|].
  unfold bind, SurveyModel_init.
  destruct (validate_SurveyModel d) as [s|errs]; [|done].
  change (ret s st1) with (Returned s, st1).
  change (ret s st2) with (Returned s, st2). apply IH.
Qed.

Lemma create_survey_result request p data utcnow generated u st :
  validate_SurveyCreateModel p = Valid data →
  user request = Some u →
  create_survey request data utcnow generated st
  = (Returned {| survey_create := data; created := utcnow;
                 id := generated; user_id := u |},
     {| survey := survey st ++
          [dict_SurveyModel {| survey_create := data;
                               created := bson_datetime utcnow;
                               id := generated; user_id := u |}] |}).
Proof.
  intros Hdata Hu. apply validate_SurveyCreateModel_inv in Hdata as [Hwf _].
  unfold create_survey, bind, insert_one; simpl. rewrite Hu.
  unfold SurveyModel_init.
  pose proof (validate_SurveyModel_dict
                {| survey_create := data; created := utcnow;
                   id := generated; user_id := u |} Hwf) as Hv.
  unfold dict_SurveyModel in Hv; simpl in Hv. rewrite Hv. done.
Qed.

Lemma list_surveys_returned request st st' l :
  list_surveys request st = (Returned l, st') →
  st' = st
  ∧ Forall2 (λ d s, validate_SurveyModel d = Valid s)
      (List.filter (λ d, bool_decide (raw_user_id d = user request)) (survey st)) l
  ∧ Forall (λ s, user request = Some (user_id s) ∧ wf_create (survey_create s)) l.
Proof.
  unfold list_surveys, find_by_user,
    bind, gets.
  set (mine := List.filter _ _).
  destruct (collect_outcome mine [] st)
    as [(l' & Hl' & ->)|(d & errs & _ & _ & ->)]; [|done].
  intros [= <- <-]. split_and!; [done|done|].
  assert (Forall (λ d, raw_user_id d = user request) mine) as Hmine.
  { apply Forall_forall. intros d Hd. apply list_elem_of_In in Hd.
    apply filter_In in Hd as [_ Hd]. by apply bool_decide_eq_true in Hd. }
  clearbody mine. induction Hl' as [|d s mine l' Hd _ IH]; [constructor|].
  apply Forall_cons in Hmine as [Hu Hmine]. constructor; [|by apply IH].
  split.
  - rewrite <-Hu. by apply validate_SurveyModel_user.
  - apply validate_SurveyModel_inv in Hd.
    by apply validate_SurveyCreateModel_inv in Hd as [? _].
Qed.

End collection.

(** X8.  [create_survey], given validated data and an authenticated caller,
    never fails: it returns the survey made of the data, the time of the
    call, the generated id and the caller as owner, and the collection
    gains exactly one document at its end, the document of that survey with
    [created] as BSON keeps it, to the millisecond. *)
Theorem create_survey_returns_stored `{SurveyModels.IvWindow}
    (request : Handler.Request) (p : SurveyModels.RawSurveyCreate)
    (data : SurveyModels.SurveyCreateModel) (utcnow : Z) (generated u : ObjectId)
    (st : SurveyCollection.Mongo) :
  SurveyModels.validate_SurveyCreateModel p = Valid data →
  Handler.user request = Some u →
  SurveyCollection.create_survey request data utcnow generated st
  = (Handler.Returned
       {| SurveyModels.survey_create := data; SurveyModels.created := utcnow;
          SurveyModels.id := generated; SurveyModels.user_id := u |},
     {| SurveyCollection.survey :=
          SurveyCollection.survey st ++
          [SurveyModels.dict_SurveyModel
             {| SurveyModels.survey_create := data;
                SurveyModels.created := SurveyCollection.bson_datetime utcnow;
                SurveyModels.id := generated; SurveyModels.user_id := u |}] |}).
Proof. apply create_survey_result. Qed.

Lemma create_survey_returns_stored_S2 :
  @SurveyCollection.create_survey Examples.window Cases.as_owner
    (SurveyModels.survey_create Examples.S) 1700000002 Cases.generated0
    Cases.collection0
  = (Handler.Returned
       {| SurveyModels.survey_create := SurveyModels.survey_create Examples.S;
          SurveyModels.created := 1700000002;
          SurveyModels.id := Cases.generated0;
          SurveyModels.user_id := Examples.owner |},
     {| SurveyCollection.survey :=
          SurveyCollection.survey Cases.collection0 ++
          [SurveyModels.dict_SurveyModel
             {| SurveyModels.survey_create := SurveyModels.survey_create Examples.S;
                SurveyModels.created := SurveyCollection.bson_datetime 1700000002;
                SurveyModels.id := Cases.generated0;
                SurveyModels.user_id := Examples.owner |}] |}).
Proof.
  apply (@create_survey_returns_stored Examples.window Cases.as_owner
           (Examples.create_payload [Examples.question 0 3])).
  - vm_compute. reflexivity.
  - vm_compute. reflexivity.
Defined.

(** X9.  A listing returns only what belongs to the caller and is valid: it
    leaves the collection as it was, its surveys are the instances of the
    caller's documents in the order of the collection, each has the caller
    as [user_id], and each is within the bounds of the schema. *)
Theorem list_surveys_returns_own `{SurveyModels.IvWindow}
    (request : Handler.Request) (st st' : SurveyCollection.Mongo)
    (l : list SurveyModels.SurveyModel) :
  SurveyCollection.list_surveys request st = (Handler.Returned l, st') →
  st' = st
  ∧ Forall2 (λ d s, SurveyModels.validate_SurveyModel d = Valid s)
      (List.filter
         (λ d, bool_decide (SurveyModels.raw_user_id d = Handler.user request))
         (SurveyCollection.survey st)) l
  ∧ Forall (λ s, Handler.user request = Some (SurveyModels.user_id s)
                 ∧ Invariants.wf_create (SurveyModels.survey_create s)) l.
Proof. apply list_surveys_returned. Qed.

Lemma list_surveys_returns_own_S :
  Cases.collection0 = Cases.collection0
  ∧ Forall2 (λ d s, @SurveyModels.validate_SurveyModel Examples.window d = Valid s)
      (List.filter
         (λ d, bool_decide (SurveyModels.raw_user_id d = Handler.user Cases.as_owner))
         (SurveyCollection.survey Cases.collection0)) [Examples.S]
  ∧ Forall (λ s, Handler.user Cases.as_owner = Some (SurveyModels.user_id s)
                 ∧ @Invariants.wf_create Examples.window (SurveyModels.survey_create s))
      [Examples.S].
Proof.
  apply (@list_surveys_returns_own Examples.window Cases.as_owner).
  vm_compute. reflexivity.
Defined.

(** X10.  A listing does not depend on the documents of other accounts:
    with a document of another [user_id] added anywhere in the collection,
    valid or not, the outcome is the same. *)
Theorem list_surveys_ignores_others `{SurveyModels.IvWindow}
    (request : Handler.Request) (before after : list SurveyModels.RawSurvey)
    (d : SurveyModels.RawSurvey) :
  SurveyModels.raw_user_id d ≠ Handler.user request →
  (SurveyCollection.list_surveys request
     {| SurveyCollection.survey := before ++ d :: after |}).1
  = (SurveyCollection.list_surveys request
       {| SurveyCollection.survey := before ++ after |}).1.
Proof.
  intros Hd.
  unfold SurveyCollection.list_surveys, SurveyCollection.find_by_user,
    Handler.bind, Handler.gets; simpl.
  rewrite !List.filter_app; simpl. rewrite bool_decide_eq_false_2 by done.
  apply collect_store_irrelevant.
Qed.

Lemma list_surveys_ignores_foreign_document :
  (@SurveyCollection.list_surveys Examples.window Cases.as_owner
     {| SurveyCollection.survey := [Examples.S_document] ++ Cases.foreign_document :: [] |}).1
  = (@SurveyCollection.list_surveys Examples.window Cases.as_owner
       {| SurveyCollection.survey := [Examples.S_document] ++ [] |}).1.
Proof.
  apply (@list_surveys_ignores_others Examples.window Cases.as_owner
           [Examples.S_document] [] Cases.foreign_document).
  vm_compute. discriminate.
Defined.

(** X11.  One document of the caller that [SurveyModel] rejects makes the
    whole listing fail with a validation error: no survey is returned, and
    the collection is left as it was. *)
Theorem list_surveys_fails_on_invalid `{SurveyModels.IvWindow}
    (request : Handler.Request) (st : SurveyCollection.Mongo)
    (d : SurveyModels.RawSurvey) (errs : list Pydantic.error) :
  d ∈ SurveyCollection.survey st →
  SurveyModels.raw_user_id d = Handler.user request →
  SurveyModels.validate_SurveyModel d = Invalid errs →
  ∃ errs', SurveyCollection.list_surveys request st
           = (Handler.Raised (Handler.ValidationError errs'), st).
Proof.
  intros Hin Hu Hd.
  unfold SurveyCollection.list_surveys, SurveyCollection.find_by_user,
    Handler.bind, Handler.gets.
  eapply collect_raises; [|done].
  apply list_elem_of_In, filter_In. split; [by apply list_elem_of_In|].
  by apply bool_decide_eq_true.
Qed.

Lemma list_surveys_fails_on_broken_document :
  ∃ errs', @SurveyCollection.list_surveys Examples.window Cases.as_owner
             {| SurveyCollection.survey := [Examples.S_document; Cases.broken_document] |}
           = (Handler.Raised (Handler.ValidationError errs'),
              {| SurveyCollection.survey := [Examples.S_document; Cases.broken_document] |}).
Proof.
  apply (@list_surveys_fails_on_invalid Examples.window Cases.as_owner
           {| SurveyCollection.survey := [Examples.S_document; Cases.broken_document] |}
           Cases.broken_document
           [([Key "questions"], ValueError "Duplicate question ids")]).
  - simpl. apply list_elem_of_further, list_elem_of_here.
  - vm_compute. reflexivity.
  - vm_compute. reflexivity.
Defined.

(** X12.  A created survey is listed as it was stored: after
    [create_survey] for validated data and an authenticated caller, the
    caller's listing is the listing from before followed by the survey that
    [create_survey] returned with its [created] cut to the millisecond.  The
    listed survey is the returned one exactly when the time of the call is
    a whole number of milliseconds. *)
Theorem created_survey_is_listed `{SurveyModels.IvWindow}
    (request : Handler.Request) (p : SurveyModels.RawSurveyCreate)
    (data : SurveyModels.SurveyCreateModel) (utcnow : Z) (generated u : ObjectId)
    (st : SurveyCollection.Mongo) (l : list SurveyModels.SurveyModel) :
  SurveyModels.validate_SurveyCreateModel p = Valid data →
  Handler.user request = Some u →
  SurveyCollection.list_surveys request st = (Handler.Returned l, st) →
  ∃ s st',
    SurveyCollection.create_survey request data utcnow generated st
    = (Handler.Returned s, st')
    ∧ SurveyCollection.list_surveys request st'
      = (Handler.Returned
           (l ++ [{| SurveyModels.survey_create := SurveyModels.survey_create s;
                     SurveyModels.created :=
                       SurveyCollection.bson_datetime (SurveyModels.created s);
                     SurveyModels.id := SurveyModels.id s;
                     SurveyModels.user_id := SurveyModels.user_id s |}]), st')
    ∧ (SurveyCollection.bson_datetime (SurveyModels.created s)
       = SurveyModels.created s ↔ utcnow mod 1000 = 0).
Proof.
  intros Hdata Hu Hlist.
  eexists _, _. split; [by eapply create_survey_result|]. simpl. split.
  - apply list_surveys_returned in Hlist as (_ & Hl & _).
    unfold SurveyCollection.list_surveys, SurveyCollection.find_by_user,
      Handler.bind, Handler.gets; simpl.
    rewrite List.filter_app; simpl. rewrite Hu, bool_decide_eq_true_2 by done.
    rewrite (collect_returns _
               (l ++ [{| SurveyModels.survey_create := data;
                         SurveyModels.created := SurveyCollection.bson_datetime utcnow;
                         SurveyModels.id := generated;
                         SurveyModels.user_id := u |}])); [done|].
    apply Forall2_app; [by rewrite <-Hu|]. constructor; [|constructor].
    apply validate_SurveyCreateModel_inv in Hdata as [Hwf _].
    by apply (validate_SurveyModel_dict
                {| SurveyModels.survey_create := data;
                   SurveyModels.created := SurveyCollection.bson_datetime utcnow;
                   SurveyModels.id := generated; SurveyModels.user_id := u |}).
  - unfold SurveyCollection.bson_datetime.
    pose proof (Z.div_mod utcnow 1000). lia.
Qed.

Lemma created_S2_is_listed :
  ∃ s st',
    @SurveyCollection.create_survey Examples.window Cases.as_owner
      (SurveyModels.survey_create Examples.S) 1700000002 Cases.generated0
      Cases.collection0
    = (Handler.Returned s, st')
    ∧ @SurveyCollection.list_surveys Examples.window Cases.as_owner st'
      = (Handler.Returned
           ([Examples.S] ++
            [{| SurveyModels.survey_create := SurveyModels.survey_create s;
                SurveyModels.created :=
                  SurveyCollection.bson_datetime (SurveyModels.created s);
                SurveyModels.id := SurveyModels.id s;
                SurveyModels.user_id := SurveyModels.user_id s |}]), st')
    ∧ (SurveyCollection.bson_datetime (SurveyModels.created s)
       = SurveyModels.created s ↔ 1700000002 mod 1000 = 0).
Proof.
  apply (@created_survey_is_listed Examples.window Cases.as_owner
           (Examples.create_payload [Examples.question 0 3])
           (SurveyModels.survey_create Examples.S) 1700000002 Cases.generated0
           Examples.owner Cases.collection0 [Examples.S]).
  - vm_compute. reflexivity.
  - vm_compute. reflexivity.
  - vm_compute. reflexivity.
Defined.

(** ** The handlers, for any collaborators *)

Section any_collaborators.
Import SurveyModels Handler SurveyController.

Variable Survey_get : ObjectId → M State StoredSurvey.
Variable Survey_public : ObjectId → M State SurveyPublicModel.
Variable Survey_submit_answers :
  ObjectId → SubmitSurveyModel → option ObjectId → M State unit.
Variable validate_captcha : option string → M State unit.
Variable GeoIp_get : string → M State (option geoip_record).

Lemma proxy_gate_frame survey request st o st' :
  (∀ h st r st', GeoIp_get h st = (r, st') → st' = st) →
  proxy_gate GeoIp_get survey request st = (o, st') → st' = st.
Proof.
  intros Hframe. unfold proxy_gate.
  destruct (proxy_block _); [|by intros [= _ <-]].
  destruct (client_host request) as [h|]; [|by intros [= _ <-]].
  unfold bind. destruct (GeoIp_get h st) as [[g|e] st1] eqn:Hg.
  - apply Hframe in Hg as ->.
    destruct (proxy_verdict_outcome g st) as [-> | ->]; by intros [= _ <-].
  - apply Hframe in Hg as ->. by intros [= _ <-].
Qed.

Lemma submit_survey_writes request survey_id data captcha st o st' :
  (∀ i st r st', Survey_get i st = (r, st') → st' = st) →
  (∀ c st r st', validate_captcha c st = (r, st') → st' = st) →
  (∀ h st r st', GeoIp_get h st = (r, st') → st' = st) →
  submit_survey Survey_get Survey_submit_answers validate_captcha GeoIp_get
    request survey_id data captcha st = (o, st') →
  (∃ e, o = Raised e ∧ st' = st)
  ∨ (∃ id_, ObjectId_of_str survey_id = Some id_
            ∧ Survey_submit_answers id_ data (user request) st = (o, st')).
Proof.
  intros Hget Hcap Hgeo. unfold submit_survey, parse_survey_id.
  destruct (ObjectId_of_str survey_id) as [id_|]; [|intros [= <- <-]; eauto].
  unfold bind at 1. unfold ret at 1. unfold bind at 1.
  destruct (Survey_get id_ st) as [[survey|e] st1] eqn:Hs;
    apply Hget in Hs as ->; [|intros [= <- <-]; eauto].
  unfold bind at 1.
  destruct (captcha_gate validate_captcha survey captcha st) as [[[]|e] st1] eqn:Hc.
  2: { unfold captcha_gate in Hc. destruct (requires_captcha survey); [|done].
       apply Hcap in Hc as ->. intros [= <- <-]; eauto. }
  assert (st1 = st) as ->.
  { unfold captcha_gate in Hc. destruct (requires_captcha survey).
    - by apply Hcap in Hc. - by injection Hc. }
  unfold after_captcha, authentication_gate.
  destruct (user request) as [u|].
  - unfold bind at 1. unfold ret at 1. unfold bind at 1.
    rewrite duplicate_gate_returns. unfold bind.
    destruct (proxy_gate GeoIp_get survey request st) as [[[]|e] st1] eqn:Hp;
      apply proxy_gate_frame in Hp as ->; try done.
    + intros Hsub. right. eauto.
    + intros [= <- <-]; eauto.
  - destruct (requires_login _); [intros [= <- <-]; eauto|].
    unfold bind at 1. unfold ret at 1. unfold bind at 1.
    rewrite duplicate_gate_returns. unfold bind.
    destruct (proxy_gate GeoIp_get survey request st) as [[[]|e] st1] eqn:Hp;
      apply proxy_gate_frame in Hp as ->; try done.
    + intros Hsub. right. eauto.
    + intros [= <- <-]; eauto.
Qed.

End any_collaborators.

(** A string with a character that is neither a hexadecimal digit nor white
    space is not read by [bytes.fromhex]. *)
Lemma fromhex_other_character (s : list Ascii.ascii) :
  Exists (λ c, hex_value c = None ∧ is_space c = false) s → fromhex s = None.
Proof.
  remember (length s) as n eqn:Hn. revert s Hn.
  induction n as [n IH] using lt_wf_ind. intros [|c rest] Hn Hbad.
  { by apply Exists_nil in Hbad. }
  simpl in *. destruct (is_space c) eqn:Hspace.
  - apply Exists_cons in Hbad as [[_ ?]|Hbad]; [congruence|].
    apply (IH (length rest)); [lia|done|done].
  - destruct (hex_value c) as [top|] eqn:Htop; [|done].
    destruct rest as [|c' rest']; [done|].
    destruct (hex_value c') as [bot|] eqn:Hbot; [|done].
    apply Exists_cons in Hbad as [[? _]|Hbad]; [congruence|].
    apply Exists_cons in Hbad as [[? _]|Hbad]; [congruence|].
    rewrite (IH (length rest')); [done|simpl in *; lia|done|done].
Qed.

(** X13.  A survey id that is not 24 characters long, or that has a
    character that is neither a hexadecimal digit nor white space, ends both
    [submit_survey] and [public_survey] with [SurveyNotFoundException]
    before any collaborator is called: the store is left as it was,
    whatever the collaborators, the request and the body. *)
Theorem malformed_id_is_not_found
    (Survey_get : ObjectId → Handler.M SurveyController.State SurveyController.StoredSurvey)
    (Survey_public : ObjectId →
       Handler.M SurveyController.State SurveyModels.SurveyPublicModel)
    (Survey_submit_answers : ObjectId → SurveyModels.SubmitSurveyModel →
       option ObjectId → Handler.M SurveyController.State unit)
    (validate_captcha : option string → Handler.M SurveyController.State unit)
    (GeoIp_get : string →
       Handler.M SurveyController.State (option SurveyController.geoip_record))
    (request : Handler.Request) (survey_id : string)
    (data : SurveyModels.SubmitSurveyModel) (captcha : option string)
    (st : SurveyController.State) :
  String.length survey_id ≠ 24%nat
  ∨ Exists (λ c, hex_value c = None ∧ is_space c = false)
      (String.list_ascii_of_string survey_id) →
  SurveyController.submit_survey Survey_get Survey_submit_answers validate_captcha
    GeoIp_get request survey_id data captcha st
  = (Handler.Raised Handler.SurveyNotFoundException, st)
  ∧ SurveyController.public_survey Survey_public request survey_id st
    = (Handler.Raised Handler.SurveyNotFoundException, st).
Proof.
  intros Hbad.
  assert (ObjectId_of_str survey_id = None) as Hid.
  { unfold ObjectId_of_str. destruct Hbad as [Hlen|Hchar].
    - by apply Nat.eqb_neq in Hlen as ->.
    - rewrite (fromhex_other_character _ Hchar). by destruct (_ =? _)%nat. }
  unfold SurveyController.submit_survey, SurveyController.public_survey,
    SurveyController.parse_survey_id, Handler.bind.
  by rewrite Hid.
Qed.

Lemma malformed_id_is_not_found_short :
  Collaborators.submit Examples.providers Examples.as_U1 "64b7f0c2" Examples.answer0
    None Examples.store0
  = (Handler.Raised Handler.SurveyNotFoundException, Examples.store0)
  ∧ Collaborators.public Examples.as_U1 "64b7f0c2" Examples.store0
    = (Handler.Raised Handler.SurveyNotFoundException, Examples.store0).
Proof.
  apply (malformed_id_is_not_found Collaborators.Survey_get Collaborators.Survey_public
           Collaborators.Survey_submit_answers
           (Collaborators.validate_captcha Examples.providers)
           (Collaborators.GeoIp_get Examples.providers)).
  left. vm_compute. discriminate.
Defined.

(** X14.  [public_survey] returns a survey only as its collaborator returned
    it for the parsed id, and never returns a survey that requires login to
    a request without a user. *)
Theorem public_survey_login_gate
    (Survey_public : ObjectId →
       Handler.M SurveyController.State SurveyModels.SurveyPublicModel)
    (request : Handler.Request) (survey_id : string)
    (st st' : SurveyController.State) (pub : SurveyModels.SurveyPublicModel) :
  SurveyController.public_survey Survey_public request survey_id st
  = (Handler.Returned pub, st') →
  (SurveyModels.requires_login (SurveyModels.public_shared pub) = false
   ∨ is_Some (Handler.user request))
  ∧ ∃ id_, ObjectId_of_str survey_id = Some id_
           ∧ Survey_public id_ st = (Handler.Returned pub, st').
Proof.
  unfold SurveyController.public_survey, SurveyController.parse_survey_id, Handler.bind.
  destruct (ObjectId_of_str survey_id) as [id_|]; simpl; [|done].
  destruct (Survey_public id_ st) as [[survey|e] st1] eqn:Hp; [|done].
  unfold Handler.ret, Handler.raise.
  destruct (SurveyModels.requires_login _) eqn:Hlogin; simpl.
  - case_bool_decide as Hu; simpl; [|done].
    intros [= <- <-]. split; [by right|]. eauto.
  - intros [= <- <-]. split; [by left|]. eauto.
Qed.

Lemma public_survey_login_gate_S :
  (SurveyModels.requires_login
     (SurveyModels.public_shared (Collaborators.projectPublic Examples.S)) = false
   ∨ is_Some (Handler.user Examples.anonymous))
  ∧ ∃ id_, ObjectId_of_str Examples.S_hex = Some id_
           ∧ Collaborators.Survey_public id_ Examples.store0
             = (Handler.Returned (Collaborators.projectPublic Examples.S),
                Examples.store0).
Proof.
  apply (public_survey_login_gate Collaborators.Survey_public Examples.anonymous
           Examples.S_hex Examples.store0 Examples.store0
           (Collaborators.projectPublic Examples.S)).
  vm_compute. reflexivity.
Defined.

(** X15.  With collaborators that only read the store, the one write of
    [submit_survey] is the call of [submit_answers]: either the handler
    raises and the store is as it was, or its outcome is that of
    [submit_answers], called on the unchanged store with the parsed id, the
    body as received and the user of the request. *)
Theorem submit_survey_only_write
    (Survey_get : ObjectId → Handler.M SurveyController.State SurveyController.StoredSurvey)
    (Survey_submit_answers : ObjectId → SurveyModels.SubmitSurveyModel →
       option ObjectId → Handler.M SurveyController.State unit)
    (validate_captcha : option string → Handler.M SurveyController.State unit)
    (GeoIp_get : string →
       Handler.M SurveyController.State (option SurveyController.geoip_record))
    (request : Handler.Request) (survey_id : string)
    (data : SurveyModels.SubmitSurveyModel) (captcha : option string)
    (st st' : SurveyController.State) (o : Handler.outcome unit) :
  (∀ i st r st', Survey_get i st = (r, st') → st' = st) →
  (∀ c st r st', validate_captcha c st = (r, st') → st' = st) →
  (∀ h st r st', GeoIp_get h st = (r, st') → st' = st) →
  SurveyController.submit_survey Survey_get Survey_submit_answers validate_captcha
    GeoIp_get request survey_id data captcha st = (o, st') →
  (∃ e, o = Handler.Raised e ∧ st' = st)
  ∨ (∃ id_, ObjectId_of_str survey_id = Some id_
            ∧ Survey_submit_answers id_ data (Handler.user request) st = (o, st')).
Proof. apply submit_survey_writes. Qed.

Lemma submit_survey_only_write_U1 :
  (∃ e, Handler.Returned tt = Handler.Raised e ∧ Examples.store1 = Examples.store0)
  ∨ (∃ id_, ObjectId_of_str Examples.S_hex = Some id_
            ∧ Collaborators.Survey_submit_answers id_ Examples.answer0
                (Handler.user Examples.as_U1) Examples.store0
              = (Handler.Returned tt, Examples.store1)).
Proof.
  apply (submit_survey_only_write Collaborators.Survey_get
           Collaborators.Survey_submit_answers
           (Collaborators.validate_captcha Examples.providers)
           (Collaborators.GeoIp_get Examples.providers)
           Examples.as_U1 Examples.S_hex Examples.answer0 None).
  - intros i st r st'. unfold Collaborators.Survey_get.
    destruct (find _ _); intros [= _ <-]; reflexivity.
  - intros c st r st'. unfold Collaborators.validate_captcha.
    destruct c as [token|]; [destruct (Collaborators.captcha_verify _ token)|];
      intros [= _ <-]; reflexivity.
  - intros h st r st'. unfold Collaborators.GeoIp_get. intros [= _ <-]; reflexivity.
  - vm_compute. reflexivity.
Defined.

(** X16.  A lookup result that is a non-empty dictionary without the key
    [proxy] ends the submission with [KeyError] for that key: when the
    survey is fetched, the captcha and authentication gates pass, the
    survey has [proxy_block] set and the client's host is known,
    [submit_answers] is not reached. *)
Theorem lookup_without_verdict_raises
    (Survey_get : ObjectId → Handler.M SurveyController.State SurveyController.StoredSurvey)
    (Survey_submit_answers : ObjectId → SurveyModels.SubmitSurveyModel →
       option ObjectId → Handler.M SurveyController.State unit)
    (validate_captcha : option string → Handler.M SurveyController.State unit)
    (GeoIp_get : string →
       Handler.M SurveyController.State (option SurveyController.geoip_record))
    (request : Handler.Request) (survey_id : string)
    (data : SurveyModels.SubmitSurveyModel) (captcha : option string)
    (st : SurveyController.State) (id_ : ObjectId)
    (survey : SurveyController.StoredSurvey) (h : string)
    (d : SurveyController.geoip_record) :
  ObjectId_of_str survey_id = Some id_ →
  Survey_get id_ st = (Handler.Returned survey, st) →
  SurveyController.captcha_gate validate_captcha survey captcha st
  = (Handler.Returned tt, st) →
  is_Some (Handler.user request)
  ∨ SurveyModels.requires_login (SurveyController.stored_shared survey) = false →
  SurveyModels.proxy_block (SurveyController.stored_shared survey) = true →
  SurveyController.client_host request = Some h →
  GeoIp_get h st = (Handler.Returned (Some d), st) →
  d ≠ ∅ →
  d !! "proxy" = None →
  SurveyController.submit_survey Survey_get Survey_submit_answers validate_captcha
    GeoIp_get request survey_id data captcha st
  = (Handler.Raised (Handler.KeyError "proxy"), st).
Proof.
  intros Hid Hget Hcap Hauth Hblock Hhost Hgeo Hne Hkey.
  rewrite (submit_survey_fetched _ _ _ _ _ _ _ _ _ _ _ _ Hid Hget).
  unfold Handler.bind at 1. rewrite Hcap.
  assert (SurveyController.proxy_gate GeoIp_get survey request st
          = (Handler.Raised (Handler.KeyError "proxy"), st)) as Hgate.
  { unfold SurveyController.proxy_gate. rewrite Hblock, Hhost.
    unfold Handler.bind. rewrite Hgeo. unfold SurveyController.proxy_verdict.
    rewrite bool_decide_eq_false_2 by done. by rewrite Hkey. }
  destruct (Handler.user request) as [u|] eqn:Hu.
  - rewrite (after_captcha_authenticated _ _ _ _ _ _ u) by done.
    unfold Handler.bind. by rewrite Hgate.
  - rewrite after_captcha_anonymous by done.
    destruct Hauth as [[? [=]]| ->].
    unfold Handler.bind. by rewrite Hgate.
Qed.

Lemma lookup_without_verdict_raises_from_proxy :
  SurveyController.submit_survey Collaborators.Survey_get
    Collaborators.Survey_submit_answers
    (Collaborators.validate_captcha Examples.providers) Cases.GeoIp_without_verdict
    Examples.from_proxy Examples.S_hex Examples.answer0 None
    (Examples.store_with false true false false)
  = (Handler.Raised (Handler.KeyError "proxy"),
     Examples.store_with false true false false).
Proof.
  apply (lookup_without_verdict_raises Collaborators.Survey_get
           Collaborators.Survey_submit_answers
           (Collaborators.validate_captcha Examples.providers)
           Cases.GeoIp_without_verdict
           Examples.from_proxy Examples.S_hex Examples.answer0 None
           (Examples.store_with false true false false) Examples.S_id
           (Examples.stored false true false false) "203.0.113.7"
           {[ "country" := "NL" ]}).
  - vm_compute. reflexivity.
  - vm_compute. reflexivity.
  - vm_compute. reflexivity.
  - right. vm_compute. reflexivity.
  - vm_compute. reflexivity.
  - vm_compute. reflexivity.
  - reflexivity.
  - intros Hempty. apply (f_equal (λ m : gmap string string, m !! "country")) in Hempty.
    vm_compute in Hempty. discriminate.
  - vm_compute. reflexivity.
Defined.

(** X17.  A request without a usable client address never causes a lookup:
    when [request.client] is absent or its host is empty, the outcome of
    [submit_survey] is the same for every lookup collaborator. *)
Theorem no_lookup_without_client_host
    (Survey_get : ObjectId → Handler.M SurveyController.State SurveyController.StoredSurvey)
    (Survey_submit_answers : ObjectId → SurveyModels.SubmitSurveyModel →
       option ObjectId → Handler.M SurveyController.State unit)
    (validate_captcha : option string → Handler.M SurveyController.State unit)
    (GeoIp_get GeoIp_get' : string →
       Handler.M SurveyController.State (option SurveyController.geoip_record))
    (request : Handler.Request) (survey_id : string)
    (data : SurveyModels.SubmitSurveyModel) (captcha : option string)
    (st : SurveyController.State) :
  SurveyController.client_host request = None →
  SurveyController.submit_survey Survey_get Survey_submit_answers validate_captcha
    GeoIp_get request survey_id data captcha st
  = SurveyController.submit_survey Survey_get Survey_submit_answers validate_captcha
      GeoIp_get' request survey_id data captcha st.
Proof.
  intros Hhost.
  assert (∀ survey st,
            SurveyController.proxy_gate GeoIp_get survey request st
            = SurveyController.proxy_gate GeoIp_get' survey request st) as Hgate.
  { intros survey st0. unfold SurveyController.proxy_gate. by rewrite Hhost. }
  unfold SurveyController.submit_survey, SurveyController.after_captcha, Handler.bind.
  destruct (SurveyController.parse_survey_id survey_id st) as [[id_|e] st1]; [|done].
  destruct (Survey_get id_ st1) as [[survey|e] st2]; [|done].
  destruct (SurveyController.captcha_gate _ _ _ _) as [[[]|e] st3]; [|done].
  destruct (SurveyController.authentication_gate _ _ _) as [[u|e] st4]; [|done].
  destruct (SurveyController.duplicate_gate _ _) as [[[]|e] st5]; [|done].
  by rewrite Hgate.
Qed.

Lemma no_lookup_without_client_host_anonymous :
  SurveyController.submit_survey Collaborators.Survey_get
    Collaborators.Survey_submit_answers
    (Collaborators.validate_captcha Examples.providers)
    (Collaborators.GeoIp_get Examples.providers)
    Examples.anonymous Examples.S_hex Examples.answer0 None
    (Examples.store_with false true false false)
  = SurveyController.submit_survey Collaborators.Survey_get
      Collaborators.Survey_submit_answers
      (Collaborators.validate_captcha Examples.providers)
      Cases.GeoIp_without_verdict
      Examples.anonymous Examples.S_hex Examples.answer0 None
      (Examples.store_with false true false false).
Proof.
  apply (no_lookup_without_client_host Collaborators.Survey_get
           Collaborators.Survey_submit_answers
           (Collaborators.validate_captcha Examples.providers)
           (Collaborators.GeoIp_get Examples.providers) Cases.GeoIp_without_verdict).
  vm_compute. reflexivity.
Defined.
